(** * AMPL pipeline: parameter normalisation and model-wrapper training loops

    A shallow embedding of the parts of
    [atomsci/ddm/pipeline/parameter_parser.py] and
    [atomsci/ddm/pipeline/model_wrapper.py] that carry the repository's own
    logic: flattening of nested configurations, the command-line duplicate
    check, post-processing of parsed arguments, the model-wrapper factory, and
    the epoch / fold loops of the three model wrappers.

    Conventions.
    - Python values are [pyval]; a Python [dict] is an insertion-ordered
      association list with unique keys ([dict_set] updates in place or
      appends), because [dict_to_list] and [str] depend on the order.
    - A Python [float] is a rational [Q]; [nan] and the infinities are not
      represented.  Text conversion of floats ([float(s)], [str(x)]) is the
      interface [FloatText].
    - Exceptions are values of [exn]; a function that may raise returns
      [result A].
    - External services (DeepChem fit / predict, the performance accumulator,
      the file system holding JSON) are section variables. *)

From Stdlib Require Import ZArith QArith String Ascii List Lia Bool.
From Stdlib Require Import DecimalString DecimalZ.
From stdpp Require Import base option list strings gmap.
Import ListNotations.

Set Warnings "-register-all".

(* ===================================================================== *)
(** * Python values and exceptions *)
(* ===================================================================== *)

Inductive pyval : Type :=
| VNone
| VBool (b : bool)
| VInt (z : Z)
| VFloat (q : Q)
| VStr (s : string)
| VList (l : list pyval)
| VDict (d : list (string * pyval)).

(** An insertion-ordered dictionary with string keys. *)
Abbreviation pydict := (list (string * pyval)).

Inductive exn : Type :=
| Exception (msg : string)
| ValueError (msg : string)
| TypeError (msg : string)
| AttributeError (msg : string)
| KeyError (key : string)
| IndexError (msg : string)
| NotImplementedError
| OSError (msg : string)
| SystemExit (code : Z).

Inductive result (A : Type) : Type :=
| Ok (a : A)
| Raise (e : exn).
Arguments Ok {A} a.
Arguments Raise {A} e.

Definition bind {A B} (r : result A) (f : A -> result B) : result B :=
  match r with
  | Ok a => f a
  | Raise e => Raise e
  end.

Notation "x <- c1 ;; c2" := (bind c1 (fun x => c2))
  (at level 100, c1 at next level, right associativity).

Definition is_ok {A} (r : result A) : bool :=
  match r with Ok _ => true | Raise _ => false end.

(** [[f(x) for x in l]] where [f] may raise: the first exception wins. *)
Fixpoint map_result {A B} (f : A -> result B) (l : list A) : result (list B) :=
  match l with
  | [] => Ok []
  | x :: r =>
      match f x with
      | Ok y =>
          match map_result f r with
          | Ok ys => Ok (y :: ys)
          | Raise e => Raise e
          end
      | Raise e => Raise e
      end
  end.

(** A [for] loop whose body may raise, threading the state [S]. *)
Fixpoint for_each {A S} (body : A -> S -> result S) (l : list A) (s : S)
  : result S :=
  match l with
  | [] => Ok s
  | x :: r =>
      match body x s with
      | Ok s' => for_each body r s'
      | Raise e => Raise e
      end
  end.

Definition raises {A} (r : result A) : Prop := exists e, r = Raise e.

(* ===================================================================== *)
(** * Dictionaries *)
(* ===================================================================== *)

Module PyDict.

Fixpoint dict_get {V} (k : string) (d : list (string * V)) : option V :=
  match d with
  | [] => None
  | (k', v) :: r => if String.eqb k' k then Some v else dict_get k r
  end.

(** [d[k] = v]: an existing key keeps its position, a new key is appended. *)
Fixpoint dict_set {V} (k : string) (v : V) (d : list (string * V))
  : list (string * V) :=
  match d with
  | [] => [(k, v)]
  | (k', v') :: r =>
      if String.eqb k' k then (k, v) :: r else (k', v') :: dict_set k v r
  end.

(** [d.pop(k)] without the returned value: the entry for [k] is removed. *)
Fixpoint dict_del {V} (k : string) (d : list (string * V))
  : list (string * V) :=
  match d with
  | [] => []
  | (k', v') :: r =>
      if String.eqb k' k then r else (k', v') :: dict_del k r
  end.

Definition dict_keys {V} (d : list (string * V)) : list string := map fst d.

End PyDict.
Export PyDict.

(* ===================================================================== *)
(** * Python equality, truth and arithmetic on values *)
(* ===================================================================== *)

(** Numbers compare by value across [bool], [int] and [float]. *)
Definition num_of (v : pyval) : option Q :=
  match v with
  | VBool b => Some (if b then 1%Q else 0%Q)
  | VInt z => Some (inject_Z z)
  | VFloat q => Some q
  | _ => None
  end.

(** [a == b]. Lists compare element-wise, dictionaries as finite maps. *)
Fixpoint py_eq (a b : pyval) {struct a} : bool :=
  match a, b with
  | VNone, VNone => true
  | VStr s, VStr t => String.eqb s t
  | VList l, VList l' =>
      (fix go (l l' : list pyval) {struct l} : bool :=
         match l, l' with
         | [], [] => true
         | x :: r, y :: r' => py_eq x y && go r r'
         | _, _ => false
         end) l l'
  | VDict d, VDict d' =>
      Nat.eqb (length d) (length d') &&
      (fix go (d : pydict) : bool :=
         match d with
         | [] => true
         | (k, v) :: r =>
             match dict_get k d' with
             | Some v' => py_eq v v'
             | None => false
             end && go r
         end) d
  | _, _ =>
      match num_of a, num_of b with
      | Some x, Some y => Qeq_bool x y
      | _, _ => false
      end
  end.

Definition py_ne (a b : pyval) : bool := negb (py_eq a b).

(** [x is None] and [x is not None]. *)
Definition is_None (v : pyval) : bool :=
  match v with VNone => true | _ => false end.

(** Truth value of an object in a condition. *)
Definition py_truthy (v : pyval) : bool :=
  match v with
  | VNone => false
  | VBool b => b
  | VInt z => negb (Z.eqb z 0)
  | VFloat q => negb (Qeq_bool q 0)
  | VStr s => negb (String.eqb s "")
  | VList l => match l with [] => false | _ => true end
  | VDict d => match d with [] => false | _ => true end
  end.

(** [a + b]: numbers add, sequences concatenate, anything else is a
    [TypeError]. *)
Definition py_add (a b : pyval) : result pyval :=
  match a, b with
  | VStr s, VStr t => Ok (VStr (s +:+ t))
  | VList l, VList l' => Ok (VList (l ++ l'))
  | VInt x, VInt y => Ok (VInt (x + y))
  | VInt x, VBool y => Ok (VInt (x + (if y then 1 else 0)))
  | VBool x, VInt y => Ok (VInt ((if x then 1 else 0) + y))
  | VBool x, VBool y => Ok (VInt ((if x then 1 else 0) + (if y then 1 else 0)))
  | _, _ =>
      match num_of a, num_of b with
      | Some x, Some y => Ok (VFloat (x + y))
      | _, _ => Raise (TypeError "unsupported operand type(s) for +")
      end
  end.

(** [a >= b] for a number [b]; ordering a non-number against a number is a
    [TypeError]. *)
Definition py_ge_num (a : pyval) (b : Q) : result bool :=
  match num_of a with
  | Some x => Ok (Qle_bool b x)
  | None => Raise (TypeError "'>=' not supported")
  end.

(** [len(x)]. *)
Definition py_len (v : pyval) : result nat :=
  match v with
  | VStr s => Ok (String.length s)
  | VList l => Ok (length l)
  | VDict d => Ok (length d)
  | _ => Raise (TypeError "object has no len()")
  end.

(* ===================================================================== *)
(** * Python string operations *)
(* ===================================================================== *)

Module PyStr.

(** [c.isspace()] on the ASCII range: tab, line feed, vertical tab, form
    feed, carriage return, the four separators 0x1c..0x1f and the space. *)
Definition is_space (c : ascii) : bool :=
  let n := nat_of_ascii c in
  ((9 <=? n)%nat && (n <=? 13)%nat) || ((28 <=? n)%nat && (n <=? 32)%nat).

Definition is_digit (c : ascii) : bool :=
  let n := nat_of_ascii c in (48 <=? n)%nat && (n <=? 57)%nat.

Fixpoint lstrip (s : string) : string :=
  match s with
  | EmptyString => EmptyString
  | String c r => if is_space c then lstrip r else s
  end.

Fixpoint rstrip (s : string) : string :=
  match s with
  | EmptyString => EmptyString
  | String c r =>
      match rstrip r with
      | EmptyString => if is_space c then EmptyString else String c EmptyString
      | t => String c t
      end
  end.

(** [s.strip()]. *)
Definition strip (s : string) : string := rstrip (lstrip s).

(** [s.split(sep)] for a separator of one character: never empty. *)
Fixpoint split_on (sep : ascii) (s : string) : list string :=
  match s with
  | EmptyString => [EmptyString]
  | String c r =>
      if Ascii.eqb c sep then EmptyString :: split_on sep r
      else match split_on sep r with
           | h :: t => String c h :: t
           | [] => [String c EmptyString]
           end
  end.

(** [sep.join(l)]. *)
Definition join (sep : string) (l : list string) : string :=
  String.concat sep l.

(** [sub in s]: [sub] occurs in [s] as a contiguous substring. *)
Fixpoint str_contains (sub s : string) : bool :=
  String.prefix sub s ||
  match s with
  | EmptyString => false
  | String _ r => str_contains sub r
  end.

(** [c in s] for a single character. *)
Fixpoint has_char (c : ascii) (s : string) : bool :=
  match s with
  | EmptyString => false
  | String a r => Ascii.eqb a c || has_char c r
  end.

(** [s.replace(c, d)] for single characters [c] and [d]. *)
Fixpoint replace_char (c d : ascii) (s : string) : string :=
  match s with
  | EmptyString => EmptyString
  | String a r => String (if Ascii.eqb a c then d else a) (replace_char c d r)
  end.

(** [s in l] for a list of strings. *)
Definition str_in (s : string) (l : list string) : bool :=
  existsb (String.eqb s) l.
Arguments str_in : simpl never.

(** The digits of a decimal literal with the underscores removed: an
    underscore is accepted only between two digits; [after_digit] tells
    whether the previous character was a digit. *)
Fixpoint literal_digits (after_digit : bool) (s : string) : option string :=
  match s with
  | EmptyString => if after_digit then Some EmptyString else None
  | String c r =>
      if is_digit c then
        match literal_digits true r with
        | Some d => Some (String c d)
        | None => None
        end
      else if Ascii.eqb c "_" && after_digit then literal_digits false r
      else None
  end.

Definition unsigned_literal (s : string) : option Z :=
  match literal_digits false s with
  | Some d =>
      match NilZero.uint_of_string d with
      | Some u => Some (Z.of_uint u)
      | None => None
      end
  | None => None
  end.

(** [int(s)] in base ten for a string of ASCII characters: surrounding
    whitespace is ignored, one sign is accepted; [None] is [ValueError]. *)
Definition py_int (s : string) : option Z :=
  match strip s with
  | String "-" r => option_map Z.opp (unsigned_literal r)
  | String "+" r => unsigned_literal r
  | t => unsigned_literal t
  end.

(** [str(z)] for an integer. *)
Definition str_int (z : Z) : string := NilZero.string_of_int (Z.to_int z).

End PyStr.
Export PyStr.

(** Text conversion of floats: [float(s)] ([None] is [ValueError]) and
    [str(x)].  Both belong to the Python runtime. *)
Class FloatText : Type := {
  float_of_string : string -> option Q;
  str_float : Q -> string
}.

(* ===================================================================== *)
(** * parameter_parser.py *)
(* ===================================================================== *)

Module ParameterParser.

(** ** The module-level tables *)

Definition convert_to_float_list : list string :=
  ["dropouts"; "weight_init_stddevs"; "bias_init_consts"; "learning_rate";
   "umap_targ_wt"; "umap_min_dist"; "dropout_list"; "weight_decay_penalty";
   "xgb_learning_rate"; "xgb_gamma"; "xgb_min_child_weight";
   "xgb_subsample"; "xgb_colsample_bytree"].

Definition convert_to_int_list : list string :=
  ["layer_sizes"; "rf_max_features"; "rf_estimators"; "rf_max_depth";
   "umap_dim"; "umap_neighbors"; "layer_nums"; "node_nums";
   "xgb_max_depth"; "xgb_n_estimators"].

(** [convert_to_float_list | convert_to_int_list]: the two sets are
    disjoint; the loops below visit the float keys first, then the int keys
    (Python leaves the order of a set unspecified). *)
Definition convert_to_numeric_list : list string :=
  convert_to_float_list ++ convert_to_int_list.

Definition keep_as_list : list string :=
  ["dropouts"; "weight_init_stddevs"; "bias_init_consts";
   "layer_sizes"; "dropout_list"; "layer_nums"].

Definition not_a_list_outside_of_hyperparams : list string :=
  ["learning_rate"; "weight_decay_penalty"; "xgb_learning_rate"; "xgb_gamma";
   "xgb_min_child_weight"; "xgb_subsample"; "xgb_colsample_bytree";
   "xgb_max_depth"; "xgb_n_estimators"].

Definition convert_to_str_list : list string :=
  ["response_cols"; "model_type"; "featurizer"; "splitter"; "umap_metric";
   "weight_decay_penalty_type"; "descriptor_type"].

Definition not_a_str_list_outside_of_hyperparams : list string :=
  ["model_type"; "featurizer"; "splitter"; "umap_metric";
   "weight_decay_penalty_type"; "descriptor_type"].

(** ** flatten_dict *)

(** A record of the module logger: [log.warning(str(key) + " appears
    several times. Overwriting with value: " + str(val))]. *)
Inductive log_record : Type :=
| WarnOverwrite (key : string) (val : pyval).

(** The mutable state of a call: the output dictionary [newdict], shared by
    all recursive calls, and the records sent to the logger. *)
Record flat_state : Type := mkFlat {
  newdict : pydict;
  log : list log_record
}.

(** The [else] branch of the loop body: [val] is not a dictionary. *)
Definition store_leaf (key : string) (val : pyval) (st : flat_state)
  : flat_state :=
  match dict_get key (newdict st) with
  | Some old =>
      if py_ne old val
      then mkFlat (dict_set key val (newdict st))
                  (log st ++ [WarnOverwrite key val])
      else mkFlat (dict_set key val (newdict st)) (log st)
  | None => mkFlat (dict_set key val (newdict st)) (log st)
  end.

(** One iteration of [for key, val in inp_dict.items()]: a dictionary value
    is flattened into the same [newdict], its own key is dropped. *)
Fixpoint flatten_item (key : string) (val : pyval) (st : flat_state)
  {struct val} : flat_state :=
  match val with
  | VDict sub =>
      (fix items (d : pydict) (st : flat_state) {struct d} : flat_state :=
         match d with
         | [] => st
         | (k, v) :: r => items r (flatten_item k v st)
         end) sub st
  | _ => store_leaf key val st
  end.

Fixpoint flatten_items (d : pydict) (st : flat_state) : flat_state :=
  match d with
  | [] => st
  | (k, v) :: r => flatten_items r (flatten_item k v st)
  end.

(** [flatten_dict(inp_dict, newdict)]; every caller passes [newdict = {}]. *)
Definition flatten_dict (inp_dict : pydict) (newdict0 : pydict) : flat_state :=
  flatten_items inp_dict (mkFlat newdict0 []).

(** *** Vocabulary for the statements about [flatten_dict] *)

(** The non-dictionary entries of a nested dictionary, in the order in which
    the traversal meets them. *)
Fixpoint leaves_item (key : string) (val : pyval) {struct val}
  : list (string * pyval) :=
  match val with
  | VDict sub =>
      (fix items (d : pydict) {struct d} : list (string * pyval) :=
         match d with
         | [] => []
         | (k, v) :: r => leaves_item k v ++ items r
         end) sub
  | _ => [(key, val)]
  end.

Fixpoint leaves (d : pydict) : list (string * pyval) :=
  match d with
  | [] => []
  | (k, v) :: r => leaves_item k v ++ leaves r
  end.

(** The value of the last entry for [k] in a sequence of entries. *)
Definition last_seen (k : string) (l : list (string * pyval)) : option pyval :=
  dict_get k (rev l).

Definition occurrences (k : string) (l : list (string * pyval)) : nat :=
  length (filter (fun kv => String.eqb (fst kv) k) l).

Definition warned (k : string) (st : flat_state) : Prop :=
  exists v, In (WarnOverwrite k v) (log st).

(** ** Rendering of values: [repr] and [str] *)

Section Runtime.

Context {FT : FloatText}.

(** [open(path)] followed by [json.loads(f.read())]: the decoded document, or
    the exception of the failed read. *)
Variable load_json : string -> result pyval.

(** [repr(v)].  The representation of a string is written with single quotes
    and without escapes, which is what Python prints for a string free of
    quotes, backslashes and control characters. *)
Fixpoint py_repr (v : pyval) : string :=
  match v with
  | VNone => "None"
  | VBool b => if b then "True" else "False"
  | VInt z => str_int z
  | VFloat q => str_float q
  | VStr s => "'" +:+ s +:+ "'"
  | VList l =>
      "[" +:+ join ", "
        ((fix reprs (l : list pyval) : list string :=
            match l with
            | [] => []
            | x :: r => py_repr x :: reprs r
            end) l) +:+ "]"
  | VDict d =>
      "{" +:+ join ", "
        ((fix reprs (d : pydict) : list string :=
            match d with
            | [] => []
            | (k, x) :: r => ("'" +:+ k +:+ "': " +:+ py_repr x) :: reprs r
            end) d) +:+ "}"
  end.

(** [str(v)]. *)
Definition py_str (v : pyval) : string :=
  match v with
  | VStr s => s
  | _ => py_repr v
  end.

(** ** dict_to_list *)

Definition optional_names_dict : list (string * string) :=
  [("dataset_bucket", "bucket"); ("feat_type", "featurizer");
   ("y", "response_cols"); ("optimizer", "optimizer_type")].

(** [if key in orig_keys: d[vals] = d.pop(key)]. *)
Definition rename_key (orig_keys : list string) (kv : string * string)
  (d : pydict) : pydict :=
  let '(key, vals) := kv in
  if str_in key orig_keys then
    match dict_get key d with
    | Some v => dict_set vals v (dict_del key d)
    | None => d
    end
  else d.

Definition default_false : list string :=
  ["previously_split"; "use_shortlist"; "datastore"; "save_results";
   "verbose"; "hyperparam"; "split_only"; "rerun"].

Definition default_true : list string :=
  ["transformers"; "previously_featurized"; "uncertainty"].

Definition true_options : list string :=
  ["True"; "true"; "ture"; "TRUE"; "Ture"].

Definition false_options : list string :=
  ["False"; "false"; "flase"; "FALSE"; "Flase"].

Definition null_options_to_list : list string :=
  ["null"; "Null"; "none"; "None"; "N/A"; "n/a"; "NaN"; "nan"; "NAN";
   "NONE"; "NULL"].

Definition with_spaces_replaced (replace_spaces : bool) (newval : string)
  : string :=
  if replace_spaces then replace_char " " "@" newval else newval.

(** The text appended after ["--key"] for a parameter that is not a flag. *)
Definition value_text (replace_spaces : bool) (value : pyval) : string :=
  if str_in (py_str value) null_options_to_list then "None"
  else match value with
       | VList items =>
           with_spaces_replaced replace_spaces (join "," (map py_str items))
       | _ => with_spaces_replaced replace_spaces (py_str value)
       end.

(** One iteration of [for key, value in inp_dictionary.items()]. *)
Definition entry_to_list (replace_spaces : bool) (kv : string * pyval)
  : list string :=
  let '(key, value) := kv in
  if str_in key default_false then
    if str_in (py_str value) true_options then ["--" +:+ key] else []
  else if str_in key default_true then
    if str_in (py_str value) false_options then ["--" +:+ key] else []
  else ["--" +:+ key; value_text replace_spaces value].

Definition dict_to_list (inp_dictionary : pyval) (replace_spaces : bool)
  : result (list string) :=
  match inp_dictionary with
  | VDict d =>
      let orig_keys := dict_keys d in
      let d' := fold_left (fun d kv => rename_key orig_keys kv d)
                          optional_names_dict d in
      Ok (concat (map (entry_to_list replace_spaces) d'))
  | _ => Raise (ValueError "input to dict_to_list should be a dictionary!")
  end.

(** ** postprocess_args *)

Definition null_options : list string :=
  ["null"; "Null"; "none"; "None"; "N/A"; "n/a"; "NaN"; "nan"; "NAN";
   "NONE"; "NULL"; "NA"].

(** [parsed_args.name]. *)
Definition getattr (ns : pydict) (name : string) : result pyval :=
  match dict_get name ns with
  | Some v => Ok v
  | None => Raise (AttributeError name)
  end.

(** [parsed_args.__dict__[item]]. *)
Definition getitem (ns : pydict) (item : string) : result pyval :=
  match dict_get item ns with
  | Some v => Ok v
  | None => Raise (KeyError item)
  end.

(** [vals in null_options]: only a string equals a string. *)
Definition in_null_options (vals : pyval) : bool :=
  match vals with
  | VStr s => str_in s null_options
  | _ => false
  end.

(** ["@" in str(vals)]: the character is printed as itself, so it occurs in
    the text exactly when it occurs in a string (or a key) of the value. *)
Fixpoint at_in_str (vals : pyval) : bool :=
  match vals with
  | VStr s => has_char "@" s
  | VList l =>
      (fix any (l : list pyval) : bool :=
         match l with
         | [] => false
         | x :: r => at_in_str x || any r
         end) l
  | VDict d =>
      (fix any (d : pydict) : bool :=
         match d with
         | [] => false
         | (k, x) :: r => has_char "@" k || at_in_str x || any r
         end) d
  | _ => false
  end.

(** The body of the first loop, as the value finally stored under the key:
    [None] for a null word, the string with every ["@"] turned into a space,
    or the value itself. *)
Definition clean_value (vals : pyval) : result pyval :=
  let stored := if in_null_options vals then VNone else vals in
  if at_in_str vals then
    match vals with
    | VStr s => Ok (VStr (replace_char "@" " " s))
    | _ => Raise (AttributeError "replace")
    end
  else Ok stored.

Definition clean_entry (kv : string * pyval) : result (string * pyval) :=
  v <- clean_value (snd kv) ;; Ok (fst kv, v).

(** [x.split(sep)] on a value: only strings have the method. *)
Definition py_split (v : pyval) (sep : ascii) : result (list string) :=
  match v with
  | VStr s => Ok (split_on sep s)
  | _ => Raise (AttributeError "split")
  end.

(** [sub in v]: substring test on a string, membership on a list, key test
    on a dictionary. *)
Definition py_contains (sub : string) (v : pyval) : result bool :=
  match v with
  | VStr s => Ok (str_contains sub s)
  | VList l => Ok (existsb (py_eq (VStr sub)) l)
  | VDict d => Ok (str_in sub (dict_keys d))
  | _ => Raise (TypeError "argument is not iterable")
  end.

(** [int(x.strip())] and [float(x.strip())]. *)
Definition to_int (x : string) : result pyval :=
  match py_int (strip x) with
  | Some z => Ok (VInt z)
  | None => Raise (ValueError "invalid literal for int() with base 10")
  end.

Definition to_float (x : string) : result pyval :=
  match float_of_string (strip x) with
  | Some q => Ok (VFloat q)
  | None => Raise (ValueError "could not convert string to float")
  end.

Definition to_number (item : string) (x : string) : result pyval :=
  if str_in item convert_to_int_list then to_int x else to_float x.

(** The model-filter step: the file named by [model_filter] is read and
    flattened (the logger records of that flattening are not kept here). *)
Definition load_model_filter (ns : pydict) : result pydict :=
  mf <- getattr ns "model_filter" ;;
  if is_None mf then Ok ns
  else match mf with
       | VStr path =>
           config <- load_json path ;;
           match config with
           | VDict d =>
               Ok (dict_set "model_filter"
                     (VDict (newdict (flatten_dict d []))) ns)
           | _ => Raise (AttributeError "items")
           end
       | _ => Raise (TypeError "expected str, bytes or os.PathLike object")
       end.

(** "Check that split_valid_frac+split_test_frac leaves room for a
    training set". *)
Definition check_split_fractions (ns : pydict) : result unit :=
  strategy <- getattr ns "split_strategy" ;;
  if py_eq strategy (VStr "train_valid_test") then
    valid <- getattr ns "split_valid_frac" ;;
    test <- getattr ns "split_test_frac" ;;
    total <- py_add valid test ;;
    full <- py_ge_num total 1 ;;
    if (full : bool)
    then Raise (Exception
      "Split fractions for validation and test sets leave no room for training set.")
    else Ok tt
  else if py_eq strategy (VStr "k_fold_cv") then
    test <- getattr ns "split_test_frac" ;;
    full <- py_ge_num test 1 ;;
    if (full : bool)
    then Raise (Exception
      "Split fraction for test set leaves no room for training and validation data.")
    else Ok tt
  else Ok tt.

(** "Set conditional defaults for model_choice_score_type". *)
Definition default_score_type (ns : pydict) : result pydict :=
  score_type <- getattr ns "model_choice_score_type" ;;
  if is_None score_type then
    prediction_type <- getattr ns "prediction_type" ;;
    if py_eq prediction_type (VStr "classification")
    then Ok (dict_set "model_choice_score_type" (VStr "roc_auc") ns)
    else Ok (dict_set "model_choice_score_type" (VStr "r2") ns)
  else Ok ns.

(** *** Hyperparameter mode *)

Definition hyper_str_item (item : string) (ns : pydict) : result pydict :=
  v <- getitem ns item ;;
  if is_None v then Ok ns
  else
    parts <- py_split v "," ;;
    let stripped := map (fun x => VStr (strip x)) parts in
    match stripped with
    | [x] =>
        if negb (String.eqb item "response_cols")
        then Ok (dict_set item x ns)
        else Ok (dict_set item (VList stripped) ns)
    | _ => Ok (dict_set item (VList stripped) ns)
    end.

(** The body of [for vals in current_value]: one more group is appended to
    [newlist] and the entry is stored again. *)
Definition hyper_numeric_group (item : string) (vals : string)
  (st : list pyval * pydict) : result (list pyval * pydict) :=
  let '(newlist, ns) := st in
  group <- map_result (to_number item) (split_on "," vals) ;;
  let newlist := newlist ++ [VList group] in
  match newlist with
  | [first] =>
      match group with
      | [x] =>
          if negb (str_in item keep_as_list)
          then Ok (newlist, dict_set item x ns)
          else Ok (newlist, dict_set item first ns)
      | _ => Ok (newlist, dict_set item first ns)
      end
  | _ => Ok (newlist, dict_set item (VList newlist) ns)
  end.

Definition hyper_numeric_item (item : string) (ns : pydict) : result pydict :=
  v <- getitem ns item ;;
  if is_None v then Ok ns
  else
    current_value <- py_split v " " ;;
    st <- for_each (hyper_numeric_group item) current_value ([], ns) ;;
    Ok (snd st).

(** *** Normal mode *)

(** The value stored for a numeric parameter given as comma-separated
    text: a list of numbers, or the number itself when there is only one
    and the parameter is not in [keep_as_list]. *)
Definition numeric_value (item : string) (v : pyval) : result pyval :=
  current_value <- py_split v "," ;;
  newlist <- map_result (to_number item) current_value ;;
  let stored :=
    match newlist with
    | [x] => if negb (str_in item keep_as_list) then x else VList newlist
    | _ => VList newlist
    end in
  if str_in item not_a_list_outside_of_hyperparams &&
     match stored with VList _ => true | _ => false end
  then Raise (Exception
         (item +:+ " is not accepted as a list if hyperparams is False"))
  else Ok stored.

(** The body of [for item in convert_to_numeric_list]. *)
Definition numeric_item (item : string) (ns : pydict) : result pydict :=
  v <- getitem ns item ;;
  if is_None v then Ok ns
  else
    stored <- numeric_value item v ;;
    Ok (dict_set item stored ns).

Definition check_not_a_str_list (item : string) (ns : pydict)
  : result pydict :=
  v <- getitem ns item ;;
  if is_None v then Ok ns
  else
    has_comma <- py_contains "," v ;;
    if (has_comma : bool)
    then Raise (Exception
      (item +:+ " cannot contain a comma or whitespace when hyperparams is False"))
    else
      has_space <- py_contains " " v ;;
      if (has_space : bool)
      then Raise (Exception
        (item +:+ " cannot contain a comma or whitespace when hyperparams is False"))
      else Ok ns.

Definition split_response_cols (ns : pydict) : result pydict :=
  v <- getitem ns "response_cols" ;;
  if is_None v then Ok ns
  else
    current_value <- py_split v "," ;;
    Ok (dict_set "response_cols" (VList (map VStr current_value)) ns).

(** [x is not None and len(x) != nlayers]. *)
Definition length_differs (ns : pydict) (name : string) (nlayers : nat)
  : result bool :=
  x <- getattr ns name ;;
  if is_None x then Ok false
  else n <- py_len x ;; Ok (negb (Nat.eqb n nlayers)).

(** "Checks that the layer sizes, dropouts, weight_init_stddevs, and
    bias_init_consts are the same length if they are non-default". *)
Definition check_layer_lengths (ns : pydict) : result unit :=
  layer_sizes <- getattr ns "layer_sizes" ;;
  if is_None layer_sizes then Ok tt
  else
    nlayers <- py_len layer_sizes ;;
    d1 <- length_differs ns "dropouts" nlayers ;;
    if (d1 : bool) then Raise (Exception
      "layer_sizes, dropouts, weight_init_stddevs and bias_init_consts arguments must be the same length")
    else
      d2 <- length_differs ns "weight_init_stddevs" nlayers ;;
      if (d2 : bool) then Raise (Exception
        "layer_sizes, dropouts, weight_init_stddevs and bias_init_consts arguments must be the same length")
      else
        d3 <- length_differs ns "bias_init_consts" nlayers ;;
        if (d3 : bool) then Raise (Exception
          "layer_sizes, dropouts, weight_init_stddevs and bias_init_consts arguments must be the same length")
        else Ok tt.

Definition convert_lists (ns : pydict) : result pydict :=
  hyperparam <- getattr ns "hyperparam" ;;
  if py_truthy hyperparam then
    ns <- for_each hyper_str_item convert_to_str_list ns ;;
    for_each hyper_numeric_item convert_to_numeric_list ns
  else
    ns <- for_each numeric_item convert_to_numeric_list ns ;;
    ns <- for_each check_not_a_str_list not_a_str_list_outside_of_hyperparams ns ;;
    ns <- split_response_cols ns ;;
    _ <- check_layer_lengths ns ;;
    Ok ns.

(** [postprocess_args(parsed_args)]: the namespace is the dictionary
    [parsed_args.__dict__]. *)
Definition postprocess_args (parsed_args : pydict) : result pydict :=
  ns <- map_result clean_entry parsed_args ;;
  ns <- load_model_filter ns ;;
  _ <- check_split_fractions ns ;;
  ns <- default_score_type ns ;;
  convert_lists ns.

End Runtime.

(** ** parse_command_line and the shell entry point *)

(** The argument of [parse_command_line]: [None], one string, or a list. *)
Inductive cl_args : Type :=
| ArgsNone
| ArgsStr (s : string)
| ArgsList (l : list string).

(** [[x for x in newlist if "--" in x]]. *)
Definition just_args (newlist : list string) : list string :=
  filter (fun x => str_contains "--" x = true) newlist.

(** [l.count(x)]. *)
Definition count_of (x : string) (l : list string) : nat :=
  length (filter (fun y => y = x) l).

(** [set([x for x in just_args if just_args.count(x) > 1])]. *)
Definition duplicates (just : list string) : gset string :=
  list_to_set (filter (fun x => 1 < count_of x just) just).

(** [str(duplicates)]; the elements in the order of the set. *)
Definition set_text (s : gset string) : string :=
  "{" +:+ join ", " (map (fun x => "'" +:+ x +:+ "'") (elements s)) +:+ "}".

Definition duplicate_error (dups : gset string) : exn :=
  ValueError (set_text dups +:+ " appears several times. ").

Section CommandLine.

Context {FT : FloatText}.
Variable load_json : string -> result pyval.

(** [get_parser().parse_args(args)]: the argparse run over the tokens, with
    [SystemExit] for a rejected command line. *)
Variable parse_args : cl_args -> result pydict.

(** [wrapper(argument)]: dispatch on the kind of input (configuration file,
    dictionary, text to evaluate), ending in [parse_command_line]. *)
Variable wrapper : list string -> result pydict.

Definition parse_command_line (args : cl_args) : result pydict :=
  _ <- match args with
       | ArgsNone => Ok tt
       | _ =>
           let newlist :=
             match args with
             | ArgsStr s => split_on " " s
             | ArgsList l => l
             | ArgsNone => []
             end in
           let dups := duplicates (just_args newlist) in
           if (0 <? size dups)%nat then Raise (duplicate_error dups)
           else Ok tt
       end ;;
  parsed_args <- parse_args args ;;
  postprocess_args load_json parsed_args.

(** [main(argument)]; [argument[0]] needs a first element. *)
Definition main (argument : list string) : result pydict :=
  match argument with
  | [] => Raise (IndexError "list index out of range")
  | first :: _ =>
      if str_in first ["--help"; "-h"]
      then parse_command_line (ArgsList argument)
      else wrapper argument
  end.

(** How the interpreter process ends. *)
Inductive outcome : Type :=
| Exit (code : Z)
| Uncaught (e : exn).

(** The exit status seen by the shell: an uncaught exception ends the
    process with status 1, [SystemExit] with its own code. *)
Definition exit_status (o : outcome) : Z :=
  match o with
  | Exit code => code
  | Uncaught (SystemExit code) => code
  | Uncaught _ => 1
  end.

(** The block under [if __name__ == '__main__' and len(sys.argv) > 1],
    for the module run as a script with [sys.argv = argv]. *)
Definition script_entry (argv : list string) : outcome :=
  if (1 <? length argv)%nat then
    let dups := duplicates (just_args argv) in
    if (0 <? size dups)%nat then Uncaught (duplicate_error dups)
    else match main (tl argv) with
         | Ok _ => Exit 0
         | Raise e => Uncaught e
         end
  else Exit 0.

End CommandLine.

End ParameterParser.

(* ===================================================================== *)
(** * A decimal text conversion for floats *)
(* ===================================================================== *)

(** An executable [FloatText] reading and printing plain decimal literals
    (an optional sign, digits, an optional fraction).  It agrees with Python
    on short decimals such as ["0.5"] or ["12.25"]; exponents and the
    special values are outside it. *)
Module DecimalText.

Definition signed (neg : bool) (z : Z) : Z := if neg then (- z)%Z else z.

Definition parse_unsigned (neg : bool) (body : string) : option Q :=
  match split_on "." body with
  | [i] =>
      match NilZero.uint_of_string i with
      | Some u => Some (inject_Z (signed neg (Z.of_uint u)))
      | None => None
      end
  | [i; f] =>
      match NilZero.uint_of_string (i +:+ f) with
      | Some u =>
          Some (Qred (Qmake (signed neg (Z.of_uint u))
                            (Z.to_pos (10 ^ Z.of_nat (String.length f)))))
      | None => None
      end
  | _ => None
  end.

Definition parse (s : string) : option Q :=
  match strip s with
  | String "-" r => parse_unsigned true r
  | String "+" r => parse_unsigned false r
  | t => parse_unsigned false t
  end.

(** The number of fraction digits needed to write [q] exactly, searched up
    to 17; a value that needs more is cut at 17 digits. *)
Definition fraction_digits (den : Z) : nat :=
  match find (fun k => Z.eqb ((10 ^ Z.of_nat k) mod den) 0) (seq 0 17) with
  | Some k => k
  | None => 17
  end.

Fixpoint zeros (n : nat) : string :=
  match n with
  | O => ""
  | S n' => String "0" (zeros n')
  end.

(** [s] with zeros in front up to the width [n]. *)
Definition pad_zeros (n : nat) (s : string) : string :=
  zeros (n - String.length s) +:+ s.

Definition print (q : Q) : string :=
  let q := Qred q in
  let den := Z.pos (Qden q) in
  let k := fraction_digits den in
  let scaled := (Z.abs (Qnum q) * 10 ^ Z.of_nat k / den)%Z in
  let whole := (scaled / 10 ^ Z.of_nat k)%Z in
  let frac := (scaled mod 10 ^ Z.of_nat k)%Z in
  (if (Qnum q <? 0)%Z then "-" else "") +:+ str_int whole +:+ "." +:+
  (if Nat.eqb k 0 then "0" else pad_zeros k (str_int frac)).

#[export] Instance decimal_text : FloatText := {|
  float_of_string := parse;
  str_float := print
|}.

End DecimalText.

(* ===================================================================== *)
(** * model_wrapper.py *)
(* ===================================================================== *)

Module ModelWrapper.

(** The classes of the module; [ModelWrapper] itself is the abstract base. *)
Inductive wrapper_class : Type :=
| ModelWrapper
| DCNNModelWrapper
| DCRFModelWrapper
| DCxgboostModelWrapper.

(** The fields of the parameter namespace read by the wrappers. *)
Module Params.
Record t : Type := mk {
  model_type : pyval;
  output_dir : string;
  max_epochs : Z;
  baseline_epoch : Z;
  system : string;
  prediction_type : string;
  model_choice_score_type : string
}.
Definition set_max_epochs (n : Z) (p : t) : t :=
  mk (model_type p) (output_dir p) n (baseline_epoch p) (system p)
     (prediction_type p) (model_choice_score_type p).
End Params.

(** [os.path.join(a, b)] on POSIX paths. *)
Definition path_join (a b : string) : string :=
  if String.prefix "/" b then b
  else if String.eqb a "" then b
  else if String.prefix "/" (String.rev a) then a +:+ b
  else a +:+ "/" +:+ b.

(** [np.argmax] of a one-dimensional array: the first index of the largest
    entry; the scan keeps the running best [best] found at index [best_i]. *)
Fixpoint argmax_from (best_i : nat) (best : Q) (i : nat) (l : list Q) : nat :=
  match l with
  | [] => best_i
  | x :: r =>
      if Qle_bool x best then argmax_from best_i best (S i) r
      else argmax_from i x (S i) r
  end.

Definition np_argmax (a : list Q) : result nat :=
  match a with
  | [] => Raise (ValueError "attempt to get argmax of an empty sequence")
  | x :: r => Ok (argmax_from 0 x 1 r)
  end.

(** [l[i]] and [l[i] = x] with Python's [IndexError]. *)
Definition list_get {A} (l : list A) (i : nat) : result A :=
  match l !! i with
  | Some x => Ok x
  | None => Raise (IndexError "list index out of range")
  end.

Definition list_set {A} (l : list A) (i : nat) (x : A) : result (list A) :=
  if (i <? length l)%nat then Ok (<[i := x]> l)
  else Raise (IndexError "list assignment index out of range").

(** Calls into the model library and the file system, in program order. *)
Inductive call : Type :=
| CallRecreate
| CallFit (nb_epoch : Z) (restore : bool)
| CallFitEnsemble
| CallSave (dir : string)
| CallCopy (dest_dir : string).

Inductive log_record : Type :=
| InfoCreatingNewModel
| WarnOverTime
| InfoFoldEpoch (k epoch : nat) (train_perf valid_perf test_perf : Q)
| InfoFitting (what : string)
| InfoFold (k : nat) (train_perf valid_perf test_perf : Q)
| InfoSaved (dest_dir : string).

(** The fit increments requested by a sequence of calls. *)
Definition fit_increments (cs : list call) : Z :=
  fold_right (fun c acc =>
    match c with CallFit nb _ => (nb + acc)%Z | _ => acc end) 0%Z cs.

Definition copy_targets (cs : list call) : list string :=
  flat_map (fun c => match c with CallCopy d => [d] | _ => [] end) cs.

(** The model library: the objects of DeepChem, scikit-learn and xgboost
    behind the wrappers, and the rest of the pipeline. *)
Class ModelLibrary : Type := {
  Model : Type;
  Dataset : Type;
  Ids : Type;
  Pred : Type;
  Featurization : Type;
  DatastoreClient : Type;
  (** The constructor of the library model of a wrapper class, storing its
      files under the given directory. *)
  build_model : wrapper_class -> Params.t -> string -> Model;
  (** [model.fit(dset, nb_epoch=n, restore=r)] of a neural network. *)
  fit_nn : Model -> Dataset -> Z -> bool -> Model;
  (** [model.fit(dset)] of a random forest or a boosted-tree model. *)
  fit_ensemble : Model -> Dataset -> Model;
  (** [model.reload()] from the model's directory. *)
  reload : Model -> Model;
  (** [Model.load_from_dir(reload_dir)]. *)
  load_from_dir : string -> Model;
  predict : Model -> Dataset -> Pred;
  ids : Dataset -> Ids
}.

(** [pipeline]: the data of the run and the wall clock.  [elapsed k ei] is
    [(datetime.now() - pipeline.start_time).total_seconds()] as read at the
    boundary of epoch [ei] in fold [k]. *)
Record Pipeline {ML : ModelLibrary} : Type := mkPipeline {
  train_valid_dsets : list (Dataset * Dataset);
  test_dset : Dataset;
  combined_training_data : Dataset;
  elapsed : nat -> nat -> Q;
  metric_type : string
}.

(** The performance accumulator of module [perf_data]. *)
Class PerfLibrary {ML : ModelLibrary} : Type := {
  PerfData : Type;
  create_perf_data : string -> Pipeline -> string -> PerfData;
  accumulate_preds : PerfData -> Pred -> Ids -> PerfData * Q;
  compute_perf_metrics : PerfData -> Q * Q;
  model_choice_score : PerfData -> string -> Q
}.

Section Externals.

Context {FT : FloatText} {ML : ModelLibrary} {PL : PerfLibrary}.

(** Per-epoch records of one subset, for the neural network. *)
Record subset_perf : Type := mkSubset {
  perf_data : list PerfData;
  epoch_perfs : list Q;
  epoch_perf_stds : list Q
}.

(** Records of one subset for a model trained in one pass. *)
Record single_perf : Type := mkSingle {
  single_data : PerfData;
  single_perf_mean : Q;
  single_perf_std : Q
}.

Inductive perf_state : Type :=
| PerfUnset
| PerfEpochs (train valid test : subset_perf) (model_choice_scores : list Q)
| PerfSingle (train valid test : single_perf) (model_choice_score : Q).

(** The attributes of a wrapper object.  An attribute that [__init__] does
    not assign is [None] until a method assigns it. *)
Record wrapper : Type := mkWrapper {
  cls : wrapper_class;
  params : Params.t;
  featurization : Featurization;
  ds_client : DatastoreClient;
  output_dir : string;
  model_dir : string;
  best_model_dir : option string;
  baseline_model_dir : option string;
  model : option Model;
  model_store : string;
  best_epoch : option Z;
  perf : perf_state
}.

(** What lies outside the object: the model files per directory, the calls
    made and the log. *)
Record world : Type := mkWorld {
  checkpoints : gmap string Model;
  calls : list call;
  logged : list log_record
}.

Definition do_call (c : call) (wd : world) : world :=
  mkWorld (checkpoints wd) (calls wd ++ [c]) (logged wd).

Definition do_log (r : log_record) (wd : world) : world :=
  mkWorld (checkpoints wd) (calls wd) (logged wd ++ [r]).

(** [model.save()]: the files of the model are written to its directory. *)
Definition save (m : Model) (dir : string) (wd : world) : world :=
  mkWorld (<[dir := m]> (checkpoints wd)) (calls wd ++ [CallSave dir])
          (logged wd).

(** ** Construction *)

(** [ModelWrapper.__init__]. *)
Definition ModelWrapper_init (c : wrapper_class) (p : Params.t)
  (featurizer : Featurization) (client : DatastoreClient) : wrapper :=
  mkWrapper c p featurizer client (Params.output_dir p)
            (path_join (Params.output_dir p) "model") None None None
            (path_join (Params.output_dir p) "model") None PerfUnset.

(** [ModelWrapper.setup_model_dirs], inherited by every subclass. *)
Definition setup_model_dirs (w : wrapper) : wrapper :=
  mkWrapper (cls w) (params w) (featurization w) (ds_client w) (output_dir w)
            (model_dir w)
            (Some (path_join (output_dir w) "best_model"))
            (Some (path_join (output_dir w) "baseline_epoch_model"))
            (model w) (model_store w) (best_epoch w) (perf w).

(** [DCNNModelWrapper.__init__]: the model is built on [self.model_dir]. *)
Definition DCNNModelWrapper_init (p : Params.t) (featurizer : Featurization)
  (client : DatastoreClient) : wrapper :=
  let w := ModelWrapper_init DCNNModelWrapper p featurizer client in
  mkWrapper (cls w) (params w) (featurization w) (ds_client w) (output_dir w)
            (model_dir w) (best_model_dir w) (baseline_model_dir w)
            (Some (build_model DCNNModelWrapper p (model_dir w)))
            (model_dir w) (best_epoch w) (perf w).

(** [DCRFModelWrapper.__init__] and [DCxgboostModelWrapper.__init__]: the
    three directory attributes are one path. *)
Definition ensemble_init (c : wrapper_class) (p : Params.t)
  (featurizer : Featurization) (client : DatastoreClient) : wrapper :=
  let w := ModelWrapper_init c p featurizer client in
  let best := path_join (output_dir w) "best_model" in
  mkWrapper (cls w) (params w) (featurization w) (ds_client w) (output_dir w)
            best (Some best) (Some best)
            (Some (build_model c p best)) best (best_epoch w) (perf w).

Definition DCRFModelWrapper_init := ensemble_init DCRFModelWrapper.
Definition DCxgboostModelWrapper_init := ensemble_init DCxgboostModelWrapper.

(** ** create_model_wrapper *)

(** [xgb] is the outcome of [import xgboost as xgb]: [None] when the import
    failed ([xgboost_supported = False]), else [xgb.__version__]. *)
Definition create_model_wrapper (xgb : option string) (p : Params.t)
  (featurizer : Featurization) (client : DatastoreClient) : result wrapper :=
  if py_eq (Params.model_type p) (VStr "NN") then
    Ok (DCNNModelWrapper_init p featurizer client)
  else if py_eq (Params.model_type p) (VStr "RF") then
    Ok (DCRFModelWrapper_init p featurizer client)
  else if py_eq (Params.model_type p) (VStr "xgboost") then
    match xgb with
    | None => Raise (Exception "Unable to import xgboost.")
    | Some version =>
        match float_of_string version with
        | None => Raise (ValueError "could not convert string to float")
        | Some v =>
            if negb (Qle_bool (9 # 10) v)
            then Raise (Exception "xgboost required to be >= 0.9 for GPU support.")
            else Ok (DCxgboostModelWrapper_init p featurizer client)
        end
    end
  else Raise (ValueError ("Unknown model_type " +:+
                          ParameterParser.py_str (Params.model_type p))).

(** ** DCNNModelWrapper.train *)

(** The local state of a run of [train]: the attributes and the parameters
    it rewrites, and the world.  [cur_store] is the directory of the model
    object that [self.model] holds, to which [self.model.save()] writes. *)
Record nn_run : Type := mkRun {
  cur_model : option Model;
  cur_store : string;
  cur_params : Params.t;
  train_sp : subset_perf;
  valid_sp : subset_perf;
  test_sp : subset_perf;
  scores : list Q;
  wd : world
}.

Definition set_world (f : world -> world) (st : nn_run) : nn_run :=
  mkRun (cur_model st) (cur_store st) (cur_params st) (train_sp st)
        (valid_sp st) (test_sp st) (scores st) (f (wd st)).

(** [self.recreate_model()]: a new model object on [self.model_dir]. *)
Definition recreate_model (w : wrapper) (st : nn_run) : nn_run :=
  mkRun (Some (build_model DCNNModelWrapper (cur_params st) (model_dir w)))
        (model_dir w) (cur_params st) (train_sp st) (valid_sp st) (test_sp st)
        (scores st) (do_call CallRecreate (wd st)).

(** [self.model.fit(dset, nb_epoch=n, restore=r)]. *)
Definition fit_model (dset : Dataset) (nb_epoch : Z) (restore : bool)
  (st : nn_run) : result nn_run :=
  match cur_model st with
  | Some m =>
      Ok (mkRun (Some (fit_nn m dset nb_epoch restore)) (cur_store st)
                (cur_params st) (train_sp st) (valid_sp st) (test_sp st)
                (scores st)
                (do_call (CallFit nb_epoch restore) (wd st)))
  | None => Raise (AttributeError "model")
  end.

(** [self.model.save()]: the model object writes to its own directory. *)
Definition save_model (w : wrapper) (st : nn_run) : result nn_run :=
  match cur_model st with
  | Some m => Ok (set_world (save m (cur_store st)) st)
  | None => Raise (AttributeError "model")
  end.

(** [self._copy_model(dest_dir)]: the checkpoint in [self.model_dir] is read
    and its files replace the content of [dest_dir]. *)
Definition _copy_model (w : wrapper) (dest_dir : string) (st : nn_run)
  : result nn_run :=
  match checkpoints (wd st) !! model_dir w with
  | Some files =>
      Ok (set_world (fun x =>
            mkWorld (<[dest_dir := files]> (checkpoints x))
                    (calls x ++ [CallCopy dest_dir])
                    (logged x ++ [InfoSaved dest_dir])) st)
  | None => Raise (OSError "checkpoint")
  end.

(** [perf_data[ei].accumulate_preds(pred, ids)]. *)
Definition accumulate_at (sp : subset_perf) (ei : nat) (pred : Pred)
  (i : Ids) : result (subset_perf * Q) :=
  pd <- list_get (perf_data sp) ei ;;
  let '(pd', value) := accumulate_preds pd pred i in
  l <- list_set (perf_data sp) ei pd' ;;
  Ok (mkSubset l (epoch_perfs sp) (epoch_perf_stds sp), value).

(** The time check at an epoch boundary. *)
Definition over_time (p : Params.t) (pipeline : Pipeline) (k ei : nat) : bool :=
  String.eqb (Params.system p) "LC" &&
  negb (Qle_bool (elapsed pipeline k ei) 64800).

(** The body of the epoch loop after the time check. *)
Definition epoch_body (pipeline : Pipeline) (k ei : nat)
  (train_dset valid_dset : Dataset) (restore_hold : bool) (st : nn_run)
  : result nn_run :=
  st <- fit_model train_dset 1 restore_hold st ;;
  match cur_model st with
  | None => Raise (AttributeError "model")
  | Some m =>
      let train_pred := predict m train_dset in
      let valid_pred := predict m valid_dset in
      let test_pred := predict m (test_dset pipeline) in
      tr <- accumulate_at (train_sp st) ei train_pred (ids train_dset) ;;
      va <- accumulate_at (valid_sp st) ei valid_pred (ids valid_dset) ;;
      te <- accumulate_at (test_sp st) ei test_pred (ids (test_dset pipeline)) ;;
      Ok (mkRun (cur_model st) (cur_store st) (cur_params st) (fst tr)
                (fst va) (fst te) (scores st)
                (do_log (InfoFoldEpoch k (ei + 1) (snd tr) (snd va) (snd te))
                        (wd st)))
  end.

(** [for ei in range(self.params.max_epochs)] of one fold, over the epochs
    [eis] still to run; [restore_hold] is false for the first fit only. *)
Fixpoint epoch_loop (pipeline : Pipeline) (k : nat)
  (train_dset valid_dset : Dataset) (eis : list nat) (restore_hold : bool)
  (st : nn_run) : result nn_run :=
  match eis with
  | [] => Ok st
  | ei :: rest =>
      if over_time (cur_params st) pipeline k ei then
        Ok (mkRun (cur_model st) (cur_store st)
                  (Params.set_max_epochs (Z.of_nat ei) (cur_params st))
                  (train_sp st) (valid_sp st) (test_sp st) (scores st)
                  (do_log WarnOverTime (wd st)))
      else
        st <- epoch_body pipeline k ei train_dset valid_dset restore_hold st ;;
        epoch_loop pipeline k train_dset valid_dset rest true st
  end.

(** [for k in range(num_folds)], over the folds still to run. *)
Fixpoint fold_loop (w : wrapper) (pipeline : Pipeline)
  (dsets : list (Dataset * Dataset)) (k : nat) (st : nn_run)
  : result nn_run :=
  match dsets with
  | [] => Ok st
  | (train_dset, valid_dset) :: rest =>
      let st := if (0 <? k)%nat
                then recreate_model w (set_world (do_log InfoCreatingNewModel) st)
                else st in
      st <- epoch_loop pipeline k train_dset valid_dset
              (seq 0 (Z.to_nat (Params.max_epochs (cur_params st)))) false st ;;
      fold_loop w pipeline rest (S k) st
  end.

(** The metrics of one subset at epoch [ei]. *)
Definition score_subset (sp : subset_perf) (ei : nat) : result subset_perf :=
  pd <- list_get (perf_data sp) ei ;;
  let '(mean, std) := compute_perf_metrics pd in
  means <- list_set (epoch_perfs sp) ei mean ;;
  stds <- list_set (epoch_perf_stds sp) ei std ;;
  Ok (mkSubset (perf_data sp) means stds).

(** The body of the scoring loop. *)
Definition score_epoch (ei : nat) (st : nn_run) : result nn_run :=
  tr <- score_subset (train_sp st) ei ;;
  va <- score_subset (valid_sp st) ei ;;
  te <- score_subset (test_sp st) ei ;;
  pd <- list_get (perf_data va) ei ;;
  sc <- list_set (scores st) ei
          (model_choice_score pd
             (Params.model_choice_score_type (cur_params st))) ;;
  Ok (mkRun (cur_model st) (cur_store st) (cur_params st) tr va te sc
            (wd st)).

(** [self.best_model_dir] and [self.baseline_model_dir]. *)
Definition get_dir (d : option string) (name : string) : result string :=
  match d with
  | Some s => Ok s
  | None => Raise (AttributeError name)
  end.

(** The last part of [train]: one more training to [max_epoch] with the
    weights saved at [min_epoch] and at [max_epoch]. *)
Definition refit (w : wrapper) (pipeline : Pipeline) (best_epoch : Z)
  (st : nn_run) : result nn_run :=
  let baseline_epoch := Params.baseline_epoch (params w) in
  let min_epoch := Z.min baseline_epoch best_epoch in
  let max_epoch := Z.max baseline_epoch best_epoch in
  best_dir <- get_dir (best_model_dir w) "best_model_dir" ;;
  baseline_dir <- get_dir (baseline_model_dir w) "baseline_model_dir" ;;
  let '(min_epoch_dir, max_epoch_dir) :=
    if (best_epoch <=? baseline_epoch)%Z
    then (best_dir, baseline_dir)
    else (baseline_dir, best_dir) in
  fit_dataset <-
    (if (1 <? length (train_valid_dsets pipeline))%nat
     then Ok (combined_training_data pipeline)
     else match train_valid_dsets pipeline with
          | (train_dset, _) :: _ => Ok train_dset
          | [] => Raise (IndexError "list index out of range")
          end) ;;
  let st := recreate_model w st in
  st <- fit_model fit_dataset min_epoch false st ;;
  st <- save_model w st ;;
  st <- _copy_model w min_epoch_dir st ;;
  st <- (if (min_epoch <? max_epoch)%Z
         then st <- fit_model fit_dataset (max_epoch - min_epoch) true st ;;
              save_model w st
         else Ok st) ;;
  _copy_model w max_epoch_dir st.

(** The state at the start of [train]. *)
Definition initial_run (w : wrapper) (pipeline : Pipeline) (wd0 : world)
  : nn_run :=
  let p := params w in
  let n := Z.to_nat (Params.max_epochs p) in
  let zeros := repeat 0%Q n in
  let fresh subset :=
    mkSubset (repeat (create_perf_data (Params.prediction_type p) pipeline subset) n)
             zeros zeros in
  mkRun (model w) (model_store w) p (fresh "train") (fresh "valid")
        (fresh "test") zeros wd0.

(** The loops of [train] up to the choice of the best epoch. *)
Definition train_and_score (w : wrapper) (pipeline : Pipeline) (wd0 : world)
  : result (nn_run * nat) :=
  if (Params.max_epochs (params w) <? 0)%Z
  then Raise (ValueError "negative dimensions are not allowed")
  else
    st <- fold_loop w pipeline (train_valid_dsets pipeline) 0
            (initial_run w pipeline wd0) ;;
    st <- for_each score_epoch
            (seq 0 (Z.to_nat (Params.max_epochs (cur_params st)))) st ;;
    best <- np_argmax (scores st) ;;
    Ok (st, best).

Definition DCNNModelWrapper_train (w : wrapper) (pipeline : Pipeline)
  (wd0 : world) : result (wrapper * world) :=
  sb <- train_and_score w pipeline wd0 ;;
  let best := Z.of_nat (snd sb) in
  st <- refit w pipeline best (fst sb) ;;
  Ok (mkWrapper (cls w) (cur_params st) (featurization w) (ds_client w)
                (output_dir w) (model_dir w) (best_model_dir w)
                (baseline_model_dir w) (cur_model st) (cur_store st)
                (Some best)
                (PerfEpochs (train_sp st) (valid_sp st) (test_sp st)
                            (scores st)),
      wd st).

(** ** DCRFModelWrapper.train and DCxgboostModelWrapper.train *)

Definition accumulate_single (sp : single_perf) (pred : Pred) (i : Ids)
  : single_perf * Q :=
  let '(pd, value) := accumulate_preds (single_data sp) pred i in
  (mkSingle pd (single_perf_mean sp) (single_perf_std sp), value).

Record ensemble_run : Type := mkEnsemble {
  e_model : Model;
  e_train : single_perf;
  e_valid : single_perf;
  e_test : single_perf;
  e_wd : world
}.

(** The body of [for k in range(num_folds)]. *)
Definition ensemble_fold (pipeline : Pipeline) (k : nat)
  (dsets : Dataset * Dataset) (st : ensemble_run) : ensemble_run :=
  let '(train_dset, valid_dset) := dsets in
  let m := fit_ensemble (e_model st) train_dset in
  let tr := accumulate_single (e_train st) (predict m train_dset)
              (ids train_dset) in
  let va := accumulate_single (e_valid st) (predict m valid_dset)
              (ids valid_dset) in
  let te := accumulate_single (e_test st) (predict m (test_dset pipeline))
              (ids (test_dset pipeline)) in
  mkEnsemble m (fst tr) (fst va) (fst te)
    (do_log (InfoFold k (snd tr) (snd va) (snd te))
            (do_call CallFitEnsemble (e_wd st))).

Fixpoint ensemble_folds (pipeline : Pipeline)
  (dsets : list (Dataset * Dataset)) (k : nat) (st : ensemble_run)
  : ensemble_run :=
  match dsets with
  | [] => st
  | d :: rest =>
      ensemble_folds pipeline rest (S k) (ensemble_fold pipeline k d st)
  end.

Definition with_metrics (sp : single_perf) : single_perf :=
  let '(mean, std) := compute_perf_metrics (single_data sp) in
  mkSingle (single_data sp) mean std.

(** The body shared by the two classes, which differ in the log line. *)
Definition ensemble_train (what : string) (w : wrapper) (pipeline : Pipeline)
  (wd0 : world) : result (wrapper * world) :=
  match model w with
  | None => Raise (AttributeError "model")
  | Some m0 =>
      let p := params w in
      let fresh subset :=
        mkSingle (create_perf_data (Params.prediction_type p) pipeline subset)
                 0 0 in
      let st := mkEnsemble m0 (fresh "train") (fresh "valid") (fresh "test")
                           (do_log (InfoFitting what) wd0) in
      let st := ensemble_folds pipeline (train_valid_dsets pipeline) 0 st in
      let tr := with_metrics (e_train st) in
      let va := with_metrics (e_valid st) in
      let te := with_metrics (e_test st) in
      let score := model_choice_score (single_data va)
                     (Params.model_choice_score_type p) in
      let '(m, wd1) :=
        if (1 <? length (train_valid_dsets pipeline))%nat
        then (fit_ensemble (e_model st) (combined_training_data pipeline),
              do_call CallFitEnsemble (e_wd st))
        else (e_model st, e_wd st) in
      Ok (mkWrapper (cls w) p (featurization w) (ds_client w) (output_dir w)
                    (model_dir w) (best_model_dir w) (baseline_model_dir w)
                    (Some m) (model_store w) (Some 0%Z)
                    (PerfSingle tr va te score),
          save m (model_store w) wd1)
  end.

Definition DCRFModelWrapper_train :=
  ensemble_train "Fitting random forest model".

Definition DCxgboostModelWrapper_train :=
  ensemble_train "Fitting xgboost model".

(** ** reload_model of the two ensemble classes *)

(** [DCRFModelWrapper.reload_model]: a model on [reload_dir], reloaded. *)
Definition DCRFModelWrapper_reload_model (w : wrapper) (reload_dir : string)
  : wrapper :=
  mkWrapper (cls w) (params w) (featurization w) (ds_client w) (output_dir w)
            (model_dir w) (best_model_dir w) (baseline_model_dir w)
            (Some (reload (build_model DCRFModelWrapper (params w) reload_dir)))
            reload_dir (best_epoch w) (perf w).

(** [DCxgboostModelWrapper.reload_model]: the model is built on
    [self.best_model_dir], whatever [reload_dir] is. *)
Definition DCxgboostModelWrapper_reload_model (w : wrapper)
  (reload_dir : string) : result wrapper :=
  best <- get_dir (best_model_dir w) "best_model_dir" ;;
  Ok (mkWrapper (cls w) (params w) (featurization w) (ds_client w)
                (output_dir w) (model_dir w) (best_model_dir w)
                (baseline_model_dir w)
                (Some (reload (build_model DCxgboostModelWrapper (params w) best)))
                best (best_epoch w) (perf w)).

(** [DCNNModelWrapper.reload_model]: the model saved in [reload_dir]. *)
Definition DCNNModelWrapper_reload_model (w : wrapper) (reload_dir : string)
  : wrapper :=
  mkWrapper (cls w) (params w) (featurization w) (ds_client w) (output_dir w)
            (model_dir w) (best_model_dir w) (baseline_model_dir w)
            (Some (load_from_dir reload_dir)) reload_dir (best_epoch w)
            (perf w).

(** ** Method dispatch *)

(** [wrapper.train(pipeline)]. *)
Definition train (w : wrapper) (pipeline : Pipeline) (wd0 : world)
  : result (wrapper * world) :=
  match cls w with
  | ModelWrapper => Raise NotImplementedError
  | DCNNModelWrapper => DCNNModelWrapper_train w pipeline wd0
  | DCRFModelWrapper => DCRFModelWrapper_train w pipeline wd0
  | DCxgboostModelWrapper => DCxgboostModelWrapper_train w pipeline wd0
  end.

(** [wrapper.reload_model(reload_dir)]. *)
Definition reload_model (w : wrapper) (reload_dir : string) : result wrapper :=
  match cls w with
  | ModelWrapper => Raise NotImplementedError
  | DCNNModelWrapper => Ok (DCNNModelWrapper_reload_model w reload_dir)
  | DCRFModelWrapper => Ok (DCRFModelWrapper_reload_model w reload_dir)
  | DCxgboostModelWrapper => DCxgboostModelWrapper_reload_model w reload_dir
  end.

(** The methods that assign attributes of a wrapper. *)
Inductive method : Type :=
| Train (pipeline : Pipeline)
| ReloadModel (reload_dir : string)
| SetupModelDirs.

Definition invoke (m : method) (s : wrapper * world) : result (wrapper * world) :=
  match m with
  | Train pipeline => train (fst s) pipeline (snd s)
  | ReloadModel reload_dir =>
      w <- reload_model (fst s) reload_dir ;; Ok (w, snd s)
  | SetupModelDirs => Ok (setup_model_dirs (fst s), snd s)
  end.

(** A sequence of method calls on one object. *)
Definition invoke_all (ms : list method) (s : wrapper * world)
  : result (wrapper * world) :=
  for_each invoke ms s.

(** ** Vocabulary for the statements about [train] *)

(** The model after [n] more epochs of one fold: [n] fits of one epoch, of
    which only the first may start from scratch. *)
Fixpoint fit_epochs (m : Model) (dset : Dataset) (restore : bool) (n : nat)
  : Model :=
  match n with
  | O => m
  | S n' => fit_epochs (fit_nn m dset 1 restore) dset true n'
  end.

(** The model a fold starts from: the model of the object for the first
    fold, a new model for the others. *)
Definition fold_start (w : wrapper) (m0 : Model) (k : nat) : Model :=
  if (0 <? k)%nat then build_model DCNNModelWrapper (params w) (model_dir w)
  else m0.

(** The validation accumulator of epoch [ei] after the folds [dsets], the
    first of which has index [k]: each fold adds the predictions of its
    model after [ei + 1] epochs on its validation set. *)
Fixpoint valid_perf_from (w : wrapper) (m0 : Model)
  (dsets : list (Dataset * Dataset)) (k : nat) (ei : nat) (pd : PerfData)
  : PerfData :=
  match dsets with
  | [] => pd
  | (train_dset, valid_dset) :: rest =>
      let m := fit_epochs (fold_start w m0 k) train_dset false (S ei) in
      valid_perf_from w m0 rest (S k) ei
        (fst (accumulate_preds pd (predict m valid_dset) (ids valid_dset)))
  end.

(** The fold-aggregated validation score of each epoch. *)
Definition expected_scores (w : wrapper) (m0 : Model) (pipeline : Pipeline)
  : list Q :=
  map (fun ei =>
         model_choice_score
           (valid_perf_from w m0 (train_valid_dsets pipeline) 0 ei
              (create_perf_data (Params.prediction_type (params w)) pipeline
                 "valid"))
           (Params.model_choice_score_type (params w)))
      (seq 0 (Z.to_nat (Params.max_epochs (params w)))).

(** The attributes of a neural-network wrapper as [__init__] and
    [setup_model_dirs] leave them. *)
Definition best_dir (w : wrapper) : string :=
  path_join (output_dir w) "best_model".

Definition baseline_dir (w : wrapper) : string :=
  path_join (output_dir w) "baseline_epoch_model".

Definition prepared (w : wrapper) : Prop :=
  model_dir w = path_join (output_dir w) "model" /\
  model_store w = model_dir w /\
  best_model_dir w = Some (best_dir w) /\
  baseline_model_dir w = Some (baseline_dir w).

(** The directories of the earlier and of the later checkpoint. *)
Definition refit_dirs (w : wrapper) (best : Z) : string * string :=
  if (best <=? Params.baseline_epoch (params w))%Z
  then (best_dir w, baseline_dir w)
  else (baseline_dir w, best_dir w).

(** The calls of the final refit for the best epoch [best]. *)
Definition refit_calls (w : wrapper) (best : Z) : list call :=
  let lo := Z.min (Params.baseline_epoch (params w)) best in
  let hi := Z.max (Params.baseline_epoch (params w)) best in
  [CallRecreate; CallFit lo false; CallSave (model_dir w);
   CallCopy (fst (refit_dirs w best))] ++
  (if (lo <? hi)%Z
   then [CallFit (hi - lo) true; CallSave (model_dir w)] else []) ++
  [CallCopy (snd (refit_dirs w best))].

(** The data set of the refit. *)
Definition refit_dataset (pipeline : Pipeline) : option Dataset :=
  if (1 <? length (train_valid_dsets pipeline))%nat
  then Some (combined_training_data pipeline)
  else match train_valid_dsets pipeline with
       | (train_dset, _) :: _ => Some train_dset
       | [] => None
       end.

(** The models of the two checkpoints: a new model fitted from scratch for
    [lo] epochs, and that model fitted on for [hi - lo] more. *)
Definition refit_models (w : wrapper) (p : Params.t) (dset : Dataset)
  (best : Z) : Model * Model :=
  let lo := Z.min (Params.baseline_epoch (params w)) best in
  let hi := Z.max (Params.baseline_epoch (params w)) best in
  let first := fit_nn (build_model DCNNModelWrapper p (model_dir w))
                      dset lo false in
  (first, if (lo <? hi)%Z then fit_nn first dset (hi - lo) true else first).

(** The classes whose model is trained in one pass. *)
Definition is_ensemble (c : wrapper_class) : Prop :=
  c = DCRFModelWrapper \/ c = DCxgboostModelWrapper.

(** What every method keeps true of an ensemble wrapper built on the output
    directory [o]. *)
Definition kept (o : string) (w : wrapper) : Prop :=
  is_ensemble (cls w) /\ output_dir w = o /\
  model_dir w = path_join o "best_model" /\
  best_model_dir w = Some (path_join o "best_model") /\
  is_Some (model w).

(** The arrays of a run of [train] all have [n] entries, as [train]
    allocates them for [max_epochs = n]. *)
Definition subset_shape (n : nat) (sp : subset_perf) : Prop :=
  length (perf_data sp) = n /\ length (epoch_perfs sp) = n /\
  length (epoch_perf_stds sp) = n.

Definition run_shape (n : nat) (st : nn_run) : Prop :=
  subset_shape n (train_sp st) /\ subset_shape n (valid_sp st) /\
  subset_shape n (test_sp st) /\ length (scores st) = n.

(** The clock never passes the ceiling at an epoch boundary of the run. *)
Definition within_time (p : Params.t) (pipeline : Pipeline) : Prop :=
  forall k ei, over_time p pipeline k ei = false.

End Externals.

End ModelWrapper.

(* ===================================================================== *)
(** * Vocabulary of the statements *)
(* ===================================================================== *)

Module Spec.

Import ParameterParser.

(** The entries of a traversal stored one after the other. *)
Definition store_all (l : list (string * pyval)) (st : flat_state) : flat_state :=
  fold_left (fun st kv => store_leaf (fst kv) (snd kv) st) l st.

(** A nested configuration in which one key occurs twice with one value. *)
Definition same_value_twice : pydict :=
  [("a", VInt 1); ("sub", VDict [("a", VInt 1)])].

(** A string without whitespace characters. *)
Definition no_space (s : string) : Prop :=
  forall c, has_char c s = true -> is_space c = false.

Fixpoint all_digits (s : string) : bool :=
  match s with
  | EmptyString => true
  | String c r => is_digit c && all_digits r
  end.

(** Two namespaces that hold the same values, except perhaps under the keys
    of [K]. *)
Definition agree (K : list string) (a b : pydict) : Prop :=
  forall j, ~ In j K -> dict_get j a = dict_get j b.

(** The text of a list element is faithful for the parameter [item]: it
    reads back as the element and contains neither the list separator nor
    the character that stands for a space. *)
Definition faithful {FT : FloatText} (item : string) (x : pyval) : Prop :=
  to_number item (py_str x) = Ok x /\
  has_char "," (py_str x) = false /\
  has_char "@" (py_str x) = false.

(** The condition on the floats of a list: Python's [float] reads back what
    [str] prints, the text of a float has no comma and no ["@"], and the
    joined text is not a null word (it is for [nan] alone). *)
Definition float_text_ok {FT : FloatText} (l : list pyval) : Prop :=
  Forall (fun x =>
    match x with
    | VFloat q =>
        float_of_string (strip (str_float q)) = Some q /\
        has_char "," (str_float q) = false /\
        has_char "@" (str_float q) = false
    | _ => True
    end) l /\
  str_in (join "," (map py_str l)) null_options = false.

(** The defaults that [get_parser] gives to the parameters read by
    [postprocess_args]. *)
Definition default_args : pydict :=
  [("model_filter", VNone);
   ("split_strategy", VStr "train_valid_test");
   ("split_valid_frac", VFloat (1 # 10));
   ("split_test_frac", VFloat (1 # 10));
   ("model_choice_score_type", VNone);
   ("prediction_type", VStr "regression");
   ("hyperparam", VBool false);
   ("dropouts", VNone);
   ("weight_init_stddevs", VNone);
   ("bias_init_consts", VNone);
   ("learning_rate", VStr "0.0005");
   ("umap_targ_wt", VStr "0.0");
   ("umap_min_dist", VStr "0.05");
   ("dropout_list", VNone);
   ("weight_decay_penalty", VStr "0.0001");
   ("xgb_learning_rate", VStr "0.1");
   ("xgb_gamma", VStr "0.0");
   ("xgb_min_child_weight", VStr "1.0");
   ("xgb_subsample", VStr "1.0");
   ("xgb_colsample_bytree", VStr "1.0");
   ("layer_sizes", VNone);
   ("rf_max_features", VStr "32");
   ("rf_estimators", VStr "500");
   ("rf_max_depth", VNone);
   ("umap_dim", VStr "10");
   ("umap_neighbors", VStr "20");
   ("layer_nums", VNone);
   ("node_nums", VNone);
   ("xgb_max_depth", VStr "6");
   ("xgb_n_estimators", VStr "100");
   ("response_cols", VNone);
   ("model_type", VNone);
   ("featurizer", VNone);
   ("splitter", VStr "scaffold");
   ("umap_metric", VStr "euclidean");
   ("weight_decay_penalty_type", VStr "l2");
   ("descriptor_type", VStr "moe")].

(** The exception of the split check for [train_valid_test]. *)
Definition split_error : exn :=
  Exception
    "Split fractions for validation and test sets leave no room for training set.".

(** A file system without any readable JSON file. *)
Definition no_files (path : string) : result pyval :=
  Raise (OSError "No such file or directory").

(** [--split_valid_frac 0.6 --split_test_frac 0.5]. *)
Definition large_fractions : pydict :=
  dict_set "split_valid_frac" (VFloat (6 # 10))
    (dict_set "split_test_frac" (VFloat (5 # 10)) default_args).

(** [--dropouts 0.1,0.2 --weight_init_stddevs 0.02,0.02,0.02], and no
    [--layer_sizes]. *)
Definition mismatched_without_layer_sizes : pydict :=
  dict_set "dropouts" (VStr "0.1,0.2")
    (dict_set "weight_init_stddevs" (VStr "0.02,0.02,0.02") default_args).

(** [--layer_sizes 64,32 --dropouts 0.1,0.25 --response_cols pIC50,logD]. *)
Definition two_layers : pydict :=
  dict_set "layer_sizes" (VStr "64,32")
    (dict_set "dropouts" (VStr "0.1,0.25")
       (dict_set "response_cols" (VStr "pIC50,logD") default_args)).

(** The namespace that [postprocess_args] returns for [two_layers]. *)
Definition two_layers_normalised : pydict :=
  match postprocess_args (FT := DecimalText.decimal_text) no_files two_layers with
  | Ok ns => ns
  | Raise _ => []
  end.

(** [--hyperparam --layer_sizes "10,100 20,200 30,300"], the example of the
    docstring of [postprocess_args]. *)
Definition layer_search : pydict :=
  dict_set "hyperparam" (VBool true)
    (dict_set "layer_sizes" (VStr "10,100 20,200 30,300") default_args).

(** The namespace that [postprocess_args] returns for [layer_search]. *)
Definition layer_search_normalised : pydict :=
  match postprocess_args (FT := DecimalText.decimal_text) no_files
          layer_search with
  | Ok ns => ns
  | Raise _ => []
  end.

End Spec.

(* ===================================================================== *)
(** * A small model library, for running the wrappers *)
(* ===================================================================== *)

(** A stand-in for the model library and the accumulator, used to run the
    training loops on concrete data: a model is the number of epochs it was
    fitted for, a data set is a number, a prediction on a data set is the
    score read from a table, and an accumulator averages what it is given. *)
Module Toy.

Import ModelWrapper.

(** The score of a model on each validation set, per number of epochs. *)
Definition score_table (d : nat) : list Q :=
  if Nat.eqb d 11 then [0; 0; 4 # 10; 3 # 10]%Q
  else if Nat.eqb d 21 then [0; 1 # 10; 5 # 10; 3 # 10]%Q
  else if Nat.eqb d 31 then [0; 2 # 10; 6 # 10; 3 # 10]%Q
  else if Nat.eqb d 41 then [0; 1 # 10; 2 # 10; 5 # 10; 4 # 10]%Q
  else [].

#[export] Instance library : ModelLibrary := {|
  Model := nat;
  Dataset := nat;
  Ids := nat;
  Pred := Q;
  Featurization := unit;
  DatastoreClient := unit;
  build_model := fun _ _ _ => O;
  fit_nn := fun m _ nb_epoch restore =>
    if restore then (m + Z.to_nat nb_epoch)%nat else Z.to_nat nb_epoch;
  fit_ensemble := fun m _ => S m;
  reload := fun m => m;
  load_from_dir := fun _ => O;
  predict := fun m d => nth m (score_table d) 0%Q;
  ids := fun d => d
|}.

Definition mean (l : list Q) : Q :=
  match l with
  | [] => 0%Q
  | _ => Qred (fold_right Qplus 0%Q l / inject_Z (Z.of_nat (length l)))
  end.

#[export] Instance accumulator : PerfLibrary := {|
  PerfData := list Q;
  create_perf_data := fun _ _ _ => [];
  accumulate_preds := fun pd pred _ => (pd ++ [pred], pred);
  compute_perf_metrics := fun pd => (mean pd, 0%Q);
  model_choice_score := fun pd _ => mean pd
|}.

Definition params (model_type : string) (max_epochs baseline_epoch : Z)
  (system : string) : Params.t :=
  Params.mk (VStr model_type) "/out" max_epochs baseline_epoch system
            "regression" "r2".

(** Three folds whose validation scores average to 0.1, 0.5, 0.3 over three
    epochs. *)
Definition three_folds : Pipeline :=
  mkPipeline library [(10, 11); (20, 21); (30, 31)]%nat 99%nat 100%nat
             (fun _ _ => 0%Q) "r2".

(** One fold whose validation score is best at the third of four epochs. *)
Definition one_fold : Pipeline :=
  mkPipeline library [(40, 41)]%nat 99%nat 100%nat (fun _ _ => 0%Q) "r2".

(** Two folds on a clock that passes eighteen hours after the second epoch
    of the first fold. *)
Definition two_folds_late : Pipeline :=
  mkPipeline library [(10, 11); (20, 21)]%nat 99%nat 100%nat
             (fun k ei =>
                if (Nat.eqb k 0 && (ei <? 2)%nat) then 0%Q else 70000%Q)
             "r2".

Definition empty_world : world := mkWorld ∅ [] [].

(** The neural-network wrapper as the pipeline prepares it: constructed,
    then [setup_model_dirs]. *)
Definition nn_wrapper (p : Params.t) : wrapper :=
  setup_model_dirs (DCNNModelWrapper_init p tt tt).

End Toy.

(* ===================================================================== *)
(** * parameter_parser.py: the entry points around parse_command_line *)
(* ===================================================================== *)

Module ParameterTools.

Import ParameterParser.

(** The argument of [wrapper]: a string (the path of a configuration file),
    a dictionary or an [argparse.Namespace] (given by its [vars]), a list of
    strings, or a value of another type. *)
Inductive wrapper_arg : Type :=
| WStr (s : string)
| WDict (d : pydict)
| WList (l : list string)
| WOther.

(** [l.index(x)]: the position of the first occurrence, for [x in l]. *)
Fixpoint index_of (x : string) (l : list string) : nat :=
  match l with
  | [] => O
  | y :: r => if String.eqb y x then O else S (index_of x r)
  end.

(** The body of [for item in just_args] in [wrapper]: the first occurrence
    of [item] in [list_inp] is deleted, together with the token after it
    unless that token contains ["--"].  [list_inp[idx+1]] needs a token
    after the occurrence. *)
Definition drop_overridden (item : string) (list_inp : list string)
  : result (list string) :=
  if str_in item list_inp then
    let idx := index_of item list_inp in
    match list_inp !! S idx with
    | None => Raise (IndexError "list index out of range")
    | Some next =>
        if str_contains "--" next
        then Ok (take idx list_inp ++ drop (idx + 1) list_inp)
        else Ok (take idx list_inp ++ drop (idx + 2) list_inp)
    end
  else Ok list_inp.

(** The arguments given after the configuration file replace those of the
    file: [list_inp] is the list made from the file, [rest] is
    [inp_arg[2:]]. *)
Definition merge_overrides (list_inp rest : list string)
  : result (list string) :=
  match rest with
  | [] => Ok list_inp
  | _ :: _ =>
      list_inp <- for_each drop_overridden (just_args rest) list_inp ;;
      Ok (list_inp ++ rest)
  end.

Section Tools.

Context {FT : FloatText}.
Variable load_json : string -> result pyval.
Variable parse_args : cl_args -> result pydict.

(** The branch of [wrapper] for a list of one string, which evaluates the
    string with [eval] and parses what it denotes. *)
Variable eval_single : string -> result pydict.

(** [parser.get_default(key)], [None] for a name the parser does not
    define. *)
Variable get_default : string -> pyval.

(** [to_str(params_obj)]. *)
Definition to_str (params_obj : pydict) : result string :=
  strobj <- dict_to_list (VDict params_obj) true ;;
  Ok (join " " strobj).

Definition required_vars (hyperparam : bool) : list string :=
  ["--dataset_key"; "/ds/data/public/delaney/delaney-processed.csv";
   "--bucket"; "gsk_ml"] ++
  (if hyperparam then ["--hyperparam"] else []).

(** [list_defaults(hyperparam)]. *)
Definition list_defaults (hyperparam : bool) : result pydict :=
  parse_command_line load_json parse_args (ArgsList (required_vars hyperparam)).

(** The loop over [replace_json_names_dict]. *)
Definition replace_json_names (flat_dict : pydict) : pydict :=
  fold_left (fun d kv => rename_key (dict_keys flat_dict) kv d)
            optional_names_dict flat_dict.

(** [{k: flat_dict[k] for k in keep if k in flat_dict}]. *)
Definition keep_accepted (keep : list string) (flat_dict : pydict) : pydict :=
  fold_left (fun newdict k =>
               match dict_get k flat_dict with
               | Some v => dict_set k v newdict
               | None => newdict
               end) keep [].

(** [[x for x in list(flat_dict.keys()) if x not in newdict.keys()]], the
    keys named in the warning ("are not part of the accepted list of
    parameters and will be ignored"). *)
Definition extra_keys (flat_dict newdict : pydict) : list string :=
  filter (fun x => str_in x (dict_keys newdict) = false) (dict_keys flat_dict).

(** [parse_namespace(namespace_params)]; a namespace is given by its
    [vars].  The warning about extra keys goes to the logger only. *)
Definition parse_namespace (namespace_params : pyval)
  : result (list string) :=
  match namespace_params with
  | VNone => dict_to_list VNone false
  | VDict d =>
      let flat_dict := replace_json_names (newdict (flatten_dict d [])) in
      default <- list_defaults false ;;
      let newdict := keep_accepted (dict_keys default) flat_dict in
      dict_to_list (VDict newdict) false
  | _ => Raise (AttributeError "items")
  end.

(** [parse_config_file(config_file_path)]. *)
Definition parse_config_file (config_file_path : string)
  : result (list string) :=
  config <- load_json config_file_path ;;
  match config with
  | VDict d =>
      let flat0 := newdict (flatten_dict d []) in
      let orig_keys := dict_keys flat0 in
      let flat_dict := replace_json_names flat0 in
      hyperparam <-
        (if str_in "hyperparam" orig_keys then
           v <- getitem flat_dict "hyperparam" ;;
           Ok (py_eq v (VBool true))
         else Ok false) ;;
      default <- list_defaults hyperparam ;;
      let newdict := keep_accepted (dict_keys default) flat_dict in
      let newdict := dict_set "config_file" (VStr config_file_path) newdict in
      dict_to_list (VDict newdict) false
  | _ => Raise (AttributeError "items")
  end.

Definition wrapper_type_error : exn :=
  TypeError
    "Input argument must be a configuration file (str), dict, argparse.Namespace, or list".

(** [wrapper], called with the arguments [any_arg]. *)
Definition wrapper (any_arg : list wrapper_arg) : result pydict :=
  match any_arg with
  | [inp_arg] =>
      match inp_arg with
      | WStr path =>
          list_inp <- parse_config_file path ;;
          parse_command_line load_json parse_args (ArgsList list_inp)
      | WDict d =>
          list_inp <- parse_namespace (VDict d) ;;
          parse_command_line load_json parse_args (ArgsList list_inp)
      | WList l =>
          match l with
          | [] => Raise (IndexError "list index out of range")
          | first :: others =>
              if String.eqb first "--config_file" || String.eqb first "--config"
              then
                match others with
                | [] => Raise (IndexError "list index out of range")
                | path :: rest =>
                    list_inp <- parse_config_file path ;;
                    list_inp <- merge_overrides list_inp rest ;;
                    parse_command_line load_json parse_args (ArgsList list_inp)
                end
              else
                match others with
                | [] => eval_single first
                | _ :: _ =>
                    parse_command_line load_json parse_args (ArgsList l)
                end
          end
      | WOther => Raise wrapper_type_error
      end
  | _ => Raise wrapper_type_error
  end.

(** [prune_defaults(params, keep_params)]; [keep_params] is given by the
    names it holds. *)
Definition prune_defaults (params : pydict) (keep_params : list string)
  : pydict :=
  fold_left (fun new_dict kv =>
               let '(key, value) := kv in
               if str_in key keep_params ||
                  negb (py_eq (get_default key) value ||
                        py_eq (get_default key) (VStr (py_str value)))
               then dict_set key value new_dict
               else new_dict) params [].

End Tools.

(** ** Vocabulary for the statements about these functions *)

(** No token that contains ["--"] occurs twice. *)
Definition no_repeated_flag (l : list string) : Prop :=
  List.NoDup (just_args l).

(** The condition under which [prune_defaults] keeps an entry. *)
Definition pruned_in (get_default : string -> pyval) {FT : FloatText}
  (keep_params : list string) (key : string) (value : pyval) : bool :=
  str_in key keep_params ||
  negb (py_eq (get_default key) value ||
        py_eq (get_default key) (VStr (py_str value))).

End ParameterTools.

(* ===================================================================== *)
(** * model_wrapper.py: reading the results of a training run *)
(* ===================================================================== *)

Module ModelResults.

Import ModelWrapper.

(** [l[i]] for an integer index: a negative index counts from the end. *)
Definition py_index {A} (l : list A) (i : Z) : result A :=
  let n := Z.of_nat (length l) in
  let j := if (i <? 0)%Z then (i + n)%Z else i in
  if (0 <=? j)%Z && (j <? n)%Z then list_get l (Z.to_nat j)
  else Raise (IndexError "list index out of range").

Section Results.

Context {ML : ModelLibrary} {PL : PerfLibrary}.

(** [self.get_full_dataset_perf_data(self.data)]: predictions of the current
    model on the whole data set, made by [generate_predictions]. *)
Variable get_full_dataset_perf_data : wrapper -> result PerfData.

(** [self.best_epoch], an attribute that [train] assigns. *)
Definition get_best_epoch (w : wrapper) : result Z :=
  match best_epoch w with
  | Some e => Ok e
  | None => Raise (AttributeError "best_epoch")
  end.

(** The epoch index and the model directory chosen by [epoch_label] in
    [DCNNModelWrapper.get_perf_data] and [get_pred_results]. *)
Definition epoch_of_label (w : wrapper) (epoch_label : option string)
  : result (Z * string) :=
  match epoch_label with
  | Some label =>
      if String.eqb label "best" then
        epoch <- get_best_epoch w ;;
        model_dir <- get_dir (best_model_dir w) "best_model_dir" ;;
        Ok (epoch, model_dir)
      else if String.eqb label "baseline" then
        let epoch :=
          if (Params.max_epochs (params w) <?
              Params.baseline_epoch (params w))%Z
          then (Params.max_epochs (params w) - 1)%Z
          else (Params.baseline_epoch (params w) - 1)%Z in
        model_dir <- get_dir (baseline_model_dir w) "baseline_model_dir" ;;
        Ok (epoch, model_dir)
      else Raise (ValueError ("Unknown epoch_label '" +:+ label +:+ "'"))
  | None => Raise (ValueError "Unknown epoch_label 'None'")
  end.

(** [self.train_perf_data], [self.valid_perf_data] and
    [self.test_perf_data] of a neural-network wrapper: the lists that
    [train] fills. *)
Definition epoch_perf_data (w : wrapper) (subset : string)
  : result (list PerfData) :=
  match perf w with
  | PerfEpochs tr va te _ =>
      if String.eqb subset "train" then Ok (perf_data tr)
      else if String.eqb subset "valid" then Ok (perf_data va)
      else Ok (perf_data te)
  | PerfSingle _ _ _ _ => Raise (TypeError "object is not subscriptable")
  | PerfUnset => Raise (AttributeError (subset +:+ "_perf_data"))
  end.

(** [DCNNModelWrapper.get_perf_data(subset, epoch_label)]. *)
Definition DCNNModelWrapper_get_perf_data (w : wrapper) (subset : string)
  (epoch_label : option string) : result PerfData :=
  if String.eqb subset "full" then get_full_dataset_perf_data w
  else
    em <- epoch_of_label w epoch_label ;;
    if String.eqb subset "train" || String.eqb subset "valid" ||
       String.eqb subset "test"
    then
      l <- epoch_perf_data w subset ;;
      py_index l (fst em)
    else Raise (ValueError ("Unknown dataset subset '" +:+ subset +:+ "'")).

(** [self.train_perf_data] and the like of a random forest or xgboost
    wrapper: one accumulator per subset. *)
Definition single_perf_data (w : wrapper) (subset : string)
  : result PerfData :=
  match perf w with
  | PerfSingle tr va te _ =>
      if String.eqb subset "train" then Ok (single_data tr)
      else if String.eqb subset "valid" then Ok (single_data va)
      else Ok (single_data te)
  | PerfEpochs _ _ _ _ => Raise (TypeError "not a PerfData object")
  | PerfUnset => Raise (AttributeError (subset +:+ "_perf_data"))
  end.

(** [DCRFModelWrapper.get_perf_data] and
    [DCxgboostModelWrapper.get_perf_data]: [epoch_label] is not used. *)
Definition ensemble_get_perf_data (w : wrapper) (subset : string)
  (epoch_label : option string) : result PerfData :=
  if String.eqb subset "train" || String.eqb subset "valid" ||
     String.eqb subset "test"
  then single_perf_data w subset
  else if String.eqb subset "full" then get_full_dataset_perf_data w
  else Raise (ValueError ("Unknown dataset subset '" +:+ subset +:+ "'")).

(** [wrapper.get_perf_data(subset, epoch_label)]. *)
Definition get_perf_data (w : wrapper) (subset : string)
  (epoch_label : option string) : result PerfData :=
  match cls w with
  | ModelWrapper => Raise (AttributeError "get_perf_data")
  | DCNNModelWrapper => DCNNModelWrapper_get_perf_data w subset epoch_label
  | DCRFModelWrapper | DCxgboostModelWrapper =>
      ensemble_get_perf_data w subset epoch_label
  end.

End Results.

(** ** Vocabulary for the statements about results *)

Section ResultsVocabulary.

Context {ML : ModelLibrary} {PL : PerfLibrary}.

(** The number of calls of [model.fit(dset)] by an ensemble wrapper. *)
Definition ensemble_fits (cs : list call) : nat :=
  length (List.filter (fun c => match c with
                                | CallFitEnsemble => true
                                | _ => false
                                end) cs).

(** The model of an ensemble wrapper after the folds: each fold fits the
    same model object on its training set. *)
Definition fitted_on_folds (m0 : Model) (dsets : list (Dataset * Dataset))
  : Model :=
  fold_left (fun m d => fit_ensemble m (fst d)) dsets m0.

(** The accumulator of a subset of an ensemble wrapper after the folds. *)
Fixpoint ensemble_valid_data (m : Model) (dsets : list (Dataset * Dataset))
  (pd : PerfData) : PerfData :=
  match dsets with
  | [] => pd
  | (train_dset, valid_dset) :: rest =>
      let m' := fit_ensemble m train_dset in
      ensemble_valid_data m' rest
        (fst (accumulate_preds pd (predict m' valid_dset) (ids valid_dset)))
  end.

End ResultsVocabulary.

End ModelResults.

(* ===================================================================== *)
(** * More vocabulary of the statements *)
(* ===================================================================== *)

Module SpecTools.

Import ParameterParser ParameterTools.

Definition is_dict (v : pyval) : bool :=
  match v with VDict _ => true | _ => false end.

(** A flat dictionary: no key twice, no value that is a dictionary. *)
Definition flat (d : pydict) : Prop :=
  List.NoDup (dict_keys d) /\
  forall k v, In (k, v) d -> is_dict v = false.


(** A key without a space character. *)
Definition spaceless (s : string) : Prop := has_char " " s = false.

(** The text of a hyperparameter search over lists of integers: the
    lists are separated by spaces, the integers of a list by commas. *)
Definition group_text (g : list Z) : string := join "," (map str_int g).

Definition groups_text (gs : list (list Z)) : string :=
  join " " (map group_text gs).

Definition int_list (g : list Z) : pyval := VList (map VInt g).

(** What hyperparameter mode stores for such a text: the list of lists; for
    one list, that list; for one list of one integer, the integer, unless
    the parameter is to be kept as a list. *)
Definition hyper_value (keep : bool) (gs : list (list Z)) : pyval :=
  match gs with
  | [g] =>
      match g with
      | [z] => if keep then int_list g else VInt z
      | _ => int_list g
      end
  | _ => VList (map int_list gs)
  end.

(** What the loop over the lists leaves under the key, by the list
    [newlist] built so far. *)
Definition hyper_stored (keep : bool) (newlist : list pyval) : pyval :=
  match newlist with
  | [first] =>
      match first with
      | VList [x] => if keep then first else x
      | _ => first
      end
  | _ => VList newlist
  end.

End SpecTools.

(* ===================================================================== *)
(** * Example inputs *)
(* ===================================================================== *)

Module Examples.

Import ParameterParser ParameterTools Spec.

(** The namespace that [postprocess_args] returns, for the examples whose
    run goes through. *)
Definition normalised (parsed_args : pydict) : pydict :=
  match postprocess_args (FT := DecimalText.decimal_text) no_files
          parsed_args with
  | Ok ns => ns
  | Raise _ => []
  end.

(** [--result_dir my@results], as [to_str] writes ["my results"]. *)
Definition spaced : pydict :=
  dict_set "result_dir" (VStr "my@results") default_args.

(** [--layer_sizes 64]. *)
Definition one_layer : pydict :=
  dict_set "layer_sizes" (VStr "64") default_args.

(** [--split_strategy k_fold_cv --split_test_frac 1.0]. *)
Definition k_fold_all_test : pydict :=
  dict_set "split_strategy" (VStr "k_fold_cv")
    (dict_set "split_test_frac" (VFloat 1) default_args).

(** [--learning_rate 0.1,0.2]. *)
Definition two_rates : pydict :=
  dict_set "learning_rate" (VStr "0.1,0.2") default_args.


Definition with_space : pydict :=
  [("model_type", VStr "NN"); ("result_dir", VStr "my results")].

(** A configuration file with a nested section, an argument parser that
    knows the parameters of [default_args], and no [eval]. *)
Definition config_json : pydict :=
  [("model_type", VStr "NN"); ("net", VDict [("splitter", VStr "random")])].

Definition one_file (path : string) : result pyval :=
  if String.eqb path "cfg.json" then Ok (VDict config_json)
  else Raise (OSError "No such file or directory").

Definition known_parameters (args : cl_args) : result pydict :=
  Ok default_args.

Definition no_eval (text : string) : result pydict :=
  Raise (Exception "eval").

(** The defaults of [default_args], as [parser.get_default] gives them. *)
Definition default_of (key : string) : pyval :=
  match dict_get key default_args with
  | Some v => v
  | None => VNone
  end.

Definition given : pydict :=
  [("model_type", VStr "NN"); ("splitter", VStr "scaffold");
   ("umap_metric", VStr "euclidean")].

(** No data set for the ['full'] subset. *)
Definition no_full_data
  (w : ModelWrapper.wrapper (ML := Toy.library) (PL := Toy.accumulator))
  : result (list Q) :=
  Raise (AttributeError "data").

End Examples.

(* ===================================================================== *)
(** * Facts about dictionaries *)
(* ===================================================================== *)

Section DictFacts.

Context {V : Type}.

Lemma dict_get_set_eq k (v : V) d : dict_get k (dict_set k v d) = Some v.
Proof.
  induction d as [|[k' v'] r IH]; simpl.
  - now rewrite String.eqb_refl.
  - destruct (String.eqb k' k) eqn:E; simpl.
    + now rewrite String.eqb_refl.
    + now rewrite E.
Qed.

Lemma dict_get_set_ne k k' (v : V) d :
  k <> k' -> dict_get k' (dict_set k v d) = dict_get k' d.
Proof.
  intros Hne. induction d as [|[k0 v0] r IH]; simpl.
  - destruct (String.eqb k k') eqn:E; [|reflexivity].
    apply String.eqb_eq in E. contradiction.
  - destruct (String.eqb k0 k) eqn:E; simpl.
    + apply String.eqb_eq in E. subst k0.
      destruct (String.eqb k k') eqn:E'; [|reflexivity].
      apply String.eqb_eq in E'. contradiction.
    + destruct (String.eqb k0 k'); [reflexivity | exact IH].
Qed.

Lemma dict_get_set k k' (v : V) d :
  dict_get k' (dict_set k v d) =
  if String.eqb k k' then Some v else dict_get k' d.
Proof.
  destruct (String.eqb k k') eqn:E.
  - apply String.eqb_eq in E. subst. apply dict_get_set_eq.
  - apply dict_get_set_ne. now apply String.eqb_neq.
Qed.

Lemma dict_get_app k (d1 d2 : list (string * V)) :
  dict_get k (d1 ++ d2) =
  match dict_get k d1 with Some v => Some v | None => dict_get k d2 end.
Proof.
  induction d1 as [|[k' v'] r IH]; simpl; [reflexivity|].
  destruct (String.eqb k' k); [reflexivity | exact IH].
Qed.

End DictFacts.

(* ===================================================================== *)
(** * flatten_dict *)
(* ===================================================================== *)

Section FlattenFacts.

Import ParameterParser Spec.

(** The traversal stores the leaves in order: the recursion on nested
    dictionaries is a left fold of [store_leaf] over [leaves]. *)
Lemma flatten_item_store_all :
  forall val key st,
    flatten_item key val st = store_all (leaves_item key val) st.
Proof.
  fix IH 1. intros val key st.
  destruct val as [ | b | z | q | s | l | d]; try reflexivity.
  simpl. revert st.
  induction d as [|[k v] r IHr]; intros st; [reflexivity|].
  rewrite IHr. rewrite (IH v k st).
  unfold store_all. now rewrite fold_left_app.
Qed.

Lemma flatten_items_store_all d st :
  flatten_items d st = store_all (leaves d) st.
Proof.
  revert st. induction d as [|[k v] r IH]; intros st; [reflexivity|].
  simpl. rewrite IH, flatten_item_store_all.
  unfold store_all. now rewrite fold_left_app.
Qed.

Lemma store_leaf_newdict key val st :
  newdict (store_leaf key val st) = dict_set key val (newdict st).
Proof.
  unfold store_leaf.
  destruct (dict_get key (newdict st)); [destruct (py_ne _ _)|]; reflexivity.
Qed.

Lemma last_seen_snoc k l k' v :
  last_seen k (l ++ [(k', v)]) =
  if String.eqb k' k then Some v else last_seen k l.
Proof. unfold last_seen. rewrite rev_app_distr. reflexivity. Qed.

(** After a sequence of entries the dictionary holds, for each key, the
    last value met, or what it held before when the key was not met. *)
Lemma store_all_get l : forall st k,
  dict_get k (newdict (store_all l st)) =
  match last_seen k l with
  | Some v => Some v
  | None => dict_get k (newdict st)
  end.
Proof.
  induction l as [|[k' v] l IH] using rev_ind; intros st k.
  - reflexivity.
  - unfold store_all. rewrite fold_left_app. simpl.
    rewrite store_leaf_newdict, dict_get_set, last_seen_snoc.
    destruct (String.eqb k' k); [reflexivity|].
    apply IH.
Qed.

(** The log after a sequence of entries: one record for each entry whose key
    already holds a value that differs from the new one. *)
Lemma store_all_log l : forall st r,
  In r (log (store_all l st)) <->
  In r (log st) \/
  exists before after k v old,
    r = WarnOverwrite k v /\
    l = before ++ (k, v) :: after /\
    dict_get k (newdict (store_all before st)) = Some old /\
    py_ne old v = true.
Proof.
  induction l as [|[k' v'] l IH] using rev_ind; intros st r.
  - split; [now left|].
    intros [H|(before & after & k & v & old & _ & H & _)]; [exact H|].
    now destruct before.
  - unfold store_all at 1. rewrite fold_left_app. simpl.
    fold (store_all l st).
    set (mid := store_all l st).
    assert (Hlog : In r (log (store_leaf k' v' mid)) <->
                   In r (log mid) \/
                   exists old, r = WarnOverwrite k' v' /\
                     dict_get k' (newdict mid) = Some old /\ py_ne old v' = true).
    { unfold store_leaf.
      destruct (dict_get k' (newdict mid)) as [old|] eqn:Hget.
      - destruct (py_ne old v') eqn:Hne; simpl.
        + rewrite in_app_iff. simpl. split.
          * intros [H|[H|[]]]; [now left|]. right. exists old. now subst.
          * intros [H|(o & H & _)]; [now left|]. right. left. now subst.
        + split; [now left|].
          intros [H|(o & _ & Ho & Hne')]; [exact H|].
          injection Ho as ->. congruence.
      - simpl. split; [now left|].
        intros [H|(o & _ & Ho & _)]; [exact H | discriminate]. }
    rewrite Hlog. unfold mid. rewrite IH. clear Hlog IH.
    split.
    + intros [[H|(before & after & k & v & old & Hr & Hl & Hg & Hn)]
             |(old & Hr & Hg & Hn)].
      * now left.
      * right. exists before, (after ++ [(k', v')]), k, v, old.
        repeat split; try assumption.
        rewrite Hl, <- app_assoc. reflexivity.
      * right. exists l, [], k', v', old. repeat split; assumption.
    + intros [H|(before & after & k & v & old & Hr & Hl & Hg & Hn)].
      * left. now left.
      * destruct after as [|a after] using rev_ind.
        -- apply app_inj_tail in Hl as [-> Hkv].
           injection Hkv as -> ->.
           right. exists old. repeat split; assumption.
        -- clear IHafter.
           rewrite app_comm_cons, app_assoc in Hl.
           apply app_inj_tail in Hl as [-> _].
           left. right. exists before, after, k, v, old.
           repeat split; assumption.
Qed.

(** C6, the part that holds as stated and the warning rule of the code:
    for every nested configuration, [flatten_dict] started on an empty
    dictionary returns a flat dictionary that holds, for every key, the value
    of its last occurrence in traversal order; and the log has a warning for
    key [k] with value [v] exactly when an occurrence of [k] with value [v]
    arrives while [k] already holds a value that Python's [!=] tells apart
    from [v]. *)
Theorem flatten_dict_last_seen_and_warnings (inp_dict : pydict) :
  (forall k,
      dict_get k (newdict (flatten_dict inp_dict [])) =
      last_seen k (leaves inp_dict)) /\
  (forall k v,
      In (WarnOverwrite k v) (log (flatten_dict inp_dict [])) <->
      exists before after old,
        leaves inp_dict = before ++ (k, v) :: after /\
        last_seen k before = Some old /\
        py_ne old v = true).
Proof.
  unfold flatten_dict. rewrite flatten_items_store_all. split.
  - intros k. rewrite store_all_get. simpl.
    now destruct (last_seen k (leaves inp_dict)).
  - intros k v. rewrite store_all_log. simpl. split.
    + intros [[]|(before & after & k0 & v0 & old & Hr & Hl & Hg & Hn)].
      injection Hr as <- <-.
      exists before, after, old. repeat split; try assumption.
      rewrite store_all_get in Hg. simpl in Hg.
      now destruct (last_seen k before).
    + intros (before & after & old & Hl & Hs & Hn).
      right. exists before, after, k, v, old. repeat split; try assumption.
      rewrite store_all_get. now rewrite Hs.
Qed.

(** C6 as stated fails: a key that occurs twice with the same value is
    overwritten without any warning. *)
Lemma flatten_dict_duplicate_without_warning :
  ~ (forall (inp_dict : pydict) (k : string),
        (2 <= occurrences k (leaves inp_dict))%nat ->
        warned k (flatten_dict inp_dict [])).
Proof.
  intros H.
  destruct (H same_value_twice "a") as [v Hv].
  - vm_compute. lia.
  - vm_compute in Hv. exact Hv.
Qed.

End FlattenFacts.

(* ===================================================================== *)
(** * parse_command_line and the shell entry point *)
(* ===================================================================== *)

Section CommandLineFacts.

Import ParameterParser.

Context {FT : FloatText}.
Variable load_json : string -> result pyval.
Variable parse_args : cl_args -> result pydict.
Variable wrapper : list string -> result pydict.

Lemma prefix_str_contains sub s :
  String.prefix sub s = true -> str_contains sub s = true.
Proof.
  intros H. destruct s; cbn [str_contains]; rewrite H; reflexivity.
Qed.

Lemma count_of_just_args t l :
  str_contains "--" t = true -> count_of t (just_args l) = count_of t l.
Proof.
  intros Ht. unfold count_of, just_args.
  induction l as [|x l IH]; [reflexivity|].
  rewrite (filter_cons (fun y => y = t) x l).
  rewrite (filter_cons (fun y => str_contains "--" y = true) x l).
  destruct (decide (x = t)) as [->|Hne].
  - destruct (decide (str_contains "--" t = true)); [|contradiction].
    rewrite filter_cons. destruct (decide (t = t)); [|contradiction].
    simpl. now rewrite IH.
  - destruct (decide (str_contains "--" x = true)); [|exact IH].
    rewrite filter_cons. destruct (decide (x = t)); [contradiction|exact IH].
Qed.

Lemma count_of_pos_elem t (l : list string) :
  (0 < count_of t l)%nat -> t ∈ l.
Proof.
  unfold count_of. intros H.
  destruct (filter (fun y => y = t) l) as [|y r] eqn:E; [simpl in H; lia|].
  assert (Hy : y ∈ filter (fun y => y = t) l) by (rewrite E; left).
  apply list_elem_of_filter in Hy as [-> Hy]. exact Hy.
Qed.

(** A token that contains ["--"] and occurs twice is in [duplicates]. *)
Lemma duplicated_in_duplicates t l :
  str_contains "--" t = true -> (2 <= count_of t l)%nat ->
  t ∈ duplicates (just_args l).
Proof.
  intros Ht Hc. unfold duplicates.
  apply elem_of_list_to_set, list_elem_of_filter. split.
  - rewrite count_of_just_args by assumption. lia.
  - apply count_of_pos_elem. rewrite count_of_just_args by assumption. lia.
Qed.

Lemma duplicates_spec t l :
  t ∈ duplicates (just_args l) <->
  str_contains "--" t = true /\ (2 <= count_of t l)%nat.
Proof.
  split.
  - unfold duplicates. intros H.
    apply elem_of_list_to_set, list_elem_of_filter in H as [Hc Hin].
    assert (Ht : str_contains "--" t = true).
    { unfold just_args in Hin. now apply list_elem_of_filter in Hin as [? _]. }
    split; [exact Ht|]. rewrite count_of_just_args in Hc by assumption. lia.
  - intros [Ht Hc]. now apply duplicated_in_duplicates.
Qed.

Lemma size_pos_of_elem (x : string) (X : gset string) :
  x ∈ X -> (0 <? size X)%nat = true.
Proof.
  intros Hx. apply Nat.ltb_lt.
  destruct (size X) eqn:E; [|lia].
  apply size_empty_iff in E. rewrite E in Hx. set_solver.
Qed.

(** C7: when the same ["--key"] token occurs more than once in the argument
    list, [parse_command_line] raises the [ValueError] built from the set of
    duplicated tokens, which names the token; it does so whatever the
    argument parser and the post-processing would do, that is before any
    value is read; and the module run as a script on that command line ends
    with an uncaught [ValueError], so with a non-zero exit status. *)
Theorem duplicate_key_raises (l : list string) (t script : string) :
  String.prefix "--" t = true ->
  (2 <= count_of t l)%nat ->
  t ∈ duplicates (just_args l) /\
  parse_command_line load_json parse_args (ArgsList l) =
    Raise (duplicate_error (duplicates (just_args l))) /\
  (exists dups, t ∈ dups /\
     script_entry load_json parse_args wrapper (script :: l) =
       Uncaught (duplicate_error dups)) /\
  exit_status (script_entry load_json parse_args wrapper (script :: l)) <> 0%Z.
Proof.
  intros Hp Hc.
  assert (Ht : str_contains "--" t = true) by now apply prefix_str_contains.
  assert (Hd : t ∈ duplicates (just_args l))
    by now apply duplicated_in_duplicates.
  assert (Hd' : t ∈ duplicates (just_args (script :: l))).
  { apply duplicated_in_duplicates; [exact Ht|].
    unfold count_of in *. rewrite filter_cons.
    destruct (decide (script = t)); simpl; lia. }
  assert (Hlen : (1 <? length (script :: l))%nat = true).
  { apply Nat.ltb_lt. simpl.
    assert (t ∈ l) by (apply count_of_pos_elem; lia).
    destruct l; [set_solver | simpl; lia]. }
  split; [exact Hd|]. split; [|split].
  - unfold parse_command_line.
    now rewrite (size_pos_of_elem _ _ Hd).
  - exists (duplicates (just_args (script :: l))). split; [exact Hd'|].
    unfold script_entry. rewrite Hlen.
    now rewrite (size_pos_of_elem _ _ Hd').
  - unfold script_entry. rewrite Hlen.
    rewrite (size_pos_of_elem _ _ Hd'). simpl. discriminate.
Qed.

(** The same check on a command line given as one string. *)
Lemma duplicate_key_raises_str (s t : string) :
  String.prefix "--" t = true ->
  (2 <= count_of t (split_on " " s))%nat ->
  parse_command_line load_json parse_args (ArgsStr s) =
    Raise (duplicate_error (duplicates (just_args (split_on " " s)))).
Proof.
  intros Hp Hc. unfold parse_command_line.
  assert (Hd : t ∈ duplicates (just_args (split_on " " s))).
  { apply duplicated_in_duplicates; [now apply prefix_str_contains|exact Hc]. }
  now rewrite (size_pos_of_elem _ _ Hd).
Qed.

End CommandLineFacts.

(** The statement above at a concrete command line. *)
Lemma duplicate_key_raises_witness :
  "--max_epochs" ∈ ParameterParser.duplicates
    (ParameterParser.just_args ["--max_epochs"; "3"; "--max_epochs"; "5"]) /\
  ParameterParser.parse_command_line (FT := DecimalText.decimal_text)
    (fun _ => Raise (OSError "")) (fun _ => Ok [])
    (ParameterParser.ArgsList ["--max_epochs"; "3"; "--max_epochs"; "5"]) =
    Raise (ParameterParser.duplicate_error
             (ParameterParser.duplicates
                (ParameterParser.just_args
                   ["--max_epochs"; "3"; "--max_epochs"; "5"]))) /\
  (exists dups, "--max_epochs" ∈ dups /\
     ParameterParser.script_entry (FT := DecimalText.decimal_text)
       (fun _ => Raise (OSError "")) (fun _ => Ok []) (fun _ => Ok [])
       ["parameter_parser.py"; "--max_epochs"; "3"; "--max_epochs"; "5"] =
       ParameterParser.Uncaught (ParameterParser.duplicate_error dups)) /\
  ParameterParser.exit_status
    (ParameterParser.script_entry (FT := DecimalText.decimal_text)
       (fun _ => Raise (OSError "")) (fun _ => Ok []) (fun _ => Ok [])
       ["parameter_parser.py"; "--max_epochs"; "3"; "--max_epochs"; "5"])
    <> 0%Z.
Proof.
  apply (duplicate_key_raises (FT := DecimalText.decimal_text)
           (fun _ => Raise (OSError "")) (fun _ => Ok []) (fun _ => Ok [])
           ["--max_epochs"; "3"; "--max_epochs"; "5"] "--max_epochs"
           "parameter_parser.py").
  - reflexivity.
  - vm_compute. lia.
Defined.

(* ===================================================================== *)
(** * Facts about the string operations *)
(* ===================================================================== *)

Section StringFacts.

Import Spec.

Lemma split_on_nonempty sep s : split_on sep s <> [].
Proof.
  destruct s as [|c r]; simpl; [discriminate|].
  destruct (Ascii.eqb c sep); [discriminate|].
  destruct (split_on sep r); discriminate.
Qed.

Lemma join_cons sep x y l :
  join sep (x :: y :: l) = x +:+ sep +:+ join sep (y :: l).
Proof. reflexivity. Qed.

Lemma join_cons_char sep x y l :
  join (String sep EmptyString) (x :: y :: l) =
  x +:+ String sep (join (String sep EmptyString) (y :: l)).
Proof. reflexivity. Qed.

(** [sep.join(s.split(sep)) == s]. *)
Lemma join_split_on sep s :
  join (String sep EmptyString) (split_on sep s) = s.
Proof.
  induction s as [|c r IH]; [reflexivity|].
  simpl. destruct (Ascii.eqb c sep) eqn:E.
  - apply Ascii.eqb_eq in E. subst c.
    destruct (split_on sep r) as [|h t] eqn:Hs.
    + now apply split_on_nonempty in Hs.
    + rewrite join_cons, IH. reflexivity.
  - destruct (split_on sep r) as [|h t] eqn:Hs.
    + now apply split_on_nonempty in Hs.
    + destruct t as [|y t].
      * simpl in *. now rewrite IH.
      * rewrite join_cons in IH. rewrite join_cons.
        change (String c h +:+ String sep EmptyString +:+ join (String sep EmptyString) (y :: t))
          with (String c (h +:+ String sep EmptyString +:+ join (String sep EmptyString) (y :: t))).
        now rewrite IH.
Qed.

Lemma split_on_no_sep sep x :
  has_char sep x = false -> split_on sep x = [x].
Proof.
  induction x as [|c r IH]; [reflexivity|].
  simpl. intros H. apply orb_false_iff in H as [Hc Hr].
  rewrite Hc, (IH Hr). reflexivity.
Qed.

Lemma split_on_app sep x s :
  has_char sep x = false ->
  split_on sep (x +:+ String sep s) = x :: split_on sep s.
Proof.
  induction x as [|c r IH]; simpl.
  - intros _. now rewrite Ascii.eqb_refl.
  - intros H. apply orb_false_iff in H as [Hc Hr].
    rewrite Hc, (IH Hr). reflexivity.
Qed.

(** [sep.join(l).split(sep) == l] for a non-empty list of strings free of
    the separator. *)
Lemma split_on_join sep l :
  l <> [] ->
  Forall (fun x => has_char sep x = false) l ->
  split_on sep (join (String sep EmptyString) l) = l.
Proof.
  intros Hne Hall. induction Hall as [|x l Hx Hl IH]; [contradiction|].
  destruct l as [|y l].
  - simpl. now apply split_on_no_sep.
  - rewrite join_cons_char.
    rewrite split_on_app by exact Hx.
    rewrite IH by discriminate. reflexivity.
Qed.

Lemma split_on_parts sep s :
  Forall (fun x => has_char sep x = false) (split_on sep s).
Proof.
  induction s as [|c r IH]; simpl.
  - constructor; [reflexivity | constructor].
  - destruct (Ascii.eqb c sep) eqn:E.
    + constructor; [reflexivity | exact IH].
    + destruct (split_on sep r) as [|h t].
      * constructor; [simpl; now rewrite E | constructor].
      * inversion IH; subst. constructor; [|assumption].
        simpl. rewrite E. assumption.
Qed.

Lemma has_char_app c s t :
  has_char c (s +:+ t) = has_char c s || has_char c t.
Proof.
  induction s as [|a r IH]; simpl; [reflexivity|].
  rewrite IH. now rewrite orb_assoc.
Qed.

Lemma has_char_join c sep l :
  has_char c sep = false ->
  Forall (fun x => has_char c x = false) l ->
  has_char c (join sep l) = false.
Proof.
  intros Hsep Hall. induction Hall as [|x l Hx Hl IH]; [reflexivity|].
  destruct l as [|y l]; [exact Hx|].
  rewrite join_cons, !has_char_app, Hx, Hsep, IH. reflexivity.
Qed.

Lemma has_char_replace_char c d s :
  c <> d -> has_char c (replace_char c d s) = false.
Proof.
  intros Hne. induction s as [|a r IH]; [reflexivity|].
  simpl. rewrite IH, orb_false_r.
  destruct (Ascii.eqb a c) eqn:E; [|exact E].
  apply Ascii.eqb_neq. congruence.
Qed.

Lemma has_char_replaced c d s :
  has_char c s = true -> has_char d (replace_char c d s) = true.
Proof.
  induction s as [|a r IH]; [discriminate|].
  simpl. destruct (Ascii.eqb a c) eqn:E.
  - intros _. now rewrite Ascii.eqb_refl.
  - simpl. intros H. rewrite (IH H). apply orb_true_r.
Qed.

Lemma str_in_spec s l : str_in s l = true <-> In s l.
Proof.
  unfold str_in. rewrite existsb_exists. split.
  - intros (x & Hx & E). apply String.eqb_eq in E. now subst.
  - intros H. exists s. split; [exact H | apply String.eqb_refl].
Qed.

Lemma no_space_cons c r : no_space (String c r) -> is_space c = false /\ no_space r.
Proof.
  intros H. split.
  - apply H. simpl. now rewrite Ascii.eqb_refl.
  - intros a Ha. apply H. simpl. rewrite Ha. apply orb_true_r.
Qed.

Lemma lstrip_no_space s : no_space s -> lstrip s = s.
Proof.
  destruct s as [|c r]; [reflexivity|].
  intros H. apply no_space_cons in H as [Hc _]. simpl. now rewrite Hc.
Qed.

Lemma rstrip_no_space s : no_space s -> rstrip s = s.
Proof.
  induction s as [|c r IH]; [reflexivity|].
  intros H. apply no_space_cons in H as [Hc Hr].
  simpl. rewrite (IH Hr), Hc. now destruct r.
Qed.

Lemma strip_no_space s : no_space s -> strip s = s.
Proof.
  intros H. unfold strip. rewrite (lstrip_no_space _ H).
  now apply rstrip_no_space.
Qed.

End StringFacts.

(* ===================================================================== *)
(** * Integers as text *)
(* ===================================================================== *)

Section IntTextFacts.

Import Spec.

Lemma is_digit_not_space c : is_digit c = true -> is_space c = false.
Proof.
  unfold is_digit, is_space. intros H.
  apply andb_true_iff in H as [H1 H2].
  apply Nat.leb_le in H1. apply Nat.leb_le in H2.
  apply orb_false_iff. split; apply andb_false_iff.
  - right. apply Nat.leb_gt. lia.
  - right. apply Nat.leb_gt. lia.
Qed.

Lemma all_digits_char s c :
  all_digits s = true -> has_char c s = true -> is_digit c = true.
Proof.
  induction s as [|a r IH]; [discriminate|].
  simpl. intros Hd Hc. apply andb_true_iff in Hd as [Ha Hr].
  apply orb_true_iff in Hc as [Hc|Hc].
  - apply Ascii.eqb_eq in Hc. now subst.
  - now apply IH.
Qed.

Lemma all_digits_string_of_uint d :
  all_digits (NilEmpty.string_of_uint d) = true.
Proof. induction d; simpl; auto. Qed.

Lemma literal_digits_all_digits s :
  all_digits s = true -> literal_digits true s = Some s.
Proof.
  induction s as [|c r IH]; [reflexivity|].
  simpl. intros H. apply andb_true_iff in H as [Hc Hr].
  now rewrite Hc, (IH Hr).
Qed.

Lemma unsigned_literal_uint d :
  d <> Decimal.Nil ->
  unsigned_literal (NilZero.string_of_uint d) = Some (Z.of_uint d).
Proof.
  intros Hd. unfold unsigned_literal.
  assert (Hs : NilZero.string_of_uint d = NilEmpty.string_of_uint d)
    by (destruct d; [contradiction | reflexivity ..]).
  assert (Hl : literal_digits false (NilZero.string_of_uint d) =
               Some (NilZero.string_of_uint d)).
  { rewrite Hs. pose proof (all_digits_string_of_uint d) as Ha.
    destruct (NilEmpty.string_of_uint d) as [|c r] eqn:E.
    - destruct d; discriminate.
    - simpl in *. apply andb_true_iff in Ha as [Hc Hr].
      now rewrite Hc, (literal_digits_all_digits _ Hr). }
  rewrite Hl. now rewrite NilZero.usu.
Qed.

(** The characters of the text of an integer. *)
Lemma string_of_uint_pos p :
  NilZero.string_of_uint (Pos.to_uint p) =
  NilEmpty.string_of_uint (Pos.to_uint p).
Proof.
  pose proof (DecimalPos.Unsigned.to_uint_nonnil p).
  destruct (Pos.to_uint p); [contradiction | reflexivity ..].
Qed.

Lemma str_int_chars z c :
  has_char c (str_int z) = true -> is_digit c = true \/ c = "-"%char.
Proof.
  unfold str_int. destruct z as [|p|p];
    cbn [Z.to_int NilZero.string_of_int].
  - change (NilZero.string_of_uint Decimal.zero) with "0".
    cbn [has_char]. rewrite orb_false_r. intros H.
    apply Ascii.eqb_eq in H. subst. now left.
  - rewrite string_of_uint_pos. intros H. left.
    eapply all_digits_char; [apply all_digits_string_of_uint | exact H].
  - rewrite string_of_uint_pos. cbn [has_char]. intros H.
    apply orb_true_iff in H as [H|H].
    + apply Ascii.eqb_eq in H. now right.
    + left. eapply all_digits_char; [apply all_digits_string_of_uint | exact H].
Qed.

Lemma str_int_no_char z c :
  is_digit c = false -> c <> "-"%char -> has_char c (str_int z) = false.
Proof.
  intros Hd Hm. destruct (has_char c (str_int z)) eqn:E; [|reflexivity].
  apply str_int_chars in E as [E|E]; congruence.
Qed.

Lemma str_int_no_space z : no_space (str_int z).
Proof.
  intros c Hc. apply str_int_chars in Hc as [Hc| ->].
  - now apply is_digit_not_space.
  - reflexivity.
Qed.

(** [int(str(z)) == z]. *)
Lemma py_int_str_int z : py_int (str_int z) = Some z.
Proof.
  unfold py_int. rewrite (strip_no_space _ (str_int_no_space z)).
  unfold str_int. destruct z as [|p|p]; [reflexivity| |].
  - simpl Z.to_int. cbn [NilZero.string_of_int].
    pose proof (DecimalPos.Unsigned.to_uint_nonnil p) as Hn.
    pose proof (unsigned_literal_uint _ Hn) as Hu.
    assert (Hz : Z.of_uint (Pos.to_uint p) = Z.pos p).
    { unfold Z.of_uint. now rewrite DecimalPos.Unsigned.of_to. }
    rewrite Hz in Hu.
    pose proof (all_digits_string_of_uint (Pos.to_uint p)) as Ha.
    assert (Hs : NilZero.string_of_uint (Pos.to_uint p) =
                 NilEmpty.string_of_uint (Pos.to_uint p))
      by (destruct (Pos.to_uint p); [contradiction | reflexivity ..]).
    rewrite Hs in *.
    destruct (NilEmpty.string_of_uint (Pos.to_uint p)) as [|c r] eqn:E.
    + exact Hu.
    + simpl in Ha. apply andb_true_iff in Ha as [Hc _].
      destruct (Ascii.eqb_spec c "-") as [->|Hm]; [discriminate|].
      destruct (Ascii.eqb_spec c "+") as [->|Hp]; [discriminate|].
      destruct c as [[] [] [] [] [] [] [] []]; try exact Hu; congruence.
  - simpl Z.to_int. cbn [NilZero.string_of_int].
    pose proof (DecimalPos.Unsigned.to_uint_nonnil p) as Hn.
    rewrite (unsigned_literal_uint _ Hn). simpl.
    unfold Z.of_uint. now rewrite DecimalPos.Unsigned.of_to.
Qed.

End IntTextFacts.

(* ===================================================================== *)
(** * postprocess_args *)
(* ===================================================================== *)

Lemma bind_Ok {A B} (r : result A) (f : A -> result B) (b : B) :
  bind r f = Ok b -> exists a, r = Ok a /\ f a = Ok b.
Proof. destruct r as [a|e]; simpl; [eauto | discriminate]. Qed.

Lemma for_each_app {A S} (body : A -> S -> result S) l1 l2 s :
  for_each body (l1 ++ l2) s =
  bind (for_each body l1 s) (for_each body l2).
Proof.
  revert s. induction l1 as [|x l1 IH]; intros s; [reflexivity|].
  simpl. destruct (body x s); [apply IH | reflexivity].
Qed.

Section PostprocessFacts.

Import ParameterParser Spec.

Context {FT : FloatText}.
Variable load_json : string -> result pyval.

(** ** Namespaces that agree outside a set of keys *)

Lemma agree_refl K a : agree K a a.
Proof. intros j _. reflexivity. Qed.

Lemma agree_set K a b j v :
  agree K a b -> agree K (dict_set j v a) (dict_set j v b).
Proof.
  intros H i Hi. rewrite !dict_get_set.
  destruct (String.eqb j i); [reflexivity | now apply H].
Qed.

Lemma agree_weaken k a b :
  agree [k] a b -> dict_get k a = dict_get k b -> agree [] a b.
Proof.
  intros H Hk j _. destruct (String.eqb_spec j k) as [->|Hne]; [exact Hk|].
  apply H. simpl. intros [E|[]]. congruence.
Qed.

Lemma agree_getattr K a b j :
  agree K a b -> ~ In j K -> getattr b j = getattr a j.
Proof. intros H Hj. unfold getattr. now rewrite (H j Hj). Qed.

Lemma agree_getitem K a b j :
  agree K a b -> ~ In j K -> getitem b j = getitem a j.
Proof. intros H Hj. unfold getitem. now rewrite (H j Hj). Qed.

(** ** The first loop *)

Lemma clean_entries_get d ns :
  map_result clean_entry d = Ok ns ->
  forall k, dict_get k ns =
            match dict_get k d with
            | Some v =>
                match clean_value v with
                | Ok v' => Some v'
                | Raise _ => None
                end
            | None => None
            end.
Proof.
  revert ns. induction d as [|[k0 v0] r IH]; intros ns H k.
  - injection H as <-. reflexivity.
  - simpl in H. unfold clean_entry at 1 in H. simpl in H.
    destruct (clean_value v0) as [v0'|] eqn:Hc; [|discriminate]. simpl in H.
    destruct (map_result clean_entry r) as [ns'|] eqn:Hr; [|discriminate].
    injection H as <-. simpl.
    destruct (String.eqb k0 k); [now rewrite Hc | now apply IH].
Qed.

Lemma clean_entries_set d ns k v v' :
  map_result clean_entry d = Ok ns ->
  clean_value v = Ok v' ->
  map_result clean_entry (dict_set k v d) = Ok (dict_set k v' ns).
Proof.
  revert ns. induction d as [|[k0 v0] r IH]; intros ns H Hv.
  - injection H as <-. simpl. unfold clean_entry. simpl. now rewrite Hv.
  - simpl in H. unfold clean_entry at 1 in H. simpl in H.
    destruct (clean_value v0) as [v0'|] eqn:Hc; [|discriminate]. simpl in H.
    destruct (map_result clean_entry r) as [ns'|] eqn:Hr; [|discriminate].
    injection H as <-. simpl.
    destruct (String.eqb k0 k).
    + simpl. unfold clean_entry at 1. simpl. rewrite Hv. simpl.
      now rewrite Hr.
    + simpl. unfold clean_entry at 1. simpl. rewrite Hc. simpl.
      now rewrite (IH ns' eq_refl Hv).
Qed.

(** What the first loop leaves under a key is never a string with ["@"],
    and never a null word. *)
Lemma clean_value_str v s :
  clean_value v = Ok (VStr s) ->
  has_char "@" s = false /\ str_in s null_options = false.
Proof.
  unfold clean_value. destruct (at_in_str v) eqn:Hat.
  - destruct v; try discriminate. intros [= <-]. simpl in Hat. split.
    + apply has_char_replace_char. discriminate.
    + destruct (str_in _ null_options) eqn:E; [|reflexivity].
      apply str_in_spec in E.
      pose proof (has_char_replaced "@" " " s0 Hat) as Hsp.
      simpl in E.
      repeat (destruct E as [E|E]; [rewrite <- E in Hsp; discriminate|]).
      destruct E.
  - destruct (in_null_options v) eqn:Hn; [discriminate|].
    intros [= ->]. simpl in *. now split.
Qed.

Lemma clean_value_fixed s :
  has_char "@" s = false -> str_in s null_options = false ->
  clean_value (VStr s) = Ok (VStr s).
Proof.
  intros Ha Hn. unfold clean_value. cbn [at_in_str in_null_options].
  now rewrite Ha, Hn.
Qed.

(** ** The steps before the conversion of lists *)

Lemma load_model_filter_agree K a b a' :
  agree K a b -> ~ In "model_filter" K ->
  load_model_filter load_json a = Ok a' ->
  exists b', load_model_filter load_json b = Ok b' /\ agree K a' b'.
Proof.
  intros Hag Hk H. unfold load_model_filter in *.
  rewrite (agree_getattr _ _ _ _ Hag Hk).
  destruct (getattr a "model_filter") as [mf|]; simpl in *; [|discriminate].
  destruct (is_None mf).
  { injection H as <-. eauto. }
  destruct mf; try discriminate.
  destruct (load_json s) as [config|]; simpl in *; [|discriminate].
  destruct config; try discriminate.
  injection H as <-. eexists; split; [reflexivity|].
  now apply agree_set.
Qed.

Lemma load_model_filter_frame a a' j :
  load_model_filter load_json a = Ok a' -> j <> "model_filter" ->
  dict_get j a' = dict_get j a.
Proof.
  intros H Hj. unfold load_model_filter in H.
  destruct (getattr a "model_filter") as [mf|]; simpl in *; [|discriminate].
  destruct (is_None mf).
  { now injection H as <-. }
  destruct mf; try discriminate.
  destruct (load_json s) as [config|]; simpl in *; [|discriminate].
  destruct config; try discriminate.
  injection H as <-. apply dict_get_set_ne. congruence.
Qed.

Lemma check_split_fractions_agree K a b :
  agree K a b ->
  ~ In "split_strategy" K -> ~ In "split_valid_frac" K ->
  ~ In "split_test_frac" K ->
  check_split_fractions b = check_split_fractions a.
Proof.
  intros Hag H1 H2 H3. unfold check_split_fractions.
  now rewrite !(agree_getattr _ _ _ _ Hag) by assumption.
Qed.

Lemma default_score_type_agree K a b a' :
  agree K a b ->
  ~ In "model_choice_score_type" K -> ~ In "prediction_type" K ->
  default_score_type a = Ok a' ->
  exists b', default_score_type b = Ok b' /\ agree K a' b'.
Proof.
  intros Hag H1 H2 H. unfold default_score_type in *.
  rewrite !(agree_getattr _ _ _ _ Hag) by assumption.
  destruct (getattr a "model_choice_score_type") as [st|]; simpl in *;
    [|discriminate].
  destruct (is_None st).
  - destruct (getattr a "prediction_type") as [pt|]; simpl in *;
      [|discriminate].
    destruct (py_eq pt (VStr "classification"));
      injection H as <-; (eexists; split; [reflexivity|]);
      now apply agree_set.
  - injection H as <-. eauto.
Qed.

Lemma default_score_type_frame a a' j :
  default_score_type a = Ok a' -> j <> "model_choice_score_type" ->
  dict_get j a' = dict_get j a.
Proof.
  intros H Hj. unfold default_score_type in H.
  destruct (getattr a "model_choice_score_type") as [st|]; simpl in *;
    [|discriminate].
  destruct (is_None st).
  - destruct (getattr a "prediction_type") as [pt|]; simpl in *;
      [|discriminate].
    destruct (py_eq pt (VStr "classification"));
      injection H as <-; apply dict_get_set_ne; congruence.
  - now injection H as <-.
Qed.

(** ** The loop over the numeric parameters *)

Lemma numeric_item_value i a a' :
  numeric_item i a = Ok a' ->
  exists v, dict_get i a = Some v /\
    ((is_None v = true /\ a' = a) \/
     (is_None v = false /\
      exists x, numeric_value i v = Ok x /\ a' = dict_set i x a)).
Proof.
  unfold numeric_item, getitem. intros H.
  destruct (dict_get i a) as [v|]; simpl in H; [|discriminate].
  exists v. split; [reflexivity|].
  destruct (is_None v).
  - left. now injection H as <-.
  - right. split; [reflexivity|].
    destruct (numeric_value i v) as [x|]; simpl in H; [|discriminate].
    injection H as <-. eauto.
Qed.

Lemma numeric_item_agree K i a b a' :
  agree K a b -> ~ In i K -> numeric_item i a = Ok a' ->
  exists b', numeric_item i b = Ok b' /\ agree K a' b'.
Proof.
  intros Hag Hi H. unfold numeric_item in *.
  rewrite (agree_getitem _ _ _ _ Hag Hi).
  destruct (getitem a i) as [v|]; simpl in *; [|discriminate].
  destruct (is_None v).
  - injection H as <-. eauto.
  - destruct (numeric_value i v) as [x|]; simpl in *; [|discriminate].
    injection H as <-. eexists; split; [reflexivity|]. now apply agree_set.
Qed.

Lemma numeric_item_frame i a a' j :
  numeric_item i a = Ok a' -> j <> i -> dict_get j a' = dict_get j a.
Proof.
  intros H Hj. apply numeric_item_value in H as (v & _ & [[_ ->]|[_ (x & _ & ->)]]).
  - reflexivity.
  - apply dict_get_set_ne. congruence.
Qed.

Lemma numeric_items_agree K L : forall a b a',
  agree K a b -> (forall i, In i L -> ~ In i K) ->
  for_each numeric_item L a = Ok a' ->
  exists b', for_each numeric_item L b = Ok b' /\ agree K a' b'.
Proof.
  induction L as [|i L IH]; intros a b a' Hag HL H.
  - injection H as <-. exists b. now split.
  - simpl in H. destruct (numeric_item i a) as [a1|] eqn:Ha; [|discriminate].
    destruct (numeric_item_agree K i a b a1 Hag (HL i (or_introl eq_refl)) Ha)
      as (b1 & Hb & Hag1).
    simpl. rewrite Hb. apply (IH a1 b1 a' Hag1); [|exact H].
    intros j Hj. apply HL. now right.
Qed.

Lemma numeric_items_frame L : forall a a' j,
  for_each numeric_item L a = Ok a' -> ~ In j L ->
  dict_get j a' = dict_get j a.
Proof.
  induction L as [|i L IH]; intros a a' j H Hj.
  - now injection H as <-.
  - simpl in H. destruct (numeric_item i a) as [a1|] eqn:Ha; [|discriminate].
    rewrite (IH a1 a' j H) by (intros Hin; apply Hj; now right).
    apply (numeric_item_frame i a a1 j Ha). intros ->. apply Hj. now left.
Qed.

(** The value left under a numeric key by the loop. *)
Lemma numeric_items_value L a a' k :
  List.NoDup L -> In k L -> for_each numeric_item L a = Ok a' ->
  exists v, dict_get k a = Some v /\
    ((is_None v = true /\ dict_get k a' = Some v) \/
     (is_None v = false /\
      exists x, numeric_value k v = Ok x /\ dict_get k a' = Some x)).
Proof.
  intros Hnd Hk H.
  apply in_split in Hk as (L1 & L2 & ->).
  apply NoDup_remove_2 in Hnd.
  assert (H1 : ~ In k L1) by (intros ?; apply Hnd, in_or_app; now left).
  assert (H2 : ~ In k L2) by (intros ?; apply Hnd, in_or_app; now right).
  rewrite for_each_app in H. apply bind_Ok in H as (a1 & Ha1 & H).
  simpl in H. destruct (numeric_item k a1) as [a2|] eqn:Ha2; [|discriminate].
  rewrite (numeric_items_frame L2 a2 a' k H H2).
  rewrite <- (numeric_items_frame L1 a a1 k Ha1 H1).
  apply numeric_item_value in Ha2 as (v & Hv & [[Hn ->]|[Hn (x & Hx & ->)]]).
  - exists v. split; [exact Hv|]. left. now split.
  - exists v. split; [exact Hv|]. right. split; [exact Hn|].
    exists x. split; [exact Hx|]. apply dict_get_set_eq.
Qed.

(** Replacing the text of one numeric parameter by another text with the
    same value does not change the outcome of the loop. *)
Lemma numeric_items_replaced L a b a' k vb x :
  List.NoDup L -> In k L -> agree [k] a b ->
  for_each numeric_item L a = Ok a' ->
  dict_get k b = Some vb -> is_None vb = false ->
  numeric_value k vb = Ok x -> dict_get k a' = Some x ->
  exists b', for_each numeric_item L b = Ok b' /\ agree [] a' b'.
Proof.
  intros Hnd Hk Hag H Hb Hn Hx Ha'.
  apply in_split in Hk as (L1 & L2 & ->).
  apply NoDup_remove_2 in Hnd.
  assert (H1 : ~ In k L1) by (intros ?; apply Hnd, in_or_app; now left).
  assert (H2 : ~ In k L2) by (intros ?; apply Hnd, in_or_app; now right).
  rewrite for_each_app in H. apply bind_Ok in H as (a1 & Ha1 & H).
  simpl in H. destruct (numeric_item k a1) as [a2|] eqn:Ha2; [|discriminate].
  destruct (numeric_items_agree [k] L1 a b a1 Hag) as (b1 & Hb1 & Hag1);
    [intros i Hi [->|[]]; contradiction | exact Ha1 |].
  assert (Hkb1 : dict_get k b1 = Some vb).
  { rewrite (numeric_items_frame L1 b b1 k Hb1 H1). exact Hb. }
  assert (Hb2 : numeric_item k b1 = Ok (dict_set k x b1)).
  { unfold numeric_item, getitem. rewrite Hkb1. simpl. rewrite Hn, Hx.
    reflexivity. }
  assert (Hag2 : agree [] a2 (dict_set k x b1)).
  { apply (agree_weaken k).
    - intros j Hj. assert (j <> k) by (intros ->; apply Hj; now left).
      rewrite (numeric_item_frame k a1 a2 j Ha2) by assumption.
      rewrite dict_get_set_ne by congruence. now apply Hag1.
    - rewrite dict_get_set_eq.
      rewrite <- (numeric_items_frame L2 a2 a' k H H2). exact Ha'. }
  destruct (numeric_items_agree [] L2 a2 (dict_set k x b1) a' Hag2)
    as (b' & Hb' & Hag');
    [intros i _ [] | exact H |].
  exists b'. split; [|exact Hag'].
  rewrite for_each_app, Hb1. simpl. rewrite Hb2. exact Hb'.
Qed.

(** ** The checks and the response columns *)

Lemma check_not_a_str_list_same i a a' :
  check_not_a_str_list i a = Ok a' -> a' = a.
Proof.
  unfold check_not_a_str_list. intros H.
  destruct (getitem a i) as [v|]; simpl in H; [|discriminate].
  destruct (is_None v); [now injection H|].
  destruct (py_contains "," v) as [[]|]; simpl in H; try discriminate.
  destruct (py_contains " " v) as [[]|]; simpl in H; try discriminate.
  now injection H.
Qed.

Lemma check_not_a_str_list_agree K i a b a' :
  agree K a b -> ~ In i K ->
  check_not_a_str_list i a = Ok a' -> check_not_a_str_list i b = Ok b.
Proof.
  unfold check_not_a_str_list. intros Hag Hi H.
  rewrite (agree_getitem _ _ _ _ Hag Hi).
  destruct (getitem a i) as [v|]; simpl in *; [|discriminate].
  destruct (is_None v); [reflexivity|].
  destruct (py_contains "," v) as [[]|]; simpl in *; try discriminate.
  destruct (py_contains " " v) as [[]|]; simpl in *; try discriminate.
  reflexivity.
Qed.

Lemma checks_not_a_str_list_same L : forall a a',
  for_each check_not_a_str_list L a = Ok a' -> a' = a.
Proof.
  induction L as [|i L IH]; intros a a' H.
  - now injection H.
  - simpl in H.
    destruct (check_not_a_str_list i a) as [a1|] eqn:Ha; [|discriminate].
    apply check_not_a_str_list_same in Ha. subst a1. now apply IH.
Qed.

Lemma checks_not_a_str_list_agree K L : forall a b a',
  agree K a b -> (forall i, In i L -> ~ In i K) ->
  for_each check_not_a_str_list L a = Ok a' ->
  for_each check_not_a_str_list L b = Ok b.
Proof.
  induction L as [|i L IH]; intros a b a' Hag HL H.
  - reflexivity.
  - simpl in H.
    destruct (check_not_a_str_list i a) as [a1|] eqn:Ha; [|discriminate].
    simpl.
    rewrite (check_not_a_str_list_agree K i a b a1 Hag
               (HL i (or_introl eq_refl)) Ha).
    apply check_not_a_str_list_same in Ha. subst a1.
    apply (IH a b a' Hag); [|exact H].
    intros j Hj. apply HL. now right.
Qed.

Lemma split_response_cols_agree K a b a' :
  agree K a b -> ~ In "response_cols" K ->
  split_response_cols a = Ok a' ->
  exists b', split_response_cols b = Ok b' /\ agree K a' b'.
Proof.
  unfold split_response_cols. intros Hag Hk H.
  rewrite (agree_getitem _ _ _ _ Hag Hk).
  destruct (getitem a "response_cols") as [v|]; simpl in *; [|discriminate].
  destruct (is_None v).
  - injection H as <-. eauto.
  - destruct (py_split v ",") as [cv|]; simpl in *; [|discriminate].
    injection H as <-. eexists; split; [reflexivity|]. now apply agree_set.
Qed.

Lemma split_response_cols_frame a a' j :
  split_response_cols a = Ok a' -> j <> "response_cols" ->
  dict_get j a' = dict_get j a.
Proof.
  unfold split_response_cols. intros H Hj.
  destruct (getitem a "response_cols") as [v|]; simpl in *; [|discriminate].
  destruct (is_None v).
  - now injection H as <-.
  - destruct (py_split v ",") as [cv|]; simpl in *; [|discriminate].
    injection H as <-. apply dict_get_set_ne. congruence.
Qed.

Lemma split_response_cols_value a a' l :
  split_response_cols a = Ok a' ->
  dict_get "response_cols" a' = Some (VList l) ->
  (exists s, dict_get "response_cols" a = Some (VStr s) /\
             l = map VStr (split_on "," s)) \/
  (a' = a /\ dict_get "response_cols" a = Some VNone).
Proof.
  unfold split_response_cols, getitem. intros H Hl.
  destruct (dict_get "response_cols" a) as [v|] eqn:Hv; simpl in *;
    [|discriminate].
  destruct (is_None v) eqn:Hn.
  - right. injection H as <-. destruct v; try discriminate. now split.
  - destruct v; try discriminate. simpl in H. injection H as <-.
    rewrite dict_get_set_eq in Hl. injection Hl as <-.
    left. eauto.
Qed.

Lemma length_differs_agree K a b name n :
  agree K a b -> ~ In name K ->
  length_differs b name n = length_differs a name n.
Proof.
  intros Hag Hk. unfold length_differs.
  now rewrite (agree_getattr _ _ _ _ Hag Hk).
Qed.

Lemma check_layer_lengths_agree a b :
  agree [] a b -> check_layer_lengths b = check_layer_lengths a.
Proof.
  intros Hag. unfold check_layer_lengths.
  rewrite (agree_getattr _ _ _ _ Hag) by (intros []).
  destruct (getattr a "layer_sizes") as [ls|]; simpl; [|reflexivity].
  destruct (is_None ls); [reflexivity|].
  destruct (py_len ls) as [n|]; simpl; [|reflexivity].
  rewrite (length_differs_agree [] a b) by (assumption || intros []).
  destruct (length_differs a "dropouts" n) as [[]|]; simpl; try reflexivity.
  rewrite (length_differs_agree [] a b) by (assumption || intros []).
  destruct (length_differs a "weight_init_stddevs" n) as [[]|]; simpl;
    try reflexivity.
  now rewrite (length_differs_agree [] a b) by (assumption || intros []).
Qed.

(** ** Lists of numbers as text *)

Lemma map_result_length {A B} (f : A -> result B) l l' :
  map_result f l = Ok l' -> length l' = length l.
Proof.
  revert l'. induction l as [|x l IH]; intros l' H.
  - now injection H as <-.
  - simpl in H. destruct (f x); [|discriminate].
    destruct (map_result f l); [|discriminate].
    injection H as <-. simpl. f_equal. now apply IH.
Qed.

Lemma map_result_Forall {A B} (f : A -> result B) (P : B -> Prop) l l' :
  (forall x y, f x = Ok y -> P y) ->
  map_result f l = Ok l' -> Forall P l'.
Proof.
  intros HP. revert l'. induction l as [|x l IH]; intros l' H.
  - injection H as <-. constructor.
  - simpl in H. destruct (f x) eqn:Hx; [|discriminate].
    destruct (map_result f l); [|discriminate].
    injection H as <-. constructor; [now apply (HP x) | now apply IH].
Qed.

Lemma to_number_shape item s x :
  to_number item s = Ok x ->
  (exists z, x = VInt z /\ str_in item convert_to_int_list = true) \/
  (exists q, x = VFloat q /\ str_in item convert_to_int_list = false).
Proof.
  unfold to_number, to_int, to_float.
  destruct (str_in item convert_to_int_list).
  - destruct (py_int (strip s)); [|discriminate]. intros [= <-]. left. eauto.
  - destruct (float_of_string (strip s)); [|discriminate].
    intros [= <-]. right. eauto.
Qed.

(** The texts of faithful elements read back as the elements. *)
Lemma map_result_faithful item l :
  Forall (faithful item) l ->
  map_result (to_number item) (map py_str l) = Ok l.
Proof.
  induction 1 as [|x l [Hx _] Hl IH]; [reflexivity|].
  simpl. now rewrite Hx, IH.
Qed.

Lemma int_faithful item z :
  str_in item convert_to_int_list = true -> faithful item (VInt z).
Proof.
  intros Hi. unfold faithful, to_number, to_int. rewrite Hi.
  change (py_str (VInt z)) with (str_int z).
  rewrite (strip_no_space _ (str_int_no_space z)), py_int_str_int.
  repeat split; apply str_int_no_char; (reflexivity || discriminate).
Qed.

Lemma null_option_letter s :
  str_in s null_options = true ->
  has_char "n" s = true \/ has_char "N" s = true.
Proof.
  intros H. apply str_in_spec in H. simpl in H.
  repeat (destruct H as [<-|H]; [(now left) || (now right)|]).
  destruct H.
Qed.

(** The joined text of a list of integers is not a null word. *)
Lemma int_text_not_null (zs : list Z) :
  str_in (join "," (map str_int zs)) null_options = false.
Proof.
  destruct (str_in _ null_options) eqn:E; [|reflexivity].
  apply null_option_letter in E.
  assert (H : forall c, is_digit c = false -> c <> "-"%char ->
                        has_char c "," = false ->
                        has_char c (join "," (map str_int zs)) = false).
  { intros c Hd Hm Hc. apply has_char_join; [exact Hc|].
    apply List.Forall_forall. intros x Hx. apply in_map_iff in Hx as (z & <- & _).
    now apply str_int_no_char. }
  destruct E as [E|E]; rewrite H in E; (discriminate || reflexivity).
Qed.

(** A list stored by the conversion is the list of the converted pieces,
    and any text with the same pieces is stored as the same list. *)
Lemma numeric_value_list item v l :
  numeric_value item v = Ok (VList l) ->
  (exists s, v = VStr s /\
             map_result (to_number item) (split_on "," s) = Ok l) /\
  (forall s', map_result (to_number item) (split_on "," s') = Ok l ->
              numeric_value item (VStr s') = Ok (VList l)).
Proof.
  unfold numeric_value. intros H.
  destruct v; try discriminate. simpl in H.
  destruct (map_result (to_number item) (split_on "," s)) as [nl|] eqn:Hnl;
    simpl in H; [|discriminate].
  assert (Hnum : Forall (fun x => forall l0, x <> VList l0) nl).
  { eapply map_result_Forall; [|exact Hnl].
    intros x y Hy l0 ->.
    apply to_number_shape in Hy as [(z & Hz & _)|(q & Hq & _)]; discriminate. }
  assert (Heq : nl = l).
  { revert H. destruct nl as [|x [|y nl']].
    - destruct (str_in item not_a_list_outside_of_hyperparams); simpl;
        [discriminate | now intros [= <-]].
    - inversion Hnum as [|? ? Hx _]; subst.
      destruct (negb (str_in item keep_as_list)).
      + destruct (str_in item not_a_list_outside_of_hyperparams);
          destruct x; simpl; try discriminate; intros [= E];
          try discriminate; now destruct (Hx l0).
      + destruct (str_in item not_a_list_outside_of_hyperparams); simpl;
          [discriminate | now intros [= <-]].
    - destruct (str_in item not_a_list_outside_of_hyperparams); simpl;
        [discriminate | now intros [= <-]]. }
  subst nl. split; [eauto|].
  intros s' Hs'. simpl. rewrite Hs'. simpl. exact H.
Qed.

(** [value_text] of a list is the comma-joined text of its elements. *)
Lemma value_text_list l :
  value_text false (VList l) = join "," (map py_str l).
Proof. reflexivity. Qed.

End PostprocessFacts.

(* ===================================================================== *)
(** * Round trip of the list-valued parameters *)
(* ===================================================================== *)

Section RoundTrip.

Import ParameterParser Spec.

Context {FT : FloatText}.
Variable load_json : string -> result pyval.

Lemma numeric_keys_nodup : List.NoDup convert_to_numeric_list.
Proof.
  unfold convert_to_numeric_list, convert_to_float_list, convert_to_int_list.
  simpl. repeat (constructor; [simpl; intuition discriminate|]). constructor.
Qed.

(** The stages of a successful run outside hyperparameter mode. *)
Lemma postprocess_normal_inv parsed_args ns :
  postprocess_args load_json parsed_args = Ok ns ->
  dict_get "hyperparam" parsed_args = Some (VBool false) ->
  exists ns1 ns2 ns3 ns4,
    map_result clean_entry parsed_args = Ok ns1 /\
    load_model_filter load_json ns1 = Ok ns2 /\
    check_split_fractions ns2 = Ok tt /\
    default_score_type ns2 = Ok ns3 /\
    dict_get "hyperparam" ns3 = Some (VBool false) /\
    for_each numeric_item convert_to_numeric_list ns3 = Ok ns4 /\
    for_each check_not_a_str_list not_a_str_list_outside_of_hyperparams ns4
      = Ok ns4 /\
    split_response_cols ns4 = Ok ns /\
    check_layer_lengths ns = Ok tt.
Proof.
  intros H Hh. unfold postprocess_args in H.
  apply bind_Ok in H as (ns1 & H1 & H).
  apply bind_Ok in H as (ns2 & H2 & H).
  apply bind_Ok in H as ([] & H3 & H).
  apply bind_Ok in H as (ns3 & H4 & H).
  assert (Hh3 : dict_get "hyperparam" ns3 = Some (VBool false)).
  { rewrite (default_score_type_frame _ _ _ H4) by discriminate.
    rewrite (load_model_filter_frame load_json _ _ _ H2) by discriminate.
    rewrite (clean_entries_get _ _ H1), Hh. reflexivity. }
  unfold convert_lists, getattr in H. rewrite Hh3 in H.
  cbn [bind py_truthy] in H.
  apply bind_Ok in H as (ns4 & H5 & H).
  apply bind_Ok in H as (ns5 & H6 & H).
  pose proof (checks_not_a_str_list_same _ _ _ H6). subst ns5.
  apply bind_Ok in H as (ns6 & H7 & H).
  apply bind_Ok in H as ([] & H8 & H).
  injection H as <-.
  exists ns1, ns2, ns3, ns4. repeat split; assumption.
Qed.

Lemma postprocess_normal_intro parsed_args ns1 ns2 ns3 ns4 ns :
  map_result clean_entry parsed_args = Ok ns1 ->
  load_model_filter load_json ns1 = Ok ns2 ->
  check_split_fractions ns2 = Ok tt ->
  default_score_type ns2 = Ok ns3 ->
  dict_get "hyperparam" ns3 = Some (VBool false) ->
  for_each numeric_item convert_to_numeric_list ns3 = Ok ns4 ->
  for_each check_not_a_str_list not_a_str_list_outside_of_hyperparams ns4
    = Ok ns4 ->
  split_response_cols ns4 = Ok ns ->
  check_layer_lengths ns = Ok tt ->
  postprocess_args load_json parsed_args = Ok ns.
Proof.
  intros H1 H2 H3 H4 Hh H5 H6 H7 H8.
  unfold postprocess_args. rewrite H1. cbn [bind]. rewrite H2. cbn [bind].
  rewrite H3. cbn [bind]. rewrite H4. cbn [bind].
  unfold convert_lists, getattr. rewrite Hh. cbn [bind py_truthy].
  rewrite H5. cbn [bind]. rewrite H6. cbn [bind]. rewrite H7. cbn [bind].
  rewrite H8. reflexivity.
Qed.

Lemma agree_sym K a b : agree K a b -> agree K b a.
Proof. intros H j Hj. symmetry. now apply H. Qed.

Lemma map_py_str_VStr l : map py_str (map VStr l) = l.
Proof. induction l as [|x l IH]; [reflexivity|]. simpl. now rewrite IH. Qed.

Lemma list_text_no_at item l :
  Forall (faithful item) l -> has_char "@" (join "," (map py_str l)) = false.
Proof.
  intros H. apply has_char_join; [reflexivity|].
  apply Forall_map. eapply Forall_impl; [exact H|].
  intros x (_ & _ & Hx). exact Hx.
Qed.

Lemma list_text_split item l :
  l <> [] -> Forall (faithful item) l ->
  split_on "," (join "," (map py_str l)) = map py_str l.
Proof.
  intros Hne H. apply split_on_join.
  - destruct l; [contradiction | discriminate].
  - apply Forall_map. eapply Forall_impl; [exact H|].
    intros x (_ & Hx & _). exact Hx.
Qed.

Lemma int_list_text_not_null l :
  Forall (fun x => exists z, x = VInt z) l ->
  str_in (join "," (map py_str l)) null_options = false.
Proof.
  intros H.
  assert (E : map py_str l = map str_int (map (fun x =>
                match x with VInt z => z | _ => 0%Z end) l)).
  { induction H as [|x l (z & ->) Hl IH]; [reflexivity|].
    simpl. now rewrite IH. }
  rewrite E. apply int_text_not_null.
Qed.

Lemma agree_set_same (a : pydict) k v :
  dict_get k a = Some v -> agree [] a (dict_set k v a).
Proof.
  intros H j _. rewrite dict_get_set.
  destruct (String.eqb_spec k j) as [<-|_]; [exact H | reflexivity].
Qed.

Lemma agree_set_other (a : pydict) k v : agree [k] a (dict_set k v a).
Proof.
  intros j Hj. rewrite dict_get_set_ne; [reflexivity|].
  intros ->. apply Hj. now left.
Qed.

(** A key of a list-valued parameter is none of the keys read by the
    steps before the conversion. *)
Ltac other_key Hk :=
  let E := fresh in
  intros E; try (destruct E as [E|[]]); subst;
  simpl in Hk; repeat (destruct Hk as [Hk|Hk]; [discriminate|]);
  try destruct Hk.

Lemma numeric_key_split k :
  In k convert_to_numeric_list ->
  (str_in k convert_to_int_list = true /\ ~ In k convert_to_float_list) \/
  (str_in k convert_to_int_list = false /\ In k convert_to_float_list).
Proof.
  intros Hk. simpl in Hk.
  repeat (destruct Hk as [<-|Hk];
          [first [ left; split; [reflexivity | simpl; intuition discriminate]
                 | right; split; [reflexivity | simpl; tauto] ] |]).
  destruct Hk.
Qed.

(** The elements of a stored list are faithful to their text: always for
    integers, under [float_text_ok] for floats. *)
Lemma stored_list_faithful k s l :
  In k convert_to_numeric_list ->
  map_result (to_number k) (split_on "," s) = Ok l ->
  (In k convert_to_float_list -> float_text_ok l) ->
  l <> [] /\ Forall (faithful k) l /\
  str_in (join "," (map py_str l)) null_options = false.
Proof.
  intros Hk Hl Hf.
  assert (Hne : l <> []).
  { intros ->. apply map_result_length in Hl.
    pose proof (split_on_nonempty "," s).
    destruct (split_on "," s); [contradiction | discriminate]. }
  assert (Hshape : Forall (fun x =>
            (exists z, x = VInt z /\ str_in k convert_to_int_list = true) \/
            (exists q, x = VFloat q /\ str_in k convert_to_int_list = false)) l).
  { eapply map_result_Forall; [|exact Hl].
    intros x y Hy. now apply to_number_shape in Hy. }
  split; [exact Hne|].
  destruct (numeric_key_split k Hk) as [[Hi _]|[Hi Hfl]].
  - assert (Hz : Forall (fun x => exists z, x = VInt z) l).
    { eapply Forall_impl; [exact Hshape|].
      intros x [(z & -> & _)|(q & _ & E)]; [eauto | congruence]. }
    split; [|now apply int_list_text_not_null].
    eapply Forall_impl; [exact Hz|].
    intros x (z & ->). now apply int_faithful.
  - destruct (Hf Hfl) as [Hall Hnull]. split; [|exact Hnull].
    apply List.Forall_forall. intros x Hx.
    pose proof (proj1 (List.Forall_forall _ _) Hshape x Hx) as Hs.
    pose proof (proj1 (List.Forall_forall _ _) Hall x Hx) as Ha.
    destruct Hs as [(z & _ & E)|(q & -> & _)]; [congruence|].
    destruct Ha as (Hr & Hc & Hat).
    unfold faithful, to_number, to_float. rewrite Hi. simpl py_str.
    rewrite Hr. now repeat split.
Qed.

(** C5: for a flat configuration that [postprocess_args] accepts outside
    hyperparameter mode, take any parameter that it turned into a list (a
    numeric parameter of the type table, or [response_cols]).  Writing that
    list back as [dict_to_list] does, the elements joined with commas, and
    normalising the configuration with this text in place of the original
    one is accepted again and yields the same configuration, in particular
    the same ordered list under that key.  For a list of floats this rests
    on the text conversion of the runtime, stated as [float_text_ok]. *)
Theorem list_fields_round_trip (parsed_args ns : pydict) (k : string)
  (l : list pyval) :
  postprocess_args load_json parsed_args = Ok ns ->
  dict_get "hyperparam" parsed_args = Some (VBool false) ->
  In k (convert_to_numeric_list ++ ["response_cols"]) ->
  dict_get k ns = Some (VList l) ->
  (In k convert_to_float_list -> float_text_ok l) ->
  dict_to_list (VDict [(k, VList l)]) false =
    Ok ["--" +:+ k; join "," (map py_str l)] /\
  exists ns',
    postprocess_args load_json
      (dict_set k (VStr (join "," (map py_str l))) parsed_args) = Ok ns' /\
    dict_get k ns' = Some (VList l) /\
    forall j, dict_get j ns' = dict_get j ns.
Proof.
  intros H Hh Hk Hl Hf.
  split.
  { clear - Hk. simpl in Hk.
    repeat (destruct Hk as [<-|Hk]; [reflexivity|]). destruct Hk. }
  set (s' := join "," (map py_str l)).
  destruct (postprocess_normal_inv _ _ H Hh)
    as (ns1 & ns2 & ns3 & ns4 & H1 & H2 & H3 & H4 & Hh3 & H5 & H6 & H7 & H8).
  (* the values under [k] along the stages *)
  assert (Hk3 : dict_get k ns3 = dict_get k ns1).
  { rewrite (default_score_type_frame _ _ _ H4) by other_key Hk.
    now rewrite (load_model_filter_frame load_json _ _ _ H2) by other_key Hk. }
  (* the text is kept by the first loop, and has the value of the list *)
  assert (Hfacts :
    clean_value (VStr s') = Ok (VStr s') /\
    ((In k convert_to_numeric_list /\
      numeric_value k (VStr s') = Ok (VList l) /\
      dict_get k ns4 = Some (VList l)) \/
     (k = "response_cols" /\ dict_get k ns4 = Some (VStr s') /\
      l = map VStr (split_on "," s')))).
  { apply in_app_or in Hk as [Hnum|[<-|[]]].
    - assert (Hk4 : dict_get k ns4 = Some (VList l)).
      { rewrite <- Hl. symmetry. apply (split_response_cols_frame _ _ _ H7).
        other_key Hnum. }
      destruct (numeric_items_value _ _ _ k numeric_keys_nodup Hnum H5)
        as (v & Hv & [[Hn Hv4]|[Hn (x & Hx & Hx4)]]).
      { rewrite Hk4 in Hv4. injection Hv4 as <-. discriminate. }
      rewrite Hk4 in Hx4. injection Hx4 as <-.
      destruct (numeric_value_list _ _ _ Hx) as ((s & -> & Hs) & Hsame).
      destruct (stored_list_faithful k s l Hnum Hs Hf) as (Hne & Hfa & Hnull).
      split.
      + apply clean_value_fixed; [|exact Hnull].
        now apply (list_text_no_at k).
      + left. split; [exact Hnum|]. split; [|exact Hk4].
        apply Hsame. unfold s'.
        rewrite (list_text_split k l Hne Hfa).
        now apply map_result_faithful.
    - destruct (split_response_cols_value _ _ _ H7 Hl)
        as [(s & Hs & ->)|[-> Hnone]].
      2:{ rewrite Hl in Hnone. discriminate. }
      assert (Es : s' = s).
      { unfold s'. rewrite map_py_str_VStr. apply join_split_on. }
      rewrite Es.
      assert (Hs1 : dict_get "response_cols" ns1 = Some (VStr s)).
      { rewrite <- Hk3.
        rewrite <- (numeric_items_frame _ _ _ "response_cols" H5);
          [exact Hs | simpl; intuition discriminate]. }
      rewrite (clean_entries_get _ _ H1) in Hs1.
      destruct (dict_get "response_cols" parsed_args) as [v|];
        [|discriminate].
      destruct (clean_value v) as [v'|] eqn:Hc; [|discriminate].
      injection Hs1 as ->.
      apply clean_value_str in Hc as [Hat Hnull].
      split; [now apply clean_value_fixed|].
      right. repeat split; assumption. }
  destruct Hfacts as [Hclean Hcase].
  (* the stages of the second run *)
  pose proof (clean_entries_set _ _ k _ _ H1 Hclean) as H1'.
  pose proof (agree_set_other ns1 k (VStr s')) as Hag1.
  destruct (load_model_filter_agree load_json [k] _ _ ns2 Hag1)
    as (ns2' & H2' & Hag2); [other_key Hk | exact H2 |].
  assert (H3' : check_split_fractions ns2' = Ok tt).
  { rewrite (check_split_fractions_agree [k] ns2 ns2' Hag2);
      [exact H3 | other_key Hk ..]. }
  destruct (default_score_type_agree [k] _ _ ns3 Hag2)
    as (ns3' & H4' & Hag3); [other_key Hk .. | exact H4 |].
  assert (Hh3' : dict_get "hyperparam" ns3' = Some (VBool false)).
  { rewrite <- (Hag3 "hyperparam"); [exact Hh3 | other_key Hk]. }
  assert (Hk3' : dict_get k ns3' = Some (VStr s')).
  { rewrite (default_score_type_frame _ _ _ H4') by other_key Hk.
    rewrite (load_model_filter_frame load_json _ _ _ H2') by other_key Hk.
    apply dict_get_set_eq. }
  assert (Hstage : exists ns4',
    for_each numeric_item convert_to_numeric_list ns3' = Ok ns4' /\
    agree [] ns4 ns4').
  { destruct Hcase as [(Hnum & Hval & Hk4)|(-> & Hk4 & _)].
    - now apply (numeric_items_replaced _ ns3 ns3' ns4 k (VStr s') (VList l)
                   numeric_keys_nodup Hnum Hag3 H5 Hk3').
    - destruct (numeric_items_agree ["response_cols"] convert_to_numeric_list
                  _ _ ns4 Hag3)
        as (ns4' & H5' & Hag4); [|exact H5|].
      { intros i Hi [<-|[]]. simpl in Hi. intuition discriminate. }
      exists ns4'. split; [exact H5'|].
      apply (agree_weaken "response_cols"); [exact Hag4|].
      rewrite Hk4.
      rewrite (numeric_items_frame _ _ _ "response_cols" H5');
        [now rewrite Hk3' | simpl; intuition discriminate]. }
  destruct Hstage as (ns4' & H5' & Hag4).
  pose proof (checks_not_a_str_list_agree [] _ _ _ _ Hag4
                (fun i _ (F : In i []) => F) H6) as H6'.
  destruct (split_response_cols_agree [] _ _ ns Hag4)
    as (ns' & H7' & Hag5); [intros [] | exact H7 |].
  assert (H8' : check_layer_lengths ns' = Ok tt).
  { now rewrite (check_layer_lengths_agree ns ns' Hag5). }
  exists ns'. split; [|split].
  - exact (postprocess_normal_intro _ _ _ _ _ _ H1' H2' H3' H4' Hh3' H5' H6' H7' H8').
  - rewrite <- (Hag5 k); [exact Hl | intros []].
  - intros j. symmetry. apply Hag5. intros [].
Qed.

End RoundTrip.

(* ===================================================================== *)
(** * The checks of postprocess_args *)
(* ===================================================================== *)

Section CheckFacts.

Import ParameterParser Spec.

Context {FT : FloatText}.
Variable load_json : string -> result pyval.

(** The split check on a namespace that holds the strategy and the two
    fractions. *)
Lemma check_split_fractions_raises ns valid test :
  dict_get "split_strategy" ns = Some (VStr "train_valid_test") ->
  dict_get "split_valid_frac" ns = Some (VFloat valid) ->
  dict_get "split_test_frac" ns = Some (VFloat test) ->
  (1 <= valid + test)%Q ->
  check_split_fractions ns = Raise Spec.split_error.
Proof.
  intros Hs Hv Ht Hsum. unfold check_split_fractions, getattr.
  rewrite Hs. cbn [bind]. change (py_eq (VStr "train_valid_test")
    (VStr "train_valid_test")) with true. cbv iota.
  rewrite Hv, Ht. cbn [bind py_add num_of py_ge_num].
  apply Qle_bool_iff in Hsum. rewrite Hsum. reflexivity.
Qed.

(** C3: with [split_strategy = "train_valid_test"] and
    [split_valid_frac + split_test_frac >= 1.0], [postprocess_args] raises:
    it returns no namespace, so nothing downstream (no training) can start.
    The exception is the one of the split check whenever the two steps that
    run before the check (the null and ["@"] replacement, the loading of a
    model filter file) go through. *)
Theorem split_fractions_rejected (parsed_args : pydict) (valid test : Q) :
  dict_get "split_strategy" parsed_args = Some (VStr "train_valid_test") ->
  dict_get "split_valid_frac" parsed_args = Some (VFloat valid) ->
  dict_get "split_test_frac" parsed_args = Some (VFloat test) ->
  (1 <= valid + test)%Q ->
  raises (postprocess_args load_json parsed_args) /\
  (forall ns1 ns2,
      map_result clean_entry parsed_args = Ok ns1 ->
      load_model_filter load_json ns1 = Ok ns2 ->
      postprocess_args load_json parsed_args = Raise Spec.split_error).
Proof.
  intros Hs Hv Ht Hsum.
  assert (Hcheck : forall ns1 ns2,
             map_result clean_entry parsed_args = Ok ns1 ->
             load_model_filter load_json ns1 = Ok ns2 ->
             check_split_fractions ns2 = Raise Spec.split_error).
  { intros ns1 ns2 H1 H2.
    apply (check_split_fractions_raises ns2 valid test); [| | |exact Hsum];
      rewrite (load_model_filter_frame load_json _ _ _ H2) by discriminate;
      rewrite (clean_entries_get _ _ H1).
    - now rewrite Hs.
    - now rewrite Hv.
    - now rewrite Ht. }
  split.
  - unfold raises, postprocess_args.
    destruct (map_result clean_entry parsed_args) as [ns1|e] eqn:H1;
      [|now exists e].
    cbn [bind].
    destruct (load_model_filter load_json ns1) as [ns2|e] eqn:H2;
      [|now exists e].
    cbn [bind]. rewrite (Hcheck ns1 ns2 eq_refl H2). now eexists.
  - intros ns1 ns2 H1 H2. unfold postprocess_args.
    rewrite H1. cbn [bind]. rewrite H2. cbn [bind].
    now rewrite (Hcheck ns1 ns2 H1 H2).
Qed.

End CheckFacts.

(** The statement above for [split_valid_frac = 0.6] and
    [split_test_frac = 0.5]. *)
Lemma split_fractions_rejected_witness :
  raises (ParameterParser.postprocess_args (FT := DecimalText.decimal_text)
            Spec.no_files Spec.large_fractions) /\
  (forall ns1 ns2,
      map_result ParameterParser.clean_entry Spec.large_fractions = Ok ns1 ->
      ParameterParser.load_model_filter Spec.no_files ns1 = Ok ns2 ->
      ParameterParser.postprocess_args (FT := DecimalText.decimal_text)
        Spec.no_files Spec.large_fractions = Raise Spec.split_error).
Proof.
  apply (split_fractions_rejected (FT := DecimalText.decimal_text)
           Spec.no_files Spec.large_fractions (6 # 10) (5 # 10)).
  - reflexivity.
  - reflexivity.
  - reflexivity.
  - vm_compute. discriminate.
Defined.

(** The run of the example: the exception is the one of the split check. *)
Lemma large_fractions_raise :
  ParameterParser.postprocess_args (FT := DecimalText.decimal_text)
    Spec.no_files Spec.large_fractions = Raise Spec.split_error.
Proof. vm_compute. reflexivity. Qed.

(** C4, the failing input: without [layer_sizes], a list of two dropout
    rates and a list of three initial weight deviations are both accepted;
    [postprocess_args] returns a namespace that holds the two lists. *)
Theorem layer_lengths_unchecked_without_layer_sizes :
  exists ns dropouts stddevs,
    ParameterParser.postprocess_args (FT := DecimalText.decimal_text)
      Spec.no_files Spec.mismatched_without_layer_sizes = Ok ns /\
    dict_get "layer_sizes" ns = Some VNone /\
    dict_get "dropouts" ns = Some (VList dropouts) /\
    dict_get "weight_init_stddevs" ns = Some (VList stddevs) /\
    length dropouts = 2%nat /\ length stddevs = 3%nat.
Proof.
  eexists. eexists. eexists.
  split; [vm_compute; reflexivity|].
  repeat split; reflexivity.
Qed.

(** The round trip of C5 on a concrete configuration, for a list of floats
    read and printed by the decimal text conversion. *)
Lemma list_fields_round_trip_witness :
  ParameterParser.dict_to_list (FT := DecimalText.decimal_text)
    (VDict [("dropouts", VList [VFloat (1 # 10); VFloat (1 # 4)])]) false =
    Ok ["--" +:+ "dropouts";
        join "," (map (ParameterParser.py_str (FT := DecimalText.decimal_text))
                      [VFloat (1 # 10); VFloat (1 # 4)])] /\
  exists ns',
    ParameterParser.postprocess_args (FT := DecimalText.decimal_text)
      Spec.no_files
      (dict_set "dropouts"
         (VStr (join "," (map (ParameterParser.py_str
                                 (FT := DecimalText.decimal_text))
                              [VFloat (1 # 10); VFloat (1 # 4)])))
         Spec.two_layers) = Ok ns' /\
    dict_get "dropouts" ns' = Some (VList [VFloat (1 # 10); VFloat (1 # 4)]) /\
    forall j, dict_get j ns' = dict_get j Spec.two_layers_normalised.
Proof.
  apply (list_fields_round_trip (FT := DecimalText.decimal_text)
           Spec.no_files Spec.two_layers Spec.two_layers_normalised
           "dropouts" [VFloat (1 # 10); VFloat (1 # 4)]).
  - vm_compute. reflexivity.
  - reflexivity.
  - simpl. tauto.
  - vm_compute. reflexivity.
  - intros _. split; [|vm_compute; reflexivity].
    repeat constructor; vm_compute; reflexivity.
Defined.

(** C5 as stated, for every configuration that [postprocess_args] accepts,
    fails in hyperparameter mode.  For
    [--hyperparam --layer_sizes "10,100 20,200 30,300"] the namespace holds
    the list of lists [[10, 100], [20, 200], [30, 300]]; [dict_to_list]
    joins the texts of its elements with commas, which gives
    ["[10, 100],[20, 200],[30, 300]"]; and [postprocess_args] on this text
    splits it at the spaces and raises [ValueError] on [int("[10")]. *)
Lemma list_round_trip_fails_in_hyperparameter_mode :
  ~ (forall (parsed_args ns : pydict) (k : string) (l : list pyval),
       ParameterParser.postprocess_args (FT := DecimalText.decimal_text)
         Spec.no_files parsed_args = Ok ns ->
       In k (ParameterParser.convert_to_numeric_list ++ ["response_cols"]) ->
       dict_get k ns = Some (VList l) ->
       (In k ParameterParser.convert_to_float_list ->
        Spec.float_text_ok (FT := DecimalText.decimal_text) l) ->
       ParameterParser.dict_to_list (FT := DecimalText.decimal_text)
         (VDict [(k, VList l)]) false =
         Ok ["--" +:+ k;
             join "," (map (ParameterParser.py_str
                              (FT := DecimalText.decimal_text)) l)] /\
       exists ns',
         ParameterParser.postprocess_args (FT := DecimalText.decimal_text)
           Spec.no_files
           (dict_set k
              (VStr (join "," (map (ParameterParser.py_str
                                      (FT := DecimalText.decimal_text)) l)))
              parsed_args) = Ok ns' /\
         dict_get k ns' = Some (VList l) /\
         forall j, dict_get j ns' = dict_get j ns).
Proof.
  intros H.
  destruct (H Spec.layer_search Spec.layer_search_normalised "layer_sizes"
              [VList [VInt 10; VInt 100]; VList [VInt 20; VInt 200];
               VList [VInt 30; VInt 300]])
    as (_ & ns' & Hp & _).
  - vm_compute. reflexivity.
  - simpl. tauto.
  - vm_compute. reflexivity.
  - intros Hf. exfalso. simpl in Hf. intuition discriminate.
  - vm_compute in Hp. discriminate.
Qed.

(* ===================================================================== *)
(** * create_model_wrapper *)
(* ===================================================================== *)

Lemma py_eq_str v s : py_eq v (VStr s) = true <-> v = VStr s.
Proof.
  split.
  - destruct v; simpl; try discriminate.
    intros H. apply String.eqb_eq in H. now subst.
  - intros ->. simpl. apply String.eqb_refl.
Qed.

Lemma py_eq_str_false v s : py_eq v (VStr s) = false <-> v <> VStr s.
Proof.
  rewrite <- py_eq_str. destruct (py_eq v (VStr s)); split; congruence.
Qed.

Section FactoryFacts.

Import ModelWrapper.

Context {FT : FloatText} {ML : ModelLibrary} {PL : PerfLibrary}.

(** C9: [create_model_wrapper] returns a wrapper only when [model_type] is
    ['NN'], ['RF'] or ['xgboost'], and then one of the matching class; for
    any other [model_type] it raises [ValueError]; for ['xgboost'] it raises
    an exception, and so builds no wrapper, when the package could not be
    imported or when its version reads as a number below 0.9 (a version
    that does not read as a number raises as well), and returns the
    xgboost wrapper when the version reads as a number that is at least
    0.9. *)
Theorem create_model_wrapper_cases (xgb : option string) (p : Params.t)
  (featurizer : Featurization) (client : DatastoreClient) :
  (forall w, create_model_wrapper xgb p featurizer client = Ok w ->
     (Params.model_type p = VStr "NN" /\ cls w = DCNNModelWrapper) \/
     (Params.model_type p = VStr "RF" /\ cls w = DCRFModelWrapper) \/
     (Params.model_type p = VStr "xgboost" /\
      cls w = DCxgboostModelWrapper /\
      exists version v, xgb = Some version /\
        float_of_string version = Some v /\ (9 # 10 <= v)%Q)) /\
  (Params.model_type p = VStr "NN" -> is_ok (create_model_wrapper xgb p featurizer client) = true) /\
  (Params.model_type p = VStr "RF" -> is_ok (create_model_wrapper xgb p featurizer client) = true) /\
  (Params.model_type p <> VStr "NN" -> Params.model_type p <> VStr "RF" ->
   Params.model_type p <> VStr "xgboost" ->
   exists msg, create_model_wrapper xgb p featurizer client = Raise (ValueError msg)) /\
  (Params.model_type p = VStr "xgboost" -> xgb = None ->
   exists msg, create_model_wrapper xgb p featurizer client = Raise (Exception msg)) /\
  (forall version v,
     Params.model_type p = VStr "xgboost" -> xgb = Some version ->
     float_of_string version = Some v -> (v < 9 # 10)%Q ->
     exists msg, create_model_wrapper xgb p featurizer client = Raise (Exception msg)) /\
  (forall version,
     Params.model_type p = VStr "xgboost" -> xgb = Some version ->
     float_of_string version = None ->
     raises (create_model_wrapper xgb p featurizer client)) /\
  (forall version v,
     Params.model_type p = VStr "xgboost" -> xgb = Some version ->
     float_of_string version = Some v -> (9 # 10 <= v)%Q ->
     is_ok (create_model_wrapper xgb p featurizer client) = true).
Proof.
  unfold create_model_wrapper.
  destruct (py_eq (Params.model_type p) (VStr "NN")) eqn:Enn.
  { apply py_eq_str in Enn. rewrite Enn.
    repeat split; try discriminate; try reflexivity; try congruence.
    intros w [= <-]. left. now split. }
  destruct (py_eq (Params.model_type p) (VStr "RF")) eqn:Erf.
  { apply py_eq_str in Erf. rewrite Erf.
    repeat split; try discriminate; try reflexivity; try congruence.
    intros w [= <-]. right. left. now split. }
  apply py_eq_str_false in Enn. apply py_eq_str_false in Erf.
  destruct (py_eq (Params.model_type p) (VStr "xgboost")) eqn:Exg.
  2:{ apply py_eq_str_false in Exg.
      repeat split; try discriminate; try congruence.
      intros _ _ _. now eexists. }
  apply py_eq_str in Exg.
  destruct xgb as [version|].
  2:{ repeat split; try discriminate; try congruence.
      intros _ _. now eexists. }
  destruct (float_of_string version) as [v|] eqn:Ev.
  2:{ repeat split; try discriminate; try congruence.
      intros version' _ [= <-] _. now eexists. }
  destruct (Qle_bool (9 # 10) v) eqn:Ele; cbn [negb].
  - apply Qle_bool_iff in Ele.
    repeat split; try discriminate; try congruence.
    + intros w [= <-]. right. right. split; [exact Exg|].
      split; [reflexivity|]. exists version, v. now repeat split.
    + intros version' v' _ [= <-] Hv' Hlt. rewrite Ev in Hv'.
      injection Hv' as <-. exfalso. now apply (Qlt_not_le v (9 # 10)).
  - assert (Hlt : ~ (9 # 10 <= v)%Q).
    { intros H. apply Qle_bool_iff in H. congruence. }
    repeat split; try discriminate; try congruence.
    + intros version' v' _ [= <-] Hv' _. now eexists.
    + intros version' v' _ [= <-] Hv' Hle. rewrite Ev in Hv'.
      injection Hv' as <-. contradiction.
Qed.

End FactoryFacts.

(* ===================================================================== *)
(** * The random forest and xgboost wrappers *)
(* ===================================================================== *)

Section EnsembleFacts.

Import ModelWrapper.

Context {ML : ModelLibrary} {PL : PerfLibrary}.

Lemma ensemble_init_kept c p featurizer client :
  is_ensemble c ->
  kept (Params.output_dir p) (ensemble_init c p featurizer client) /\
  baseline_model_dir (ensemble_init c p featurizer client) =
    Some (path_join (Params.output_dir p) "best_model").
Proof. intros Hc. unfold kept. simpl. repeat split; eauto. Qed.

Lemma ensemble_train_result what (w : wrapper) pipeline wd0 m0 :
  model w = Some m0 ->
  exists w' wd',
    ensemble_train what w pipeline wd0 = Ok (w', wd') /\
    best_epoch w' = Some 0%Z /\
    cls w' = cls w /\ output_dir w' = output_dir w /\
    model_dir w' = model_dir w /\
    best_model_dir w' = best_model_dir w /\
    baseline_model_dir w' = baseline_model_dir w /\
    is_Some (model w').
Proof.
  intros Hm. unfold ensemble_train. rewrite Hm.
  destruct (1 <? length (train_valid_dsets pipeline))%nat;
    (eexists; eexists; split; [reflexivity|]); simpl; repeat split; eauto.
Qed.

Lemma ensemble_train_dispatch (w : wrapper) pipeline wd0 :
  is_ensemble (cls w) ->
  exists what, train w pipeline wd0 = ensemble_train what w pipeline wd0.
Proof.
  unfold train. intros [-> | ->]; eexists; reflexivity.
Qed.

(** Each method call on a kept wrapper succeeds and keeps it; only
    [setup_model_dirs] assigns [baseline_model_dir]; [train] ends with
    [best_epoch = 0]. *)
Lemma invoke_kept o (m : method) (w : wrapper) (wd0 : world) :
  kept o w ->
  exists w' wd',
    invoke m (w, wd0) = Ok (w', wd') /\ kept o w' /\
    (m <> SetupModelDirs -> baseline_model_dir w' = baseline_model_dir w) /\
    (forall pipeline, m = Train pipeline -> best_epoch w' = Some 0%Z).
Proof.
  intros (Hc & Ho & Hd & Hb & [m0 Hm]).
  destruct m as [pipeline | reload_dir | ]; simpl.
  - destruct (ensemble_train_dispatch w pipeline wd0 Hc) as [what ->].
    destruct (ensemble_train_result what w pipeline wd0 m0 Hm)
      as (w' & wd' & -> & Hbe & Hcls & Hout & Hmd & Hbd & Hbl & Hmod).
    exists w', wd'. split; [reflexivity|]. split.
    + unfold kept. rewrite Hcls, Hout, Hmd, Hbd. now repeat split.
    + split; [intros _; exact Hbl | intros _ _; exact Hbe].
  - unfold reload_model.
    destruct Hc as [Hc | Hc]; rewrite Hc; simpl.
    + eexists; eexists. split; [reflexivity|]. split.
      * unfold kept. simpl. rewrite Hc. repeat split; eauto. now left.
      * split; [reflexivity | discriminate].
    + unfold DCxgboostModelWrapper_reload_model. rewrite Hb. simpl.
      eexists; eexists. split; [reflexivity|]. split.
      * unfold kept. simpl. rewrite Hc. repeat split; eauto. now right.
      * split; [reflexivity | discriminate].
  - eexists; eexists. split; [reflexivity|]. split.
    + unfold kept. simpl. rewrite Ho. repeat split; eauto.
    + split; [congruence | discriminate].
Qed.

Lemma invoke_all_kept o (ms : list method) : forall (w : wrapper) (wd0 : world),
  kept o w ->
  exists w' wd',
    invoke_all ms (w, wd0) = Ok (w', wd') /\ kept o w' /\
    (~ In SetupModelDirs ms -> baseline_model_dir w' = baseline_model_dir w).
Proof.
  induction ms as [|m ms IH]; intros w wd0 Hk.
  - exists w, wd0. split; [reflexivity|]. split; [exact Hk|]. reflexivity.
  - destruct (invoke_kept o m w wd0 Hk) as (w1 & wd1 & H1 & Hk1 & Hb1 & _).
    destruct (IH w1 wd1 Hk1) as (w' & wd' & H' & Hk' & Hb').
    exists w', wd'. unfold invoke_all in *. simpl. rewrite H1.
    split; [exact H'|]. split; [exact Hk'|].
    intros Hno. rewrite Hb'; [apply Hb1|]; intros E; apply Hno;
      [left; congruence | now right].
Qed.

(** C10, as the code has it: a random forest or xgboost wrapper is built
    with [model_dir], [best_model_dir] and [baseline_model_dir] all equal to
    the [best_model] directory under the output directory.  After any
    sequence of calls of [train], [reload_model] and [setup_model_dirs]
    (each of which succeeds), [model_dir] and [best_model_dir] are still
    that directory, and so is [baseline_model_dir] unless
    [setup_model_dirs] was called; and every [train] call that returns on
    such an object leaves [best_epoch = 0] and the three directory
    attributes as they were. *)
Theorem ensemble_directories (c : wrapper_class) (p : Params.t)
  (featurizer : Featurization) (client : DatastoreClient) :
  is_ensemble c ->
  (model_dir (ensemble_init c p featurizer client) =
     path_join (Params.output_dir p) "best_model" /\
   best_model_dir (ensemble_init c p featurizer client) =
     Some (path_join (Params.output_dir p) "best_model") /\
   baseline_model_dir (ensemble_init c p featurizer client) =
     Some (path_join (Params.output_dir p) "best_model")) /\
  forall (ms : list method) (wd0 : world),
  exists w wd1,
    invoke_all ms (ensemble_init c p featurizer client, wd0) = Ok (w, wd1) /\
    model_dir w = path_join (Params.output_dir p) "best_model" /\
    best_model_dir w = Some (path_join (Params.output_dir p) "best_model") /\
    (~ In SetupModelDirs ms ->
     baseline_model_dir w =
       Some (path_join (Params.output_dir p) "best_model")) /\
    forall pipeline,
    exists w' wd2,
      train w pipeline wd1 = Ok (w', wd2) /\
      best_epoch w' = Some 0%Z /\
      model_dir w' = model_dir w /\
      best_model_dir w' = best_model_dir w /\
      baseline_model_dir w' = baseline_model_dir w.
Proof.
  intros Hc.
  destruct (ensemble_init_kept c p featurizer client Hc) as [Hk Hb].
  split.
  { destruct Hk as (_ & _ & Hd & Hbd & _). now repeat split. }
  intros ms wd0.
  destruct (invoke_all_kept _ ms _ wd0 Hk) as (w & wd1 & Hrun & Hk' & Hb').
  exists w, wd1. split; [exact Hrun|].
  pose proof Hk' as (Hc' & Ho' & Hd' & Hbd' & [m0 Hm]).
  split; [exact Hd'|]. split; [exact Hbd'|].
  split; [intros Hno; now rewrite (Hb' Hno)|].
  intros pipeline.
  destruct (ensemble_train_dispatch w pipeline wd1 Hc') as [what ->].
  destruct (ensemble_train_result what w pipeline wd1 m0 Hm)
    as (w' & wd2 & -> & Hbe & _ & _ & Hmd & Hbd2 & Hbl & _).
  exists w', wd2. now repeat split.
Qed.

End EnsembleFacts.

Section EnsembleExamples.

Import ModelWrapper Toy.

(** The statement above for a random forest wrapper of the small library. *)
Lemma ensemble_directories_witness :
  (model_dir (ensemble_init DCRFModelWrapper
                (params "RF" 30 30 "twintron-blue") tt tt) =
     path_join "/out" "best_model" /\
   best_model_dir (ensemble_init DCRFModelWrapper
                     (params "RF" 30 30 "twintron-blue") tt tt) =
     Some (path_join "/out" "best_model") /\
   baseline_model_dir (ensemble_init DCRFModelWrapper
                         (params "RF" 30 30 "twintron-blue") tt tt) =
     Some (path_join "/out" "best_model")) /\
  forall (ms : list method) (wd0 : world),
  exists w wd1,
    invoke_all ms
      (ensemble_init DCRFModelWrapper
         (params "RF" 30 30 "twintron-blue") tt tt, wd0) = Ok (w, wd1) /\
    model_dir w = path_join "/out" "best_model" /\
    best_model_dir w = Some (path_join "/out" "best_model") /\
    (~ In SetupModelDirs ms ->
     baseline_model_dir w = Some (path_join "/out" "best_model")) /\
    forall pipeline,
    exists w' wd2,
      train w pipeline wd1 = Ok (w', wd2) /\
      best_epoch w' = Some 0%Z /\
      model_dir w' = model_dir w /\
      best_model_dir w' = best_model_dir w /\
      baseline_model_dir w' = baseline_model_dir w.
Proof.
  apply (ensemble_directories (ML := library) (PL := accumulator)
           DCRFModelWrapper (params "RF" 30 30 "twintron-blue") tt tt).
  left. reflexivity.
Defined.

(** C10 as stated fails: after the inherited [setup_model_dirs], the
    baseline directory of a random forest wrapper is no longer its best
    model directory. *)
Lemma setup_model_dirs_separates_baseline :
  ~ (forall (ms : list method) (w : wrapper) (wd1 : world),
       invoke_all ms
         (DCRFModelWrapper_init (params "RF" 30 30 "twintron-blue") tt tt,
          empty_world) = Ok (w, wd1) ->
       baseline_model_dir w = best_model_dir w).
Proof.
  intros H.
  specialize (H [SetupModelDirs] _ _ eq_refl).
  vm_compute in H. discriminate.
Qed.

End EnsembleExamples.

(* ===================================================================== *)
(** * DCNNModelWrapper.train: the final refit *)
(* ===================================================================== *)

Section RefitFacts.

Import ModelWrapper.

Context {ML : ModelLibrary} {PL : PerfLibrary}.

(** Two names under one directory are two paths. *)
Lemma path_join_name_inj o a b :
  String.prefix "/" a = false -> String.prefix "/" b = false ->
  path_join o a = path_join o b -> a = b.
Proof.
  unfold path_join. intros -> ->.
  destruct (String.eqb o ""); [trivial|].
  destruct (String.prefix "/" (String.rev o)).
  - apply String.app_inj.
  - intros H. apply String.app_inj in H. now apply String.app_inj in H.
Qed.

Lemma best_baseline_distinct (w : wrapper) : best_dir w <> baseline_dir w.
Proof.
  intros H. apply path_join_name_inj in H; [discriminate | reflexivity ..].
Qed.

Lemma best_not_model_dir (w : wrapper) :
  prepared w -> best_dir w <> model_dir w.
Proof.
  intros (Hm & _) H. rewrite Hm in H.
  apply path_join_name_inj in H; [discriminate | reflexivity ..].
Qed.

Lemma baseline_not_model_dir (w : wrapper) :
  prepared w -> baseline_dir w <> model_dir w.
Proof.
  intros (Hm & _) H. rewrite Hm in H.
  apply path_join_name_inj in H; [discriminate | reflexivity ..].
Qed.

Lemma refit_dirs_cases (w : wrapper) best :
  refit_dirs w best = (best_dir w, baseline_dir w) \/
  refit_dirs w best = (baseline_dir w, best_dir w).
Proof. unfold refit_dirs. destruct (best <=? _)%Z; auto. Qed.

Lemma fit_increments_refit_calls (w : wrapper) best :
  fit_increments (refit_calls w best) =
  Z.max (Params.baseline_epoch (params w)) best.
Proof.
  unfold refit_calls.
  destruct (Z.ltb_spec (Z.min (Params.baseline_epoch (params w)) best)
                       (Z.max (Params.baseline_epoch (params w)) best));
    simpl; lia.
Qed.

Lemma copy_targets_refit_calls (w : wrapper) best :
  copy_targets (refit_calls w best) =
  [fst (refit_dirs w best); snd (refit_dirs w best)].
Proof.
  unfold refit_calls.
  destruct (Z.min _ _ <? Z.max _ _)%Z; reflexivity.
Qed.

(** The refit on a prepared wrapper: it succeeds, makes the calls of
    [refit_calls], and leaves the two models in the two directories. *)
Lemma refit_result (w : wrapper) pipeline best (st : nn_run) dset :
  prepared w -> refit_dataset pipeline = Some dset ->
  exists st',
    refit w pipeline best st = Ok st' /\
    cur_params st' = cur_params st /\
    train_sp st' = train_sp st /\ valid_sp st' = valid_sp st /\
    test_sp st' = test_sp st /\ scores st' = scores st /\
    calls (wd st') = calls (wd st) ++ refit_calls w best /\
    checkpoints (wd st') !! fst (refit_dirs w best) =
      Some (fst (refit_models w (cur_params st) dset best)) /\
    checkpoints (wd st') !! snd (refit_dirs w best) =
      Some (snd (refit_models w (cur_params st) dset best)).
Proof.
  intros Hp Hd.
  pose proof (best_baseline_distinct w) as Hbb.
  pose proof (best_not_model_dir w Hp) as Hbm.
  pose proof (baseline_not_model_dir w Hp) as Hlm.
  destruct Hp as (Hmd & Hms & Hbest & Hbase).
  unfold refit. rewrite Hbest, Hbase. cbn [get_dir bind].
  assert (Hfd : (if (1 <? length (train_valid_dsets pipeline))%nat
                 then Ok (combined_training_data pipeline)
                 else match train_valid_dsets pipeline with
                      | (train_dset, _) :: _ => Ok train_dset
                      | [] => Raise (IndexError "list index out of range")
                      end) = Ok dset).
  { unfold refit_dataset in Hd.
    destruct (1 <? length (train_valid_dsets pipeline))%nat;
      [now injection Hd as -> |].
    destruct (train_valid_dsets pipeline) as [|[t v] ?];
      [discriminate | now injection Hd as ->]. }
  unfold refit_dirs, refit_calls, refit_models, refit_dirs.
  destruct (best <=? Params.baseline_epoch (params w))%Z;
    rewrite Hfd; cbn [bind fst snd];
    unfold fit_model, recreate_model, save_model, _copy_model, set_world,
      save, do_call;
    cbn [cur_model cur_store bind];
    destruct (Z.min (Params.baseline_epoch (params w)) best <?
              Z.max (Params.baseline_epoch (params w)) best)%Z;
    repeat first
      [ progress cbn [cur_model cur_store cur_params train_sp valid_sp
                      test_sp scores wd checkpoints calls logged bind]
      | rewrite lookup_insert_eq
      | rewrite lookup_insert_ne by congruence ];
    (eexists; split; [reflexivity|]);
    cbn [cur_model cur_store cur_params train_sp valid_sp test_sp scores
         wd checkpoints calls logged];
    repeat split;
    try (rewrite <- !app_assoc; reflexivity);
    repeat first
      [ rewrite lookup_insert_eq
      | rewrite lookup_insert_ne by congruence ];
    reflexivity.
Qed.

Lemma refit_dataset_some (pipeline : Pipeline) :
  train_valid_dsets pipeline <> [] ->
  exists dset, refit_dataset pipeline = Some dset.
Proof.
  unfold refit_dataset. intros H.
  destruct (1 <? length (train_valid_dsets pipeline))%nat; [eauto|].
  destruct (train_valid_dsets pipeline) as [|[t v] ?]; [contradiction|eauto].
Qed.

(** C2: once [best_epoch] is chosen, [train] builds a new model, fits it
    from scratch for [min(best_epoch, baseline_epoch)] epochs, saves it and
    copies it to one of the two directories, fits the same model on
    (restoring) for the remaining [max - min] epochs when there are any,
    saves again and copies it to the other directory.  The two copies go to
    the best and to the baseline directory, which are distinct, and to
    nothing else; the fit increments requested by the refit add up to
    [max(best_epoch, baseline_epoch)]; and each directory ends with the model
    of its epoch count. *)
Theorem refit_two_checkpoints (w : wrapper) (pipeline : Pipeline)
  (wd0 : world) (st : nn_run) (b : nat) :
  train_and_score w pipeline wd0 = Ok (st, b) ->
  prepared w ->
  train_valid_dsets pipeline <> [] ->
  exists w' wd' dset,
    DCNNModelWrapper_train w pipeline wd0 = Ok (w', wd') /\
    refit_dataset pipeline = Some dset /\
    best_epoch w' = Some (Z.of_nat b) /\
    calls wd' = calls (wd st) ++ refit_calls w (Z.of_nat b) /\
    copy_targets (refit_calls w (Z.of_nat b)) =
      [fst (refit_dirs w (Z.of_nat b)); snd (refit_dirs w (Z.of_nat b))] /\
    (refit_dirs w (Z.of_nat b) = (best_dir w, baseline_dir w) \/
     refit_dirs w (Z.of_nat b) = (baseline_dir w, best_dir w)) /\
    best_dir w <> baseline_dir w /\
    fit_increments (refit_calls w (Z.of_nat b)) =
      Z.max (Params.baseline_epoch (params w)) (Z.of_nat b) /\
    checkpoints wd' !! fst (refit_dirs w (Z.of_nat b)) =
      Some (fst (refit_models w (cur_params st) dset (Z.of_nat b))) /\
    checkpoints wd' !! snd (refit_dirs w (Z.of_nat b)) =
      Some (snd (refit_models w (cur_params st) dset (Z.of_nat b))).
Proof.
  intros Hs Hp Hd.
  destruct (refit_dataset_some pipeline Hd) as [dset Hds].
  destruct (refit_result w pipeline (Z.of_nat b) st dset Hp Hds)
    as (st' & Hr & _ & _ & _ & _ & _ & Hcalls & Hlo & Hhi).
  unfold DCNNModelWrapper_train. rewrite Hs. cbn [bind fst snd].
  rewrite Hr. cbn [bind].
  eexists; eexists; exists dset. split; [reflexivity|].
  cbn [best_epoch]. repeat split; try assumption.
  - apply copy_targets_refit_calls.
  - apply refit_dirs_cases.
  - apply best_baseline_distinct.
  - apply fit_increments_refit_calls.
Qed.

End RefitFacts.

(* ===================================================================== *)
(** * np.argmax *)
(* ===================================================================== *)

Section ArgmaxFacts.

Import ModelWrapper.

(** The scan returns an index of the list whose entry no entry exceeds and
    no earlier entry reaches. *)
Lemma argmax_from_spec (l : list Q) : forall (pre : list Q) best_i best,
  (pre ++ l) !! best_i = Some best ->
  (best_i < length pre)%nat ->
  (forall j x, (j < length pre)%nat -> (pre ++ l) !! j = Some x ->
               (x <= best)%Q) ->
  (forall j x, (j < best_i)%nat -> (pre ++ l) !! j = Some x ->
               (x < best)%Q) ->
  exists sb,
    (pre ++ l) !! argmax_from best_i best (length pre) l = Some sb /\
    (forall j x, (pre ++ l) !! j = Some x -> (x <= sb)%Q) /\
    (forall j x, (j < argmax_from best_i best (length pre) l)%nat ->
                 (pre ++ l) !! j = Some x -> (x < sb)%Q).
Proof.
  induction l as [|x r IH]; intros pre best_i best Hb Hlt Hmax Hfirst.
  - exists best. cbn [argmax_from]. split; [exact Hb|]. split; [|exact Hfirst].
    intros j y Hj. apply (Hmax j y); [|exact Hj].
    apply lookup_lt_Some in Hj. now rewrite app_nil_r in Hj.
  - assert (Hx : (pre ++ x :: r) !! length pre = Some x)
      by now rewrite list_lookup_middle.
    assert (Hlen : length (pre ++ [x]) = S (length pre))
      by (rewrite length_app; simpl; lia).
    cbn [argmax_from].
    replace (pre ++ x :: r) with ((pre ++ [x]) ++ r) in *
      by now rewrite <- app_assoc.
    rewrite <- Hlen.
    destruct (Qle_bool x best) eqn:Hle.
    + apply Qle_bool_iff in Hle.
      apply IH; [exact Hb | lia | | exact Hfirst].
      intros j y Hj Hy. rewrite Hlen in Hj.
      destruct (decide (j = length pre)) as [-> | Hne].
      * rewrite Hx in Hy. now injection Hy as <-.
      * apply (Hmax j y); [lia | exact Hy].
    + assert (Hgt : (best < x)%Q).
      { apply Qnot_le_lt. intros H. apply Qle_bool_iff in H. congruence. }
      apply IH; [exact Hx | lia | |].
      * intros j y Hj Hy. rewrite Hlen in Hj.
        destruct (decide (j = length pre)) as [-> | Hne].
        -- rewrite Hx in Hy. injection Hy as <-. apply Qle_refl.
        -- apply Qlt_le_weak. apply Qle_lt_trans with best; [|exact Hgt].
           apply (Hmax j y); [lia | exact Hy].
      * intros j y Hj Hy. apply Qle_lt_trans with best; [|exact Hgt].
        apply (Hmax j y); [lia | exact Hy].
Qed.

Lemma np_argmax_spec (l : list Q) :
  l <> [] ->
  exists b sb,
    np_argmax l = Ok b /\ l !! b = Some sb /\
    (forall j x, l !! j = Some x -> (x <= sb)%Q) /\
    (forall j x, (j < b)%nat -> l !! j = Some x -> (x < sb)%Q).
Proof.
  destruct l as [|x r]; [congruence | intros _].
  destruct (argmax_from_spec r [x] 0%nat x) as (sb & H1 & H2 & H3).
  - reflexivity.
  - simpl. lia.
  - intros j y Hj Hy. simpl in Hj. assert (j = 0%nat) as -> by lia.
    simpl in Hy. injection Hy as <-. apply Qle_refl.
  - intros j y Hj. lia.
  - exists (argmax_from 0 x 1 r), sb. now repeat split.
Qed.

End ArgmaxFacts.

(* ===================================================================== *)
(** * DCNNModelWrapper.train: the fold and epoch loops *)
(* ===================================================================== *)

Section LoopFacts.

Import ModelWrapper.

Context {ML : ModelLibrary} {PL : PerfLibrary}.

Lemma fit_increments_app (a b : list call) :
  fit_increments (a ++ b) = (fit_increments a + fit_increments b)%Z.
Proof.
  induction a as [|c a IH]; simpl; [reflexivity|].
  destruct c; rewrite ?IH; lia.
Qed.

Lemma accumulate_at_ok (sp : subset_perf) ei pred i pd :
  perf_data sp !! ei = Some pd ->
  accumulate_at sp ei pred i =
  Ok (mkSubset (<[ei := fst (accumulate_preds pd pred i)]> (perf_data sp))
               (epoch_perfs sp) (epoch_perf_stds sp),
      snd (accumulate_preds pd pred i)).
Proof.
  intros H. unfold accumulate_at, list_get, list_set. rewrite H. cbn [bind].
  destruct (accumulate_preds pd pred i) as [pd' v].
  apply lookup_lt_Some in H. apply Nat.ltb_lt in H. now rewrite H.
Qed.

Lemma subset_shape_lookup n (sp : subset_perf) ei :
  subset_shape n sp -> (ei < n)%nat -> exists pd, perf_data sp !! ei = Some pd.
Proof.
  intros (H & _) Hlt. apply lookup_lt_is_Some_2. now rewrite H.
Qed.

Lemma subset_shape_insert n (sp : subset_perf) ei pd :
  subset_shape n sp ->
  subset_shape n (mkSubset (<[ei := pd]> (perf_data sp)) (epoch_perfs sp)
                           (epoch_perf_stds sp)).
Proof.
  intros (H1 & H2 & H3). unfold subset_shape. cbn. now rewrite length_insert.
Qed.

(** One epoch of one fold: a fit of one epoch, then the predictions of the
    fitted model go into the accumulators of that epoch. *)
Lemma epoch_body_ok pipeline k ei train_dset valid_dset r (st : nn_run) m n :
  run_shape n st -> (ei < n)%nat -> cur_model st = Some m ->
  exists st',
    epoch_body pipeline k ei train_dset valid_dset r st = Ok st' /\
    run_shape n st' /\
    cur_model st' = Some (fit_nn m train_dset 1 r) /\
    cur_params st' = cur_params st /\
    scores st' = scores st /\
    fit_increments (calls (wd st')) = (fit_increments (calls (wd st)) + 1)%Z /\
    (forall i pd, perf_data (valid_sp st) !! i = Some pd ->
       perf_data (valid_sp st') !! i =
       Some (if Nat.eqb i ei
             then fst (accumulate_preds pd
                         (predict (fit_nn m train_dset 1 r) valid_dset)
                         (ids valid_dset))
             else pd)).
Proof.
  intros (Htr & Hva & Hte & Hsc) Hlt Hm.
  destruct (subset_shape_lookup n _ ei Htr Hlt) as [ptr Eptr].
  destruct (subset_shape_lookup n _ ei Hva Hlt) as [pva Epva].
  destruct (subset_shape_lookup n _ ei Hte Hlt) as [pte Epte].
  unfold epoch_body, fit_model. rewrite Hm.
  cbn [bind cur_model train_sp valid_sp test_sp].
  rewrite (accumulate_at_ok _ _ _ _ _ Eptr),
          (accumulate_at_ok _ _ _ _ _ Epva),
          (accumulate_at_ok _ _ _ _ _ Epte).
  cbn [bind fst snd].
  eexists. split; [reflexivity|].
  cbn [cur_model cur_params scores train_sp valid_sp test_sp wd].
  split; [|split; [reflexivity|split; [reflexivity|split; [reflexivity|split]]]].
  - unfold run_shape. cbn [train_sp valid_sp test_sp scores].
    repeat split; try apply subset_shape_insert; tauto.
  - unfold do_log, do_call. cbn [calls]. rewrite fit_increments_app.
    simpl. lia.
  - intros i pd Hi. cbn [perf_data].
    destruct (Nat.eqb_spec i ei) as [-> | Hne].
    + rewrite list_lookup_insert_eq by (eapply lookup_lt_Some; eassumption).
      congruence.
    + rewrite list_lookup_insert_ne by congruence. exact Hi.
Qed.

(** The epochs [a .. a + len - 1] of one fold, when the clock stays under
    the ceiling at their boundaries. *)
Lemma epoch_loop_ok pipeline k train_dset valid_dset n len :
  forall a r (st : nn_run) m,
  run_shape n st -> (a + len <= n)%nat -> cur_model st = Some m ->
  (forall ei, (a <= ei < a + len)%nat ->
     over_time (cur_params st) pipeline k ei = false) ->
  exists st',
    epoch_loop pipeline k train_dset valid_dset (seq a len) r st = Ok st' /\
    run_shape n st' /\
    cur_model st' = Some (fit_epochs m train_dset r len) /\
    cur_params st' = cur_params st /\
    scores st' = scores st /\
    fit_increments (calls (wd st')) =
      (fit_increments (calls (wd st)) + Z.of_nat len)%Z /\
    (forall i pd, perf_data (valid_sp st) !! i = Some pd ->
       perf_data (valid_sp st') !! i =
       Some (if (a <=? i)%nat && (i <? a + len)%nat
             then fst (accumulate_preds pd
                         (predict (fit_epochs m train_dset r (S (i - a)))
                                  valid_dset)
                         (ids valid_dset))
             else pd)).
Proof.
  induction len as [|len IH]; intros a r st m Hsh Hle Hm Hot.
  - exists st. cbn [seq epoch_loop fit_epochs].
    split; [reflexivity|]. split; [exact Hsh|]. split; [exact Hm|].
    split; [reflexivity|]. split; [reflexivity|]. split.
    + lia.
    + intros i pd Hi. rewrite Hi.
      destruct (Nat.leb_spec a i), (Nat.ltb_spec i (a + 0)); simpl;
        try reflexivity; lia.
  - cbn [seq epoch_loop]. rewrite (Hot a) by lia.
    destruct (epoch_body_ok pipeline k a train_dset valid_dset r st m n
                Hsh ltac:(lia) Hm)
      as (st1 & E1 & Hsh1 & Hm1 & Hp1 & Hs1 & Hf1 & Hv1).
    rewrite E1. cbn [bind].
    destruct (IH (S a) true st1 _ Hsh1 ltac:(lia) Hm1) as
      (st' & E' & Hsh' & Hm' & Hp' & Hs' & Hf' & Hv').
    { intros ei Hei. rewrite Hp1. apply Hot. lia. }
    exists st'. split; [exact E'|]. split; [exact Hsh'|].
    split; [exact Hm'|]. split; [congruence|]. split; [congruence|].
    split; [lia|].
    intros i pd Hi. rewrite (Hv' i _ (Hv1 i pd Hi)). f_equal.
    destruct (Nat.eqb_spec i a) as [-> | Hne].
    + replace (S a <=? a)%nat with false by (symmetry; apply Nat.leb_gt; lia).
      replace (a <=? a)%nat with true by (symmetry; apply Nat.leb_le; lia).
      replace (a <? a + S len)%nat with true
        by (symmetry; apply Nat.ltb_lt; lia).
      cbn [andb]. now rewrite Nat.sub_diag.
    + destruct (Nat.leb_spec (S a) i) as [H1 | H1].
      * replace (a <=? i)%nat with true by (symmetry; apply Nat.leb_le; lia).
        replace (S a + len)%nat with (a + S len)%nat by lia.
        cbn [andb]. destruct (i <? a + S len)%nat; [|reflexivity].
        replace (i - a)%nat with (S (i - S a)) by lia. reflexivity.
      * replace (a <=? i)%nat with false
          by (symmetry; apply Nat.leb_gt; lia).
        reflexivity.
Qed.

(** The folds [k, k + 1, ..] over [dsets] when the clock stays under the
    ceiling at their epoch boundaries: every fold runs all [n] epochs, from the model of the object
    for fold 0 and from a new model otherwise. *)
Lemma fold_loop_ok (w : wrapper) pipeline m0 n dsets :
  forall k (st : nn_run),
  run_shape n st -> cur_params st = params w ->
  Z.to_nat (Params.max_epochs (params w)) = n ->
  (forall k' ei, (k <= k' < k + length dsets)%nat -> (ei < n)%nat ->
     over_time (params w) pipeline k' ei = false) ->
  (k = 0%nat -> cur_model st = Some m0) ->
  exists st',
    fold_loop w pipeline dsets k st = Ok st' /\
    run_shape n st' /\
    cur_params st' = params w /\
    scores st' = scores st /\
    fit_increments (calls (wd st')) =
      (fit_increments (calls (wd st)) + Z.of_nat (length dsets * n))%Z /\
    (forall i pd, (i < n)%nat -> perf_data (valid_sp st) !! i = Some pd ->
       perf_data (valid_sp st') !! i =
       Some (valid_perf_from w m0 dsets k i pd)).
Proof.
  induction dsets as [|[train_dset valid_dset] rest IH];
    intros k st Hsh Hp Hn Hot Hm.
  - exists st. cbn [fold_loop valid_perf_from length].
    split; [reflexivity|]. split; [exact Hsh|]. split; [exact Hp|].
    split; [reflexivity|]. split; [simpl; lia|]. now intros i pd _ Hi.
  - cbn [fold_loop].
    set (st0 := if (0 <? k)%nat
                then recreate_model w (set_world (do_log InfoCreatingNewModel) st)
                else st).
    assert (H0 : run_shape n st0 /\ cur_params st0 = params w /\
                 scores st0 = scores st /\
                 valid_sp st0 = valid_sp st /\
                 cur_model st0 = Some (fold_start w m0 k) /\
                 fit_increments (calls (wd st0)) =
                   fit_increments (calls (wd st))).
    { unfold st0, fold_start. destruct (Nat.ltb_spec 0 k) as [Hk | Hk].
      - unfold recreate_model, set_world, do_log, do_call.
        cbn [cur_model cur_params train_sp valid_sp test_sp scores wd calls].
        rewrite Hp. repeat split; try apply Hsh.
        rewrite fit_increments_app. simpl. lia.
      - repeat split; try apply Hsh; try assumption. apply Hm. lia. }
    destruct H0 as (Hsh0 & Hp0 & Hs0 & Hv0 & Hm0 & Hf0).
    rewrite Hp0, Hn.
    destruct (epoch_loop_ok pipeline k train_dset valid_dset n n 0%nat false
                st0 _ Hsh0 ltac:(lia) Hm0)
      as (st1 & E1 & Hsh1 & Hm1 & Hp1 & Hs1 & Hf1 & Hv1).
    { intros ei Hei. rewrite Hp0. apply Hot; cbn [length]; lia. }
    rewrite E1. cbn [bind].
    destruct (IH (S k) st1 Hsh1 ltac:(congruence) Hn
                (fun k' ei H1 H2 => Hot k' ei ltac:(cbn [length]; lia) H2)
                ltac:(lia))
      as (st' & E' & Hsh' & Hp' & Hs' & Hf' & Hv').
    exists st'. split; [exact E'|]. split; [exact Hsh'|].
    split; [exact Hp'|]. split; [congruence|]. split.
    + rewrite Hf', Hf1, Hf0. cbn [length]. lia.
    + intros i pd Hi Hpd. rewrite <- Hv0 in Hpd.
      rewrite (Hv' i _ Hi (Hv1 i pd Hpd)). cbn [valid_perf_from].
      replace ((0 <=? i)%nat && (i <? 0 + n)%nat) with true.
      * now rewrite Nat.sub_0_r.
      * symmetry. apply andb_true_iff. split;
          [apply Nat.leb_le | apply Nat.ltb_lt]; lia.
Qed.

End LoopFacts.

(* ===================================================================== *)
(** * DCNNModelWrapper.train: scoring and the best epoch *)
(* ===================================================================== *)

Section ScoringFacts.

Import ModelWrapper.

Context {ML : ModelLibrary} {PL : PerfLibrary}.

Lemma lookup_repeat {A} (x : A) n i :
  (i < n)%nat -> repeat x n !! i = Some x.
Proof.
  revert i. induction n as [|n IH]; intros [|i] H; simpl; try lia;
    [reflexivity | apply IH; lia].
Qed.

Lemma lookup_map_seq {A} (f : nat -> A) n : forall a i,
  (i < n)%nat -> map f (seq a n) !! i = Some (f (a + i)%nat).
Proof.
  induction n as [|n IH]; intros a [|i] H; simpl; try lia.
  - now rewrite Nat.add_0_r.
  - rewrite IH by lia. f_equal. f_equal. lia.
Qed.

Lemma score_subset_ok n (sp : subset_perf) ei :
  subset_shape n sp -> (ei < n)%nat ->
  exists sp', score_subset sp ei = Ok sp' /\ perf_data sp' = perf_data sp /\
              subset_shape n sp'.
Proof.
  intros Hsh Hlt. destruct (subset_shape_lookup n sp ei Hsh Hlt) as [pd E].
  destruct Hsh as (H1 & H2 & H3).
  unfold score_subset, list_get, list_set. rewrite E. cbn [bind].
  destruct (compute_perf_metrics pd) as [mean std].
  rewrite H2. replace (ei <? n)%nat with true
    by (symmetry; now apply Nat.ltb_lt).
  cbn [bind]. rewrite H3.
  replace (ei <? n)%nat with true by (symmetry; now apply Nat.ltb_lt).
  cbn [bind]. eexists. split; [reflexivity|]. split; [reflexivity|].
  unfold subset_shape. cbn. now rewrite !length_insert.
Qed.

(** The body of the scoring loop writes the score of epoch [ei]. *)
Lemma score_epoch_ok n ei (st : nn_run) :
  run_shape n st -> (ei < n)%nat ->
  exists st',
    score_epoch ei st = Ok st' /\ run_shape n st' /\
    cur_model st' = cur_model st /\ cur_params st' = cur_params st /\
    wd st' = wd st /\
    perf_data (valid_sp st') = perf_data (valid_sp st) /\
    (forall i, scores st' !! i =
       if Nat.eqb i ei
       then (fun pd => model_choice_score pd
               (Params.model_choice_score_type (cur_params st)))
            <$> perf_data (valid_sp st) !! i
       else scores st !! i).
Proof.
  intros (Htr & Hva & Hte & Hsc) Hlt.
  destruct (score_subset_ok n _ ei Htr Hlt) as (tr & Etr & _ & Htr').
  destruct (score_subset_ok n _ ei Hva Hlt) as (va & Eva & Hpd & Hva').
  destruct (score_subset_ok n _ ei Hte Hlt) as (te & Ete & _ & Hte').
  destruct (subset_shape_lookup n _ ei Hva' Hlt) as [pd Epd].
  unfold score_epoch. rewrite Etr, Eva, Ete. cbn [bind].
  unfold list_get, list_set. rewrite Epd, Hsc.
  replace (ei <? n)%nat with true by (symmetry; now apply Nat.ltb_lt).
  cbn [bind]. eexists. split; [reflexivity|].
  cbn [cur_model cur_params wd valid_sp scores].
  split; [|repeat split; try assumption].
  - unfold run_shape. cbn [train_sp valid_sp test_sp scores].
    rewrite length_insert. tauto.
  - intros i. destruct (Nat.eqb_spec i ei) as [-> | Hne].
    + rewrite list_lookup_insert_eq by lia. now rewrite <- Hpd, Epd.
    + now rewrite list_lookup_insert_ne by congruence.
Qed.

(** The scoring loop over the epochs [a .. a + len - 1]. *)
Lemma scoring_ok n len : forall a (st : nn_run),
  run_shape n st -> (a + len <= n)%nat ->
  exists st',
    for_each score_epoch (seq a len) st = Ok st' /\ run_shape n st' /\
    cur_model st' = cur_model st /\ cur_params st' = cur_params st /\
    wd st' = wd st /\
    perf_data (valid_sp st') = perf_data (valid_sp st) /\
    (forall i, scores st' !! i =
       if (a <=? i)%nat && (i <? a + len)%nat
       then (fun pd => model_choice_score pd
               (Params.model_choice_score_type (cur_params st)))
            <$> perf_data (valid_sp st) !! i
       else scores st !! i).
Proof.
  induction len as [|len IH]; intros a st Hsh Hle.
  - exists st. cbn [seq for_each].
    split; [reflexivity|]. split; [exact Hsh|]. repeat split.
    intros i. destruct (Nat.leb_spec a i), (Nat.ltb_spec i (a + 0)); simpl;
      try reflexivity; lia.
  - cbn [seq for_each].
    destruct (score_epoch_ok n a st Hsh ltac:(lia))
      as (st1 & E1 & Hsh1 & Hm1 & Hp1 & Hw1 & Hv1 & Hs1).
    rewrite E1.
    destruct (IH (S a) st1 Hsh1 ltac:(lia))
      as (st' & E' & Hsh' & Hm' & Hp' & Hw' & Hv' & Hs').
    exists st'. split; [exact E'|]. split; [exact Hsh'|].
    split; [congruence|]. split; [congruence|]. split; [congruence|].
    split; [congruence|].
    intros i. rewrite Hs', Hs1, Hv1, Hp1.
    destruct (Nat.eqb_spec i a) as [-> | Hne].
    + replace (S a <=? a)%nat with false by (symmetry; apply Nat.leb_gt; lia).
      replace (a <=? a)%nat with true by (symmetry; apply Nat.leb_le; lia).
      replace (a <? a + S len)%nat with true
        by (symmetry; apply Nat.ltb_lt; lia).
      reflexivity.
    + replace (S a + len)%nat with (a + S len)%nat by lia.
      destruct (Nat.leb_spec (S a) i) as [H1 | H1].
      * replace (a <=? i)%nat with true by (symmetry; apply Nat.leb_le; lia).
        reflexivity.
      * replace (a <=? i)%nat with false
          by (symmetry; apply Nat.leb_gt; lia).
        reflexivity.
Qed.

Lemma initial_run_shape (w : wrapper) pipeline wd0 :
  run_shape (Z.to_nat (Params.max_epochs (params w)))
            (initial_run w pipeline wd0).
Proof.
  unfold run_shape, subset_shape, initial_run. cbn.
  now rewrite !repeat_length.
Qed.

(** With every fold and epoch completed, the loops of [train] end with the
    fold-aggregated validation scores in [model_choice_scores] and with
    their argmax. *)
Lemma train_and_score_ok (w : wrapper) pipeline wd0 m0 :
  model w = Some m0 ->
  (0 < Params.max_epochs (params w))%Z ->
  within_time (params w) pipeline ->
  exists st b,
    train_and_score w pipeline wd0 = Ok (st, b) /\
    scores st = expected_scores w m0 pipeline /\
    np_argmax (expected_scores w m0 pipeline) = Ok b /\
    cur_params st = params w /\
    fit_increments (calls (wd st)) =
      (fit_increments (calls wd0) +
       Z.of_nat (length (train_valid_dsets pipeline)) *
       Params.max_epochs (params w))%Z.
Proof.
  intros Hm Hpos Hot.
  set (n := Z.to_nat (Params.max_epochs (params w))).
  unfold train_and_score.
  replace (Params.max_epochs (params w) <? 0)%Z with false
    by (symmetry; apply Z.ltb_ge; lia).
  destruct (fold_loop_ok w pipeline m0 n (train_valid_dsets pipeline) 0%nat
              (initial_run w pipeline wd0) (initial_run_shape w pipeline wd0)
              eq_refl eq_refl (fun k' ei _ _ => Hot k' ei) (fun _ => Hm))
    as (st1 & E1 & Hsh1 & Hp1 & Hs1 & Hf1 & Hv1).
  rewrite E1. cbn [bind]. rewrite Hp1. fold n.
  destruct (scoring_ok n n 0%nat st1 Hsh1 ltac:(lia))
    as (st2 & E2 & Hsh2 & Hm2 & Hp2 & Hw2 & Hv2 & Hs2).
  rewrite E2. cbn [bind].
  assert (Hexp : scores st2 = expected_scores w m0 pipeline).
  { apply list_eq. intros i. rewrite Hs2. unfold expected_scores. fold n.
    destruct (Nat.ltb_spec i n) as [Hi | Hi].
    - replace ((0 <=? i)%nat && (i <? 0 + n)%nat) with true
        by (symmetry; apply andb_true_iff; split;
            [apply Nat.leb_le | apply Nat.ltb_lt]; lia).
      rewrite lookup_map_seq by exact Hi. cbn [Nat.add].
      rewrite (Hv1 i (create_perf_data (Params.prediction_type (params w))
                        pipeline "valid") Hi).
      + now rewrite Hp1.
      + unfold initial_run. cbn [valid_sp perf_data].
        now apply lookup_repeat.
    - replace ((0 <=? i)%nat && (i <? 0 + n)%nat) with false
        by (symmetry; apply andb_false_iff; right; apply Nat.ltb_ge; lia).
      destruct Hsh1 as (_ & _ & _ & Hlen).
      rewrite !lookup_ge_None_2; [reflexivity | | lia].
      rewrite length_map, length_seq. lia. }
  destruct (np_argmax_spec (expected_scores w m0 pipeline))
    as (b & sb & Hb & _).
  { unfold expected_scores. fold n. destruct n eqn:En; [lia | discriminate]. }
  exists st2, b. rewrite Hexp, Hb. cbn [bind].
  split; [reflexivity|]. split; [reflexivity|]. split; [reflexivity|].
  split; [congruence|].
  rewrite Hw2, Hf1. unfold initial_run. cbn [wd]. unfold n. nia.
Qed.

End ScoringFacts.

Section BestEpoch.

Import ModelWrapper.

Context {ML : ModelLibrary} {PL : PerfLibrary}.

(** C1: when no time check stops the loops, so that every fold runs every
    epoch, [train] on a prepared neural-network wrapper returns; its
    [model_choice_scores] holds, for each epoch index, the model-choice
    score of the validation accumulator that every fold has fed with the
    predictions of its model at that epoch; and [best_epoch] is the [argmax]
    of these scores: the index of an entry that no entry exceeds, and the
    first such index.  For the scores [0.1, 0.5, 0.3] that index is 1. *)
Theorem best_epoch_is_argmax_of_validation_scores
  (w : wrapper) (pipeline : Pipeline) (wd0 : world) (m0 : Model) :
  model w = Some m0 ->
  prepared w ->
  train_valid_dsets pipeline <> [] ->
  (0 < Params.max_epochs (params w))%Z ->
  within_time (params w) pipeline ->
  exists w' wd' b sb,
    DCNNModelWrapper_train w pipeline wd0 = Ok (w', wd') /\
    (exists tr va te,
       perf w' = PerfEpochs tr va te (expected_scores w m0 pipeline)) /\
    best_epoch w' = Some (Z.of_nat b) /\
    np_argmax (expected_scores w m0 pipeline) = Ok b /\
    expected_scores w m0 pipeline !! b = Some sb /\
    (forall j x, expected_scores w m0 pipeline !! j = Some x -> (x <= sb)%Q) /\
    (forall j x, (j < b)%nat -> expected_scores w m0 pipeline !! j = Some x ->
                 (x < sb)%Q) /\
    np_argmax [1 # 10; 5 # 10; 3 # 10]%Q = Ok 1%nat.
Proof.
  intros Hm Hp Hd Hpos Hot.
  destruct (train_and_score_ok w pipeline wd0 m0 Hm Hpos Hot)
    as (st & b & Hts & Hsc & Hb & _).
  destruct (refit_dataset_some pipeline Hd) as [dset Hds].
  destruct (refit_result w pipeline (Z.of_nat b) st dset Hp Hds)
    as (st' & Hr & _ & _ & _ & _ & Hsc' & _).
  destruct (np_argmax_spec (expected_scores w m0 pipeline))
    as (b' & sb & Hb' & Hsb & Hmax & Hfirst).
  { intros E. rewrite E in Hb. discriminate. }
  assert (b' = b) as -> by congruence.
  unfold DCNNModelWrapper_train. rewrite Hts. cbn [bind fst snd].
  rewrite Hr. cbn [bind].
  eexists; eexists; exists b, sb. split; [reflexivity|].
  cbn [perf best_epoch]. split.
  { do 3 eexists. rewrite Hsc', Hsc. reflexivity. }
  repeat split; assumption.
Qed.

End BestEpoch.

(* ===================================================================== *)
(** * Runs of DCNNModelWrapper.train on the small library *)
(* ===================================================================== *)

Section TrainExamples.

Import ModelWrapper Toy.

(** Three folds and three epochs with validation scores averaging to
    [0.1, 0.5, 0.3]. *)
Lemma best_epoch_is_argmax_of_validation_scores_witness :
  exists w' wd' b sb,
    DCNNModelWrapper_train (nn_wrapper (params "NN" 3 5 "twintron-blue"))
      three_folds empty_world = Ok (w', wd') /\
    (exists tr va te,
       perf w' =
       PerfEpochs tr va te
         (expected_scores (nn_wrapper (params "NN" 3 5 "twintron-blue"))
                          0%nat three_folds)) /\
    best_epoch w' = Some (Z.of_nat b) /\
    np_argmax (expected_scores (nn_wrapper (params "NN" 3 5 "twintron-blue"))
                               0%nat three_folds) = Ok b /\
    expected_scores (nn_wrapper (params "NN" 3 5 "twintron-blue"))
                    0%nat three_folds !! b = Some sb /\
    (forall j x,
       expected_scores (nn_wrapper (params "NN" 3 5 "twintron-blue"))
                       0%nat three_folds !! j = Some x -> (x <= sb)%Q) /\
    (forall j x, (j < b)%nat ->
       expected_scores (nn_wrapper (params "NN" 3 5 "twintron-blue"))
                       0%nat three_folds !! j = Some x -> (x < sb)%Q) /\
    np_argmax [1 # 10; 5 # 10; 3 # 10]%Q = Ok 1%nat.
Proof.
  apply (best_epoch_is_argmax_of_validation_scores
           (ML := library) (PL := accumulator)
           (nn_wrapper (params "NN" 3 5 "twintron-blue"))
           three_folds empty_world 0%nat).
  - reflexivity.
  - repeat split.
  - discriminate.
  - reflexivity.
  - intros k ei. reflexivity.
Defined.

(** The same run, evaluated: the scores and the epoch chosen. *)
Lemma three_fold_run :
  expected_scores (nn_wrapper (params "NN" 3 5 "twintron-blue"))
                  0%nat three_folds = [1 # 10; 1 # 2; 3 # 10]%Q /\
  exists w' wd',
    DCNNModelWrapper_train (nn_wrapper (params "NN" 3 5 "twintron-blue"))
      three_folds empty_world = Ok (w', wd') /\
    best_epoch w' = Some 1%Z.
Proof.
  split; [vm_compute; reflexivity|].
  remember (DCNNModelWrapper_train
              (nn_wrapper (params "NN" 3 5 "twintron-blue"))
              three_folds empty_world) as r eqn:E.
  assert (H : match r with
              | Ok (w', _) => best_epoch w' = Some 1%Z
              | Raise _ => False
              end) by (rewrite E; vm_compute; reflexivity).
  clear E. destruct r as [[w' wd']|]; [|contradiction].
  now exists w', wd'.
Qed.

(** One fold, four epochs, [baseline_epoch = 5]; the best epoch is 2. *)
Lemma refit_two_checkpoints_witness :
  exists st,
    train_and_score (nn_wrapper (params "NN" 4 5 "twintron-blue"))
      one_fold empty_world = Ok (st, 2%nat) /\
    exists w' wd' dset,
      DCNNModelWrapper_train (nn_wrapper (params "NN" 4 5 "twintron-blue"))
        one_fold empty_world = Ok (w', wd') /\
      refit_dataset one_fold = Some dset /\
      best_epoch w' = Some 2%Z /\
      calls wd' =
        calls (wd st) ++
        refit_calls (nn_wrapper (params "NN" 4 5 "twintron-blue")) 2 /\
      copy_targets
        (refit_calls (nn_wrapper (params "NN" 4 5 "twintron-blue")) 2) =
        ["/out/best_model"; "/out/baseline_epoch_model"] /\
      fit_increments
        (refit_calls (nn_wrapper (params "NN" 4 5 "twintron-blue")) 2) = 5%Z /\
      checkpoints wd' !! "/out/best_model" = Some 2%nat /\
      checkpoints wd' !! "/out/baseline_epoch_model" = Some 5%nat.
Proof.
  assert (Hts : exists st,
            train_and_score (nn_wrapper (params "NN" 4 5 "twintron-blue"))
              one_fold empty_world = Ok (st, 2%nat))
    by (eexists; vm_compute; reflexivity).
  destruct Hts as [st Hts]. exists st. split; [exact Hts|].
  destruct (refit_two_checkpoints (ML := library) (PL := accumulator)
              (nn_wrapper (params "NN" 4 5 "twintron-blue"))
              one_fold empty_world st 2%nat Hts)
    as (w' & wd' & dset & H1 & H2 & H3 & H4 & _ & _ & _ & _ & H7 & H8).
  - repeat split.
  - discriminate.
  - exists w', wd', dset.
    split; [exact H1|]. split; [exact H2|]. split; [exact H3|].
    split; [exact H4|]. split; [vm_compute; reflexivity|].
    split; [vm_compute; reflexivity|]. split; [exact H7 | exact H8].
Defined.

End TrainExamples.

(* ===================================================================== *)
(** * DCNNModelWrapper.train: the time check *)
(* ===================================================================== *)

Section TimeCheck.

Import ModelWrapper.

Context {ML : ModelLibrary} {PL : PerfLibrary}.

(** The time check reads only [system] of the parameters. *)
Lemma over_time_system (p p' : Params.t) pipeline k ei :
  Params.system p = Params.system p' ->
  over_time p pipeline k ei = over_time p' pipeline k ei.
Proof. unfold over_time. now intros ->. Qed.

(** At a boundary where the clock has passed the ceiling the epoch loop of
    the fold ends at once: [max_epochs] becomes the index of the epoch not
    started, a warning is logged, and nothing is fitted. *)
Lemma epoch_loop_detect pipeline k train_dset valid_dset ei rest r
  (st : nn_run) :
  over_time (cur_params st) pipeline k ei = true ->
  epoch_loop pipeline k train_dset valid_dset (ei :: rest) r st =
  Ok (mkRun (cur_model st) (cur_store st)
            (Params.set_max_epochs (Z.of_nat ei) (cur_params st))
            (train_sp st) (valid_sp st) (test_sp st) (scores st)
            (do_log WarnOverTime (wd st))).
Proof. intros H. cbn [epoch_loop]. now rewrite H. Qed.

(** The folds after the one that ran out of time, on a clock that stays
    past the ceiling: each is entered, none fits anything, and the first of
    them that still has an epoch to run sets [max_epochs] to 0. *)
Lemma fold_loop_after (w : wrapper) pipeline n post :
  forall k (st : nn_run) e,
  run_shape n st ->
  Params.system (cur_params st) = Params.system (params w) ->
  Params.max_epochs (cur_params st) = Z.of_nat e ->
  (forall k', (k <= k')%nat -> over_time (params w) pipeline k' 0 = true) ->
  exists st',
    fold_loop w pipeline post k st = Ok st' /\
    run_shape n st' /\
    Params.system (cur_params st') = Params.system (params w) /\
    Params.max_epochs (cur_params st') =
      (match post with [] => Z.of_nat e | _ :: _ => 0%Z end) /\
    scores st' = scores st /\
    valid_sp st' = valid_sp st /\
    fit_increments (calls (wd st')) = fit_increments (calls (wd st)).
Proof.
  induction post as [|[train_dset valid_dset] rest IH];
    intros k st e Hsh Hsys He Hot.
  - exists st. cbn [fold_loop].
    split; [reflexivity|]. split; [exact Hsh|]. split; [exact Hsys|].
    split; [exact He|]. now repeat split.
  - cbn [fold_loop].
    set (st0 := if (0 <? k)%nat
                then recreate_model w (set_world (do_log InfoCreatingNewModel) st)
                else st).
    assert (H0 : run_shape n st0 /\ cur_params st0 = cur_params st /\
                 scores st0 = scores st /\ valid_sp st0 = valid_sp st /\
                 fit_increments (calls (wd st0)) =
                   fit_increments (calls (wd st))).
    { unfold st0. destruct (0 <? k)%nat.
      - unfold recreate_model, set_world, do_log, do_call.
        cbn [cur_model cur_params train_sp valid_sp test_sp scores wd calls].
        split; [exact Hsh|]. repeat split.
        rewrite fit_increments_app. simpl. lia.
      - split; [exact Hsh|]. now repeat split. }
    destruct H0 as (Hsh0 & Hp0 & Hs0 & Hv0 & Hf0).
    rewrite Hp0, He, Nat2Z.id.
    assert (Hend : exists st1,
      epoch_loop pipeline k train_dset valid_dset (seq 0 e) false st0 = Ok st1
      /\ run_shape n st1 /\
      Params.system (cur_params st1) = Params.system (params w) /\
      Params.max_epochs (cur_params st1) = 0%Z /\
      scores st1 = scores st /\ valid_sp st1 = valid_sp st /\
      fit_increments (calls (wd st1)) = fit_increments (calls (wd st))).
    { destruct e as [|e].
      - exists st0. cbn [seq epoch_loop]. rewrite Hp0.
        split; [reflexivity|]. split; [exact Hsh0|]. split; [exact Hsys|].
        split; [exact He|]. now repeat split.
      - cbn [seq]. rewrite epoch_loop_detect.
        + eexists. split; [reflexivity|].
          cbn [cur_params scores valid_sp wd]. rewrite Hp0.
          split; [exact Hsh0|]. split; [exact Hsys|].
          split; [reflexivity|]. now repeat split.
        + rewrite Hp0, (over_time_system _ (params w)) by exact Hsys.
          apply Hot. lia. }
    destruct Hend as (st1 & E1 & Hsh1 & Hsys1 & He1 & Hs1 & Hv1 & Hf1).
    rewrite E1. cbn [bind].
    destruct (IH (S k) st1 0%nat Hsh1 Hsys1 He1
                (fun k' H => Hot k' ltac:(lia)))
      as (st' & E' & Hsh' & Hsys' & He' & Hs' & Hv' & Hf').
    exists st'. split; [exact E'|]. split; [exact Hsh'|].
    split; [exact Hsys'|]. split; [rewrite He'; now destruct rest|].
    split; [congruence|]. split; congruence.
Qed.

End TimeCheck.

Section TimeExceeded.

Import ModelWrapper.

Context {ML : ModelLibrary} {PL : PerfLibrary}.

Lemma fold_loop_app (w : wrapper) pipeline l1 l2 : forall k (st : nn_run),
  fold_loop w pipeline (l1 ++ l2) k st =
  bind (fold_loop w pipeline l1 k st)
       (fold_loop w pipeline l2 (k + length l1)).
Proof.
  induction l1 as [|[train_dset valid_dset] l1 IH]; intros k st.
  - cbn [app fold_loop bind length]. now rewrite Nat.add_0_r.
  - cbn [app fold_loop length].
    destruct (epoch_loop _ _ _ _ _ _ _) as [st1|e]; cbn [bind];
      [|reflexivity].
    rewrite IH. now replace (S k + length l1)%nat with (k + S (length l1))%nat
      by lia.
Qed.

(** The epochs [a .. a + len - 1] under the ceiling, then whatever follows
    them in the loop. *)
Lemma epoch_loop_seq_then pipeline k train_dset valid_dset n rest len :
  forall a r (st : nn_run) m,
  run_shape n st -> (a + len <= n)%nat -> cur_model st = Some m ->
  (forall ei, (a <= ei < a + len)%nat ->
     over_time (cur_params st) pipeline k ei = false) ->
  exists st1,
    epoch_loop pipeline k train_dset valid_dset (seq a len) r st = Ok st1 /\
    epoch_loop pipeline k train_dset valid_dset (seq a len ++ rest) r st =
    epoch_loop pipeline k train_dset valid_dset rest
      (match len with O => r | S _ => true end) st1.
Proof.
  induction len as [|len IH]; intros a r st m Hsh Hle Hm Hot.
  - exists st. split; reflexivity.
  - cbn [seq app epoch_loop]. rewrite (Hot a) by lia.
    destruct (epoch_body_ok pipeline k a train_dset valid_dset r st m n
                Hsh ltac:(lia) Hm)
      as (st1 & E1 & Hsh1 & Hm1 & Hp1 & _).
    rewrite E1. cbn [bind].
    destruct (IH (S a) true st1 _ Hsh1 ltac:(lia) Hm1) as (st2 & E2 & E3).
    { intros ei Hei. rewrite Hp1. apply Hot. lia. }
    exists st2. split; [exact E2|]. rewrite E3. now destruct len.
Qed.

(** The fold in which the clock passes the ceiling at the boundary of epoch
    [e0]: the epochs before [e0] are run, [max_epochs] becomes [e0], and the
    loop over the folds goes on with the next fold. *)
Lemma fold_loop_detect (w : wrapper) pipeline m0 n train_dset valid_dset post
  k0 (st : nn_run) e0 :
  run_shape n st -> cur_params st = params w ->
  Z.to_nat (Params.max_epochs (params w)) = n ->
  (k0 = 0%nat -> cur_model st = Some m0) ->
  (e0 < n)%nat ->
  (forall ei, (ei < e0)%nat -> over_time (params w) pipeline k0 ei = false) ->
  over_time (params w) pipeline k0 e0 = true ->
  exists st1,
    fold_loop w pipeline ((train_dset, valid_dset) :: post) k0 st =
      fold_loop w pipeline post (S k0) st1 /\
    run_shape n st1 /\
    cur_params st1 = Params.set_max_epochs (Z.of_nat e0) (params w) /\
    cur_model st1 =
      Some (fit_epochs (fold_start w m0 k0) train_dset false e0) /\
    scores st1 = scores st /\
    fit_increments (calls (wd st1)) =
      (fit_increments (calls (wd st)) + Z.of_nat e0)%Z.
Proof.
  intros Hsh Hp Hn Hm He Hbefore Hdet.
  cbn [fold_loop].
  set (st0 := if (0 <? k0)%nat
              then recreate_model w (set_world (do_log InfoCreatingNewModel) st)
              else st).
  assert (H0 : run_shape n st0 /\ cur_params st0 = params w /\
               scores st0 = scores st /\
               cur_model st0 = Some (fold_start w m0 k0) /\
               fit_increments (calls (wd st0)) =
                 fit_increments (calls (wd st))).
  { unfold st0, fold_start. destruct (Nat.ltb_spec 0 k0) as [Hk | Hk].
    - unfold recreate_model, set_world, do_log, do_call.
      cbn [cur_model cur_params train_sp valid_sp test_sp scores wd calls].
      rewrite Hp. split; [exact Hsh|]. repeat split.
      rewrite fit_increments_app. simpl. lia.
    - split; [exact Hsh|]. repeat split; try assumption. apply Hm. lia. }
  destruct H0 as (Hsh0 & Hp0 & Hs0 & Hm0 & Hf0).
  rewrite Hp0, Hn.
  assert (Hseq : seq 0 n = seq 0 e0 ++ e0 :: seq (S e0) (n - S e0)).
  { replace n with (e0 + S (n - S e0))%nat at 1 by lia.
    now rewrite List.seq_app. }
  rewrite Hseq.
  assert (Hot0 : forall ei, (0 <= ei < 0 + e0)%nat ->
            over_time (cur_params st0) pipeline k0 ei = false).
  { intros ei Hei. rewrite Hp0. apply Hbefore. lia. }
  destruct (epoch_loop_seq_then pipeline k0 train_dset valid_dset n
              (e0 :: seq (S e0) (n - S e0)) e0 0%nat false st0 _
              Hsh0 ltac:(lia) Hm0 Hot0) as (st1 & E1 & E2).
  destruct (epoch_loop_ok pipeline k0 train_dset valid_dset n e0 0%nat false
              st0 _ Hsh0 ltac:(lia) Hm0 Hot0)
    as (st1' & E1' & Hsh1 & Hm1 & Hp1 & Hs1 & Hf1 & _).
  assert (st1' = st1) as -> by congruence.
  rewrite E2, epoch_loop_detect
    by (rewrite Hp1, Hp0; exact Hdet).
  cbn [bind]. eexists. split; [reflexivity|].
  cbn [cur_model cur_params scores wd].
  split; [exact Hsh1|]. split; [now rewrite Hp1, Hp0|].
  split; [exact Hm1|]. split; [congruence|].
  unfold do_log. cbn [calls]. lia.
Qed.

(** A run in which the clock passes the ceiling.  The folds before fold
    [length pre] run all their epochs; in that fold the check first
    succeeds at the boundary of epoch [e0]; afterwards the clock stays past
    the ceiling.  [train] returns; the loops have fitted
    [length pre * n + e0] single epochs and no more; and the value left in
    [max_epochs], which bounds the scoring loop, is [e0] when the fold was
    the last one and 0 when a fold follows it. *)
Lemma time_exceeded_run (w : wrapper) (pipeline : Pipeline) (wd0 : world)
  (m0 : Model) pre train_dset valid_dset post (e0 : nat) :
  model w = Some m0 ->
  prepared w ->
  train_valid_dsets pipeline = pre ++ (train_dset, valid_dset) :: post ->
  (e0 < Z.to_nat (Params.max_epochs (params w)))%nat ->
  (forall k ei, (k < length pre)%nat ->
     (ei < Z.to_nat (Params.max_epochs (params w)))%nat ->
     over_time (params w) pipeline k ei = false) ->
  (forall ei, (ei < e0)%nat ->
     over_time (params w) pipeline (length pre) ei = false) ->
  over_time (params w) pipeline (length pre) e0 = true ->
  (forall k, (length pre < k)%nat -> over_time (params w) pipeline k 0 = true) ->
  exists w' wd' b,
    DCNNModelWrapper_train w pipeline wd0 = Ok (w', wd') /\
    best_epoch w' = Some (Z.of_nat b) /\
    Params.max_epochs (params w') =
      (match post with [] => Z.of_nat e0 | _ :: _ => 0%Z end) /\
    fit_increments (calls wd') =
      (fit_increments (calls wd0) +
       Z.of_nat (length pre * Z.to_nat (Params.max_epochs (params w)) + e0) +
       Z.max (Params.baseline_epoch (params w)) (Z.of_nat b))%Z.
Proof.
  intros Hm Hprep Hd He Hpre Hbefore Hdet Hafter.
  set (n := Z.to_nat (Params.max_epochs (params w))) in *.
  assert (Hts : exists st b,
    train_and_score w pipeline wd0 = Ok (st, b) /\
    Params.max_epochs (cur_params st) =
      (match post with [] => Z.of_nat e0 | _ :: _ => 0%Z end) /\
    fit_increments (calls (wd st)) =
      (fit_increments (calls wd0) + Z.of_nat (length pre * n + e0))%Z).
  { unfold train_and_score.
    replace (Params.max_epochs (params w) <? 0)%Z with false
      by (symmetry; apply Z.ltb_ge; lia).
    rewrite Hd, fold_loop_app. cbn [Nat.add].
    destruct (fold_loop_ok w pipeline m0 n pre 0%nat
                (initial_run w pipeline wd0)
                (initial_run_shape w pipeline wd0) eq_refl eq_refl
                (fun k ei H1 H2 => Hpre k ei ltac:(lia) H2) (fun _ => Hm))
      as (sta & Ea & Hsha & Hpa & Hsa & Hfa & _).
    rewrite Ea. cbn [bind].
    assert (Hma : length pre = 0%nat -> cur_model sta = Some m0).
    { intros H0. destruct pre; [|discriminate].
      cbn [fold_loop] in Ea. injection Ea as <-. exact Hm. }
    destruct (fold_loop_detect w pipeline m0 n train_dset valid_dset post
                (length pre) sta e0 Hsha Hpa eq_refl Hma He Hbefore Hdet)
      as (stb & Eb & Hshb & Hpb & _ & Hsb & Hfb).
    rewrite Eb.
    destruct (fold_loop_after w pipeline n post (S (length pre)) stb e0 Hshb)
      as (stc & Ec & Hshc & _ & Hec & Hsc & _ & Hfc).
    { now rewrite Hpb. }
    { now rewrite Hpb. }
    { intros k' Hk. apply Hafter. lia. }
    rewrite Ec. cbn [bind].
    destruct (scoring_ok n (Z.to_nat (Params.max_epochs (cur_params stc)))
                0%nat stc Hshc)
      as (std & Ed & Hshd & _ & Hpd & Hwd & _).
    { rewrite Hec. destruct post; lia. }
    rewrite Ed. cbn [bind].
    destruct (np_argmax_spec (scores std)) as (b & sb & Hb & _).
    { destruct Hshd as (_ & _ & _ & Hlen). intros E. rewrite E in Hlen.
      simpl in Hlen. lia. }
    rewrite Hb. cbn [bind]. exists std, b.
    split; [reflexivity|]. split; [now rewrite Hpd|].
    rewrite Hwd, Hfc, Hfb, Hfa. unfold initial_run. cbn [wd]. lia. }
  destruct Hts as (st & b & Hts & Hmax & Hfits).
  assert (Hne : train_valid_dsets pipeline <> [])
    by (rewrite Hd; now destruct pre).
  destruct (refit_dataset_some pipeline Hne) as [dset Hds].
  destruct (refit_result w pipeline (Z.of_nat b) st dset Hprep Hds)
    as (st' & Hr & Hp' & _ & _ & _ & _ & Hcalls & _).
  unfold DCNNModelWrapper_train. rewrite Hts. cbn [bind fst snd].
  rewrite Hr. cbn [bind]. eexists; eexists; exists b.
  split; [reflexivity|]. cbn [best_epoch params].
  split; [reflexivity|]. split; [now rewrite Hp'|].
  rewrite Hcalls, fit_increments_app, fit_increments_refit_calls, Hfits.
  reflexivity.
Qed.

End TimeExceeded.

Section TimeExceededExample.

Import ModelWrapper Toy.

(** C8: a run of two folds and [max_epochs = 3] on system ['LC'] whose clock
    passes eighteen hours after the second epoch of the first fold.  The
    epoch loop of the first fold stops at the boundary of its third epoch
    with [max_epochs = 2] and two epochs fitted; [train] then goes on to the
    second fold, whose first time check sets [max_epochs] to 0.  [train]
    returns, but with [max_epochs = 0]: the scoring loop visits no epoch,
    [model_choice_scores] keeps its three zeros, [best_epoch] is 0 and the
    checkpoint written as the best model is one fitted for no epoch. *)
Theorem time_exceeded_in_first_fold_run :
  exists st1 w' wd',
    epoch_loop two_folds_late 0 10%nat 11%nat (seq 0 3) false
      (initial_run (nn_wrapper (params "NN" 3 5 "LC")) two_folds_late
                   empty_world) = Ok st1 /\
    Params.max_epochs (cur_params st1) = 2%Z /\
    fit_increments (calls (wd st1)) = 2%Z /\
    DCNNModelWrapper_train (nn_wrapper (params "NN" 3 5 "LC"))
      two_folds_late empty_world = Ok (w', wd') /\
    Params.max_epochs (ModelWrapper.params w') = 0%Z /\
    (exists tr va te, perf w' = PerfEpochs tr va te [0; 0; 0]%Q) /\
    best_epoch w' = Some 0%Z /\
    checkpoints wd' !! "/out/best_model" = Some 0%nat.
Proof.
  remember (epoch_loop two_folds_late 0 10%nat 11%nat (seq 0 3) false
              (initial_run (nn_wrapper (params "NN" 3 5 "LC")) two_folds_late
                           empty_world)) as r1 eqn:E1.
  remember (DCNNModelWrapper_train (nn_wrapper (params "NN" 3 5 "LC"))
              two_folds_late empty_world) as r2 eqn:E2.
  assert (H1 :
    match r1 with
    | Ok st1 => Params.max_epochs (cur_params st1) = 2%Z /\
                fit_increments (calls (wd st1)) = 2%Z
    | Raise _ => False
    end) by (rewrite E1; vm_compute; split; reflexivity).
  assert (H2 :
    match r2 with
    | Ok (w', wd') =>
        Params.max_epochs (ModelWrapper.params w') = 0%Z /\
        match perf w' with
        | PerfEpochs _ _ _ s => s = [0; 0; 0]%Q
        | _ => False
        end /\
        best_epoch w' = Some 0%Z /\
        checkpoints wd' !! "/out/best_model" = Some 0%nat
    | Raise _ => False
    end) by (rewrite E2; vm_compute; repeat split; reflexivity).
  clear E1 E2.
  destruct r1 as [st1|]; [|contradiction].
  destruct r2 as [[w' wd']|]; [|contradiction].
  destruct H1 as (Ha & Hb). destruct H2 as (Hc & Hd & He & Hf).
  exists st1, w', wd'.
  split; [reflexivity|]. split; [exact Ha|]. split; [exact Hb|].
  split; [reflexivity|]. split; [exact Hc|]. split; [|split; [exact He|exact Hf]].
  destruct (perf w') as [|tr va te s|]; try contradiction.
  exists tr, va, te. now subst s.
Qed.

(** The same run through [time_exceeded_run]: the check first succeeds in
    fold 0 at epoch 2, and a fold follows. *)
Lemma time_exceeded_in_first_fold_general :
  exists w' wd' b,
    DCNNModelWrapper_train (nn_wrapper (params "NN" 3 5 "LC"))
      two_folds_late empty_world = Ok (w', wd') /\
    best_epoch w' = Some (Z.of_nat b) /\
    Params.max_epochs (ModelWrapper.params w') = 0%Z /\
    fit_increments (calls wd') =
      (0 + Z.of_nat (0 * 3 + 2) + Z.max 5 (Z.of_nat b))%Z.
Proof.
  apply (time_exceeded_run (ML := library) (PL := accumulator)
           (nn_wrapper (params "NN" 3 5 "LC")) two_folds_late empty_world
           0%nat [] 10%nat 11%nat [(20, 21)%nat] 2%nat).
  - reflexivity.
  - repeat split.
  - reflexivity.
  - vm_compute. lia.
  - intros k ei Hk. simpl in Hk. lia.
  - intros [|[|ei]] Hei; [reflexivity | reflexivity | lia].
  - reflexivity.
  - intros [|k] Hk; [simpl in Hk; lia | reflexivity].
Defined.

End TimeExceededExample.

(* ===================================================================== *)
(** * flatten_dict: the shape of the result *)
(* ===================================================================== *)

Section FlattenShape.

Import ParameterParser Spec SpecTools.

Lemma dict_get_None_keys {V} k (d : list (string * V)) :
  dict_get k d = None <-> ~ In k (dict_keys d).
Proof.
  induction d as [|[k' v] r IH]; simpl; [tauto|].
  destruct (String.eqb_spec k' k) as [->|Hne].
  - split; [discriminate | intros H; exfalso; apply H; now left].
  - rewrite IH. split; [intros H [E|E]; [congruence | contradiction] | tauto].
Qed.

Lemma dict_set_fresh {V} k (v : V) d :
  dict_get k d = None -> dict_set k v d = d ++ [(k, v)].
Proof.
  induction d as [|[k' v'] r IH]; simpl; [reflexivity|].
  destruct (String.eqb k' k); [discriminate|]. intros H. now rewrite IH.
Qed.

Lemma dict_set_keys {V} k (v : V) d :
  dict_keys (dict_set k v d) =
  if str_in k (dict_keys d) then dict_keys d else dict_keys d ++ [k].
Proof.
  unfold str_in.
  induction d as [|[k' v'] r IH]; simpl; [reflexivity|].
  rewrite (String.eqb_sym k k').
  destruct (String.eqb_spec k' k) as [->|Hne]; simpl; [reflexivity|].
  rewrite IH. now destruct (existsb _ _).
Qed.

Lemma dict_set_nodup {V} k (v : V) d :
  List.NoDup (dict_keys d) -> List.NoDup (dict_keys (dict_set k v d)).
Proof.
  intros H. rewrite dict_set_keys.
  destruct (str_in k (dict_keys d)) eqn:E; [exact H|].
  apply List.NoDup_app; [exact H | repeat constructor; intros [] |].
  intros x Hx [->|[]]. apply str_in_spec in Hx. congruence.
Qed.

Lemma dict_set_In {V} k (v : V) d k0 v0 :
  In (k0, v0) (dict_set k v d) -> (k0, v0) = (k, v) \/ In (k0, v0) d.
Proof.
  induction d as [|[k' v'] r IH]; simpl.
  - intros [H|[]]; left; congruence.
  - destruct (String.eqb k' k); simpl.
    + intros [H|H]; [left; congruence | right; now right].
    + intros [H|H]; [right; now left|].
      destruct (IH H) as [E|E]; [now left | right; now right].
Qed.

Lemma leaves_item_not_dict : forall val key k v,
  In (k, v) (leaves_item key val) -> is_dict v = false.
Proof.
  fix IH 1. intros val key k v.
  destruct val as [ | b | z | q | s | l | d];
    try (intros [[= <- <-]|[]]; reflexivity).
  simpl. induction d as [|[k' v'] r IHr]; [intros []|].
  intros H. apply in_app_or in H as [H|H]; [exact (IH v' k' k v H) | auto].
Qed.

Lemma leaves_not_dict d k v : In (k, v) (leaves d) -> is_dict v = false.
Proof.
  induction d as [|[k' v'] r IH]; simpl; [intros []|].
  intros H. apply in_app_or in H as [H|H];
    [exact (leaves_item_not_dict v' k' k v H) | auto].
Qed.

Lemma store_all_flat l : forall st,
  flat (newdict st) ->
  (forall k v, In (k, v) l -> is_dict v = false) ->
  flat (newdict (store_all l st)).
Proof.
  induction l as [|[k v] l IH]; intros st Hf Hl; [exact Hf|].
  unfold store_all. simpl. apply IH.
  - rewrite store_leaf_newdict. destruct Hf as [Hnd Hv]. split.
    + now apply dict_set_nodup.
    + intros k0 v0 H. apply dict_set_In in H as [[= -> ->]|H].
      * apply (Hl k v). now left.
      * exact (Hv k0 v0 H).
  - intros k0 v0 H. apply (Hl k0 v0). now right.
Qed.

Lemma leaves_of_flat d :
  (forall k v, In (k, v) d -> is_dict v = false) -> leaves d = d.
Proof.
  induction d as [|[k v] r IH]; intros H; [reflexivity|].
  simpl. rewrite IH by (intros k0 v0 H0; apply (H k0 v0); now right).
  specialize (H k v (or_introl eq_refl)). now destruct v.
Qed.

Lemma store_all_fresh l : forall acc lg,
  List.NoDup (dict_keys (acc ++ l)) ->
  store_all l (mkFlat acc lg) = mkFlat (acc ++ l) lg.
Proof.
  induction l as [|[k v] l IH]; intros acc lg H.
  - now rewrite app_nil_r.
  - unfold store_all. simpl.
    assert (Hk : dict_get k acc = None).
    { apply dict_get_None_keys. intros Hin.
      unfold dict_keys in H. rewrite map_app in H. simpl in H.
      apply NoDup_remove_2 in H. apply H, in_or_app. now left. }
    unfold store_leaf. cbn [newdict log]. rewrite Hk.
    rewrite dict_set_fresh by exact Hk.
    replace (acc ++ (k, v) :: l) with ((acc ++ [(k, v)]) ++ l) in *
      by now rewrite <- app_assoc.
    now apply IH.
Qed.

(** The dictionary returned by [flatten_dict] started on an empty
    dictionary is flat: it holds no key twice and no value that is a
    dictionary.  Flattening it again returns it as it is, entry for entry,
    and logs no warning. *)
Theorem flatten_dict_flat_and_stable (inp_dict : pydict) :
  flat (newdict (flatten_dict inp_dict [])) /\
  flatten_dict (newdict (flatten_dict inp_dict [])) [] =
    mkFlat (newdict (flatten_dict inp_dict [])) [].
Proof.
  assert (Hf : flat (newdict (flatten_dict inp_dict []))).
  { unfold flatten_dict. rewrite flatten_items_store_all.
    apply store_all_flat.
    - split; [constructor | intros k v []].
    - apply leaves_not_dict. }
  split; [exact Hf|].
  destruct Hf as [Hnd Hv].
  unfold flatten_dict at 1. rewrite flatten_items_store_all.
  rewrite (leaves_of_flat _ Hv).
  now rewrite store_all_fresh.
Qed.

End FlattenShape.

(* ===================================================================== *)
(** * dict_to_list and to_str *)
(* ===================================================================== *)

Section TokenFacts.

Import ParameterParser ParameterTools Spec SpecTools.

Context {FT : FloatText}.


Lemma dict_del_keys {V} k (d : list (string * V)) x :
  In x (dict_keys (dict_del k d)) -> In x (dict_keys d).
Proof.
  induction d as [|[k' v'] r IH]; simpl; [tauto|].
  destruct (String.eqb k' k); simpl; [tauto|]. intros [H|H]; auto.
Qed.

Lemma dict_get_In {V} k (v : V) d : dict_get k d = Some v -> In (k, v) d.
Proof.
  induction d as [|[k' v'] r IH]; simpl; [discriminate|].
  destruct (String.eqb_spec k' k) as [->|Hne].
  - intros [= ->]. now left.
  - intros H. right. auto.
Qed.



Lemma rename_key_keys keys o n (d : pydict) x :
  In x (dict_keys (rename_key keys (o, n) d)) -> In x (dict_keys d) \/ x = n.
Proof.
  unfold rename_key. destruct (str_in o keys); [|tauto].
  destruct (dict_get o d); [|tauto].
  rewrite dict_set_keys. destruct (str_in n _).
  - intros H. left. eapply dict_del_keys, H.
  - intros H. apply in_app_or in H as [H|[<-|[]]]; [|now right].
    left. eapply dict_del_keys, H.
Qed.



Lemma value_text_no_space v : has_char " " (value_text true v) = false.
Proof.
  unfold value_text, with_spaces_replaced.
  destruct (str_in _ null_options_to_list); [reflexivity|].
  destruct v; apply has_char_replace_char; discriminate.
Qed.

Lemma entry_to_list_no_space k v :
  spaceless k ->
  Forall (fun x => has_char " " x = false) (entry_to_list true (k, v)).
Proof.
  intros Hk. unfold entry_to_list.
  assert (Hflag : has_char " " ("--" +:+ k) = false) by exact Hk.
  destruct (str_in k default_false);
    [destruct (str_in _ true_options); repeat constructor; exact Hflag|].
  destruct (str_in k default_true);
    [destruct (str_in _ false_options); repeat constructor; exact Hflag|].
  repeat constructor; [exact Hflag | apply value_text_no_space].
Qed.

Lemma renamed_keys_spaceless (d : pydict) :
  (forall k, In k (dict_keys d) -> spaceless k) ->
  forall k, In k (dict_keys
              (fold_left (fun d0 kv => rename_key (dict_keys d) kv d0)
                         optional_names_dict d)) -> spaceless k.
Proof.
  intros Hd k. unfold optional_names_dict. cbn [fold_left]. intros H.
  repeat (apply rename_key_keys in H as [H| ->]; [|reflexivity]).
  now apply Hd.
Qed.

(** The text made by [to_str] from a dictionary whose keys have no space
    splits at the spaces into the tokens of [dict_to_list] with
    [replace_spaces=True]: no token holds a space, since the spaces of the
    values are written as ["@"].  (For a dictionary that yields no token the
    text is empty.) *)
Theorem to_str_splits_into_tokens (params_obj : pydict) :
  (forall k, In k (dict_keys params_obj) -> spaceless k) ->
  exists l s,
    dict_to_list (VDict params_obj) true = Ok l /\
    to_str params_obj = Ok s /\
    Forall (fun x => has_char " " x = false) l /\
    (l <> [] -> split_on " " s = l) /\
    (l = [] -> s = "").
Proof.
  intros Hd. unfold to_str. unfold dict_to_list. cbn [bind].
  eexists; eexists. split; [reflexivity|]. split; [reflexivity|].
  pose proof (renamed_keys_spaceless params_obj Hd) as Hk.
  set (d' := fold_left _ optional_names_dict params_obj) in *.
  assert (Hall : Forall (fun x => has_char " " x = false)
                        (concat (map (entry_to_list true) d'))).
  { clearbody d'. induction d' as [|[k v] r IH]; [constructor|].
    cbn [map concat]. apply Forall_app. split.
    - apply entry_to_list_no_space. apply Hk. now left.
    - apply IH. intros k0 H0. apply Hk. now right. }
  split; [exact Hall|]. split.
  - intros Hne. now apply (split_on_join " ").
  - intros ->. reflexivity.
Qed.

End TokenFacts.

(* ===================================================================== *)
(** * postprocess_args: what it leaves alone, and its defaults *)
(* ===================================================================== *)

Section PostprocessFrames.

Import ParameterParser Spec SpecTools.

Context {FT : FloatText}.
Variable load_json : string -> result pyval.

(** The stages of a successful run. *)
Lemma postprocess_inv parsed_args ns :
  postprocess_args load_json parsed_args = Ok ns ->
  exists ns1 ns2 ns3,
    map_result clean_entry parsed_args = Ok ns1 /\
    load_model_filter load_json ns1 = Ok ns2 /\
    check_split_fractions ns2 = Ok tt /\
    default_score_type ns2 = Ok ns3 /\
    convert_lists ns3 = Ok ns.
Proof.
  intros H. unfold postprocess_args in H.
  apply bind_Ok in H as (ns1 & H1 & H).
  apply bind_Ok in H as (ns2 & H2 & H).
  apply bind_Ok in H as ([] & H3 & H).
  apply bind_Ok in H as (ns3 & H4 & H).
  exists ns1, ns2, ns3. repeat split; assumption.
Qed.

Lemma for_each_frame (body : string -> pydict -> result pydict) j :
  (forall i a a', body i a = Ok a' -> j <> i ->
                  dict_get j a' = dict_get j a) ->
  forall L a a', for_each body L a = Ok a' -> ~ In j L ->
                 dict_get j a' = dict_get j a.
Proof.
  intros Hbody. induction L as [|i L IH]; intros a a' H Hj.
  - now injection H as <-.
  - simpl in H. destruct (body i a) as [a1|] eqn:Ha; [|discriminate].
    rewrite (IH a1 a' H) by (intros Hin; apply Hj; now right).
    apply (Hbody i a a1 Ha). intros ->. apply Hj. now left.
Qed.

Lemma hyper_str_item_frame i a a' j :
  hyper_str_item i a = Ok a' -> j <> i -> dict_get j a' = dict_get j a.
Proof.
  unfold hyper_str_item. intros H Hj.
  destruct (getitem a i) as [v|]; simpl in H; [|discriminate].
  destruct (is_None v); [now injection H as <-|].
  destruct (py_split v ",") as [parts|]; simpl in H; [|discriminate].
  destruct (map _ parts) as [|x [|y r]];
    try destruct (negb (String.eqb i "response_cols"));
    injection H as <-; apply dict_get_set_ne; congruence.
Qed.

Lemma hyper_numeric_group_frame i vals st st' j :
  hyper_numeric_group i vals st = Ok st' -> j <> i ->
  dict_get j (snd st') = dict_get j (snd st).
Proof.
  unfold hyper_numeric_group. destruct st as [newlist ns]. intros H Hj.
  destruct (map_result (to_number i) (split_on "," vals)) as [group|];
    simpl in H; [|discriminate].
  destruct (newlist ++ [VList group]) as [|first [|second r]];
    [| destruct group as [|x [|y g]];
       try destruct (negb (str_in i keep_as_list)) |];
    injection H as <-; simpl; apply dict_get_set_ne; congruence.
Qed.

Lemma hyper_numeric_item_frame i a a' j :
  hyper_numeric_item i a = Ok a' -> j <> i -> dict_get j a' = dict_get j a.
Proof.
  unfold hyper_numeric_item. intros H Hj.
  destruct (getitem a i) as [v|]; simpl in H; [|discriminate].
  destruct (is_None v); [now injection H as <-|].
  destruct (py_split v " ") as [groups|]; simpl in H; [|discriminate].
  apply bind_Ok in H as (st & Hst & H). injection H as <-.
  assert (Hgen : forall gs s0 s1,
             for_each (hyper_numeric_group i) gs s0 = Ok s1 ->
             dict_get j (snd s1) = dict_get j (snd s0)).
  { induction gs as [|g gs IH]; intros s0 s1 H0.
    - now injection H0 as <-.
    - simpl in H0.
      destruct (hyper_numeric_group i g s0) as [s2|] eqn:E; [|discriminate].
      rewrite (IH s2 s1 H0).
      now apply (hyper_numeric_group_frame i g s0 s2 j E). }
  exact (Hgen groups _ _ Hst).
Qed.

(** The conversion of lists changes only the parameters it converts. *)
Lemma convert_lists_frame a a' j :
  convert_lists a = Ok a' ->
  ~ In j (convert_to_str_list ++ convert_to_numeric_list) ->
  dict_get j a' = dict_get j a.
Proof.
  unfold convert_lists. intros H Hj.
  assert (Hs : ~ In j convert_to_str_list)
    by (intros ?; apply Hj, in_or_app; now left).
  assert (Hn : ~ In j convert_to_numeric_list)
    by (intros ?; apply Hj, in_or_app; now right).
  destruct (getattr a "hyperparam") as [h|]; cbn [bind] in H; [|discriminate].
  destruct (py_truthy h).
  - apply bind_Ok in H as (a1 & H1 & H).
    rewrite (for_each_frame hyper_numeric_item j
               (fun i x y => hyper_numeric_item_frame i x y j) _ _ _ H Hn).
    exact (for_each_frame hyper_str_item j
             (fun i x y => hyper_str_item_frame i x y j) _ _ _ H1 Hs).
  - apply bind_Ok in H as (a1 & H1 & H).
    apply bind_Ok in H as (a2 & H2 & H).
    apply checks_not_a_str_list_same in H2. subst a2.
    apply bind_Ok in H as (a3 & H3 & H).
    apply bind_Ok in H as ([] & _ & H). injection H as <-.
    rewrite (split_response_cols_frame _ _ j H3)
      by (intros ->; apply Hs; now left).
    exact (numeric_items_frame _ _ _ j H1 Hn).
Qed.

(** A parameter that is neither [model_filter] nor
    [model_choice_score_type] nor one of the parameters converted to lists
    comes out of [postprocess_args] as the first loop leaves it: [None] for
    a null word, the text with every ["@"] turned into a space, or the value
    itself; and a name that is not in the namespace is not added. *)
Theorem postprocess_args_keeps_other_parameters (parsed_args ns : pydict)
  (j : string) :
  postprocess_args load_json parsed_args = Ok ns ->
  ~ In j ("model_filter" :: "model_choice_score_type" ::
          convert_to_str_list ++ convert_to_numeric_list) ->
  dict_get j ns =
  match dict_get j parsed_args with
  | Some v => match clean_value v with
              | Ok v' => Some v'
              | Raise _ => None
              end
  | None => None
  end.
Proof.
  intros H Hj.
  apply postprocess_inv in H as (ns1 & ns2 & ns3 & H1 & H2 & _ & H4 & H5).
  rewrite (convert_lists_frame _ _ j H5)
    by (intros Hin; apply Hj; right; right; exact Hin).
  rewrite (default_score_type_frame _ _ j H4)
    by (intros ->; apply Hj; right; now left).
  rewrite (load_model_filter_frame load_json _ _ j H2)
    by (intros ->; apply Hj; now left).
  exact (clean_entries_get _ _ H1 j).
Qed.

Lemma replace_char_inverse c d s :
  has_char d s = false -> replace_char d c (replace_char c d s) = s.
Proof.
  induction s as [|a r IH]; [reflexivity|].
  simpl. intros H. apply orb_false_iff in H as [Ha Hr].
  rewrite (IH Hr). f_equal.
  destruct (Ascii.eqb a c) eqn:E.
  - rewrite Ascii.eqb_refl. symmetry. now apply Ascii.eqb_eq.
  - now rewrite Ha.
Qed.

Lemma replace_char_absent c d s :
  has_char c s = false -> replace_char c d s = s.
Proof.
  induction s as [|a r IH]; [reflexivity|].
  simpl. intros H. apply orb_false_iff in H as [Ha Hr].
  now rewrite Ha, (IH Hr).
Qed.

Lemma null_option_no_space s :
  str_in s null_options = true -> has_char " " s = false.
Proof.
  intros H. apply str_in_spec in H. simpl in H.
  repeat (destruct H as [<-|H]; [reflexivity|]). destruct H.
Qed.

(** The first loop undoes the replacement of spaces made by [to_str]. *)
Lemma clean_value_restores_spaces s :
  has_char "@" s = false ->
  clean_value (VStr (replace_char " " "@" s)) =
  Ok (if str_in s null_options then VNone else VStr s).
Proof.
  intros Hat. unfold clean_value. cbn [at_in_str in_null_options].
  destruct (has_char " " s) eqn:Hsp.
  - rewrite (has_char_replaced " " "@" s Hsp).
    rewrite (replace_char_inverse " " "@" s) by exact Hat.
    destruct (str_in s null_options) eqn:Hn; [|reflexivity].
    apply null_option_no_space in Hn. congruence.
  - rewrite (replace_char_absent " " "@" s Hsp), Hat. reflexivity.
Qed.

(** A text written by [to_str], with its spaces as ["@"], comes back from
    [postprocess_args] with its spaces: for a parameter outside the
    converted ones whose text [s] holds no ["@"] of its own, the namespace
    returned holds [s] again (or [None] when [s] is a null word). *)
Theorem postprocess_args_restores_spaces (parsed_args ns : pydict)
  (j s : string) :
  postprocess_args load_json parsed_args = Ok ns ->
  ~ In j ("model_filter" :: "model_choice_score_type" ::
          convert_to_str_list ++ convert_to_numeric_list) ->
  dict_get j parsed_args = Some (VStr (replace_char " " "@" s)) ->
  has_char "@" s = false ->
  dict_get j ns = Some (if str_in s null_options then VNone else VStr s).
Proof.
  intros H Hj Hv Hat.
  apply postprocess_inv in H as (ns1 & ns2 & ns3 & H1 & H2 & _ & H4 & H5).
  rewrite (convert_lists_frame _ _ j H5)
    by (intros Hin; apply Hj; right; right; exact Hin).
  rewrite (default_score_type_frame _ _ j H4)
    by (intros ->; apply Hj; right; now left).
  rewrite (load_model_filter_frame load_json _ _ j H2)
    by (intros ->; apply Hj; now left).
  rewrite (clean_entries_get _ _ H1 j), Hv.
  now rewrite clean_value_restores_spaces.
Qed.

End PostprocessFrames.

(* ===================================================================== *)
(** * postprocess_args: defaults, checks and single values *)
(* ===================================================================== *)

Section PostprocessValues.

Import ParameterParser Spec SpecTools.

Context {FT : FloatText}.
Variable load_json : string -> result pyval.

Lemma null_option_no_comma s :
  str_in s null_options = true -> has_char "," s = false.
Proof.
  intros H. apply str_in_spec in H. simpl in H.
  repeat (destruct H as [<-|H]; [reflexivity|]). destruct H.
Qed.

(** What the first loop makes of [prediction_type] equals
    ['classification'] exactly when the text given does. *)
Lemma clean_prediction_type pt v :
  clean_value (VStr pt) = Ok v ->
  py_eq v (VStr "classification") = String.eqb pt "classification".
Proof.
  unfold clean_value. cbn [at_in_str in_null_options].
  destruct (has_char "@" pt) eqn:Hat.
  - intros [= <-]. cbn [py_eq].
    destruct (String.eqb_spec pt "classification") as [->|Hne];
      [discriminate|].
    apply String.eqb_neq. intros E.
    pose proof (has_char_replaced "@" " " pt Hat) as Hsp.
    rewrite E in Hsp. discriminate.
  - destruct (str_in pt null_options) eqn:Hn; intros [= <-]; [|reflexivity].
    cbn [py_eq num_of]. symmetry. apply String.eqb_neq. intros ->.
    discriminate.
Qed.

Lemma score_type_not_converted :
  ~ In "model_choice_score_type"
       (convert_to_str_list ++ convert_to_numeric_list).
Proof.
  unfold convert_to_str_list, convert_to_numeric_list,
    convert_to_float_list, convert_to_int_list. simpl.
  intuition discriminate.
Qed.

(** When no [model_choice_score_type] is given, the namespace returned by
    [postprocess_args] holds ['roc_auc'] for the prediction type
    ['classification'] and ['r2'] for any other one. *)
Theorem model_choice_score_type_default (parsed_args ns : pydict)
  (pt : string) :
  postprocess_args load_json parsed_args = Ok ns ->
  dict_get "model_choice_score_type" parsed_args = Some VNone ->
  dict_get "prediction_type" parsed_args = Some (VStr pt) ->
  dict_get "model_choice_score_type" ns =
  Some (VStr (if String.eqb pt "classification" then "roc_auc" else "r2")).
Proof.
  intros H Hs Hp.
  apply postprocess_inv in H as (ns1 & ns2 & ns3 & H1 & H2 & _ & H4 & H5).
  rewrite (convert_lists_frame _ _ _ H5 score_type_not_converted).
  assert (Hs2 : dict_get "model_choice_score_type" ns2 = Some VNone).
  { rewrite (load_model_filter_frame load_json _ _ _ H2) by discriminate.
    now rewrite (clean_entries_get _ _ H1), Hs. }
  assert (Hp2 : dict_get "prediction_type" ns2 =
                match clean_value (VStr pt) with
                | Ok v' => Some v'
                | Raise _ => None
                end).
  { rewrite (load_model_filter_frame load_json _ _ _ H2) by discriminate.
    now rewrite (clean_entries_get _ _ H1), Hp. }
  unfold default_score_type, getattr in H4. rewrite Hs2 in H4.
  cbn [bind is_None] in H4. rewrite Hp2 in H4.
  destruct (clean_value (VStr pt)) as [v|] eqn:Hc; [|discriminate].
  cbn [bind] in H4. rewrite (clean_prediction_type pt v Hc) in H4.
  destruct (String.eqb pt "classification"); injection H4 as <-;
    apply dict_get_set_eq.
Qed.

(** With [split_strategy = 'k_fold_cv'] and [split_test_frac >= 1.0],
    [postprocess_args] raises, and with the exception of the split check
    when the two steps before the check go through.  The validation
    fraction plays no part for this strategy. *)
Theorem k_fold_test_fraction_rejected (parsed_args : pydict) (test : Q) :
  dict_get "split_strategy" parsed_args = Some (VStr "k_fold_cv") ->
  dict_get "split_test_frac" parsed_args = Some (VFloat test) ->
  (1 <= test)%Q ->
  raises (postprocess_args load_json parsed_args) /\
  (forall ns1 ns2,
      map_result clean_entry parsed_args = Ok ns1 ->
      load_model_filter load_json ns1 = Ok ns2 ->
      postprocess_args load_json parsed_args =
      Raise (Exception
        "Split fraction for test set leaves no room for training and validation data.")).
Proof.
  intros Hs Ht Hge.
  assert (Hcheck : forall ns1 ns2,
             map_result clean_entry parsed_args = Ok ns1 ->
             load_model_filter load_json ns1 = Ok ns2 ->
             check_split_fractions ns2 =
             Raise (Exception
               "Split fraction for test set leaves no room for training and validation data.")).
  { intros ns1 ns2 H1 H2. unfold check_split_fractions, getattr.
    rewrite !(load_model_filter_frame load_json _ _ _ H2) by discriminate.
    rewrite !(clean_entries_get _ _ H1), Hs, Ht.
    cbn [clean_value at_in_str in_null_options has_char].
    change (str_in "k_fold_cv" null_options) with false.
    cbn [bind py_ge_num num_of].
    change (py_eq (VStr "k_fold_cv") (VStr "train_valid_test")) with false.
    change (py_eq (VStr "k_fold_cv") (VStr "k_fold_cv")) with true.
    cbv iota. cbn [bind py_ge_num num_of].
    apply Qle_bool_iff in Hge. now rewrite Hge. }
  split.
  - unfold raises, postprocess_args.
    destruct (map_result clean_entry parsed_args) as [ns1|e] eqn:H1;
      [|now exists e].
    cbn [bind].
    destruct (load_model_filter load_json ns1) as [ns2|e] eqn:H2;
      [|now exists e].
    cbn [bind]. rewrite (Hcheck ns1 ns2 eq_refl H2). now eexists.
  - intros ns1 ns2 H1 H2. unfold postprocess_args.
    rewrite H1. cbn [bind]. rewrite H2. cbn [bind].
    now rewrite (Hcheck ns1 ns2 H1 H2).
Qed.

End PostprocessValues.

(* ===================================================================== *)
(** * postprocess_args outside hyperparameter mode: numbers and lists *)
(* ===================================================================== *)

Section PostprocessNumbers.

Import ParameterParser Spec SpecTools.

Context {FT : FloatText}.
Variable load_json : string -> result pyval.

Lemma split_on_two sep s :
  has_char sep s = true -> exists x y r, split_on sep s = x :: y :: r.
Proof.
  induction s as [|c s IH]; [discriminate|].
  simpl. destruct (Ascii.eqb c sep) eqn:E.
  - intros _. destruct (split_on sep s) as [|h t] eqn:Hs.
    + now apply split_on_nonempty in Hs.
    + eauto.
  - simpl. intros H. destruct (IH H) as (x & y & r & ->). eauto.
Qed.

(** A text with a comma is stored as a list, which the parameters of
    [not_a_list_outside_of_hyperparams] do not accept. *)
Lemma numeric_value_list_rejected k s :
  In k not_a_list_outside_of_hyperparams ->
  has_char "," s = true ->
  raises (numeric_value k (VStr s)).
Proof.
  intros Hk Hc. unfold numeric_value, raises. cbn [py_split bind].
  destruct (split_on_two "," s Hc) as (x & y & r & Hs).
  destruct (map_result (to_number k) (split_on "," s)) as [nl|e] eqn:Hnl;
    [|now exists e].
  cbn [bind].
  pose proof (map_result_length _ _ _ Hnl) as Hlen. rewrite Hs in Hlen.
  destruct nl as [|a [|b nl]]; try discriminate.
  apply str_in_spec in Hk. rewrite Hk. now eexists.
Qed.

Lemma numeric_items_raise L k v : forall a,
  In k L -> dict_get k a = Some v -> is_None v = false ->
  raises (numeric_value k v) ->
  raises (for_each numeric_item L a).
Proof.
  induction L as [|i L IH]; intros a Hin Hv Hn Hr; [destruct Hin|].
  cbn [for_each].
  destruct (numeric_item i a) as [a1|e] eqn:Ha; [|now exists e].
  destruct (String.eqb_spec i k) as [->|Hne].
  - unfold numeric_item, getitem in Ha. rewrite Hv in Ha.
    cbn [bind] in Ha. rewrite Hn in Ha.
    destruct Hr as [e He]. rewrite He in Ha. discriminate.
  - destruct Hin as [E|Hin]; [congruence|].
    apply (IH a1 Hin); [|exact Hn|exact Hr].
    rewrite (numeric_item_frame i a a1 k Ha) by congruence. exact Hv.
Qed.

Lemma not_a_list_is_numeric k :
  In k not_a_list_outside_of_hyperparams ->
  In k convert_to_numeric_list /\ k <> "model_filter" /\
  k <> "model_choice_score_type".
Proof.
  unfold not_a_list_outside_of_hyperparams. simpl.
  intros H.
  repeat (destruct H as [<-|H];
          [split; [simpl; tauto | split; discriminate]|]).
  destruct H.
Qed.

(** Outside hyperparameter mode, a parameter of
    [not_a_list_outside_of_hyperparams] (such as [learning_rate]) given as
    a text with a comma makes [postprocess_args] raise: no namespace is
    returned. *)
Theorem list_rejected_outside_hyperparam (parsed_args : pydict)
  (k s : string) :
  In k not_a_list_outside_of_hyperparams ->
  dict_get k parsed_args = Some (VStr s) ->
  has_char "," s = true ->
  has_char "@" s = false ->
  dict_get "hyperparam" parsed_args = Some (VBool false) ->
  raises (postprocess_args load_json parsed_args).
Proof.
  intros Hk Hv Hc Hat Hh.
  destruct (not_a_list_is_numeric k Hk) as (Hnum & Hmf & Hsc).
  assert (Hnull : str_in s null_options = false).
  { destruct (str_in s null_options) eqn:E; [|reflexivity].
    apply null_option_no_comma in E. congruence. }
  unfold raises, postprocess_args.
  destruct (map_result clean_entry parsed_args) as [ns1|e] eqn:H1;
    [|now exists e].
  cbn [bind].
  destruct (load_model_filter load_json ns1) as [ns2|e] eqn:H2;
    [|now exists e].
  cbn [bind].
  destruct (check_split_fractions ns2) as [[]|e]; [|now exists e].
  cbn [bind].
  destruct (default_score_type ns2) as [ns3|e] eqn:H4; [|now exists e].
  cbn [bind].
  assert (Hget : forall j v v', j <> "model_filter" ->
            j <> "model_choice_score_type" ->
            dict_get j parsed_args = Some v -> clean_value v = Ok v' ->
            dict_get j ns3 = Some v').
  { intros j v v' Hj1 Hj2 Hjv Hcv.
    rewrite (default_score_type_frame _ _ _ H4) by exact Hj2.
    rewrite (load_model_filter_frame load_json _ _ _ H2) by exact Hj1.
    now rewrite (clean_entries_get _ _ H1), Hjv, Hcv. }
  unfold convert_lists, getattr.
  rewrite (Hget "hyperparam" (VBool false) (VBool false))
    by (discriminate || assumption || reflexivity).
  cbn [bind py_truthy].
  destruct (numeric_items_raise convert_to_numeric_list k (VStr s) ns3 Hnum)
    as [e He].
  - apply (Hget k (VStr s)); try assumption.
    now apply clean_value_fixed.
  - reflexivity.
  - now apply numeric_value_list_rejected.
  - rewrite He. now exists e.
Qed.

Lemma int_key_facts k :
  In k convert_to_int_list ->
  In k convert_to_numeric_list /\ k <> "model_filter" /\
  k <> "model_choice_score_type" /\ k <> "response_cols" /\
  str_in k convert_to_int_list = true /\
  (str_in k keep_as_list = true ->
   str_in k not_a_list_outside_of_hyperparams = false).
Proof.
  unfold convert_to_int_list. simpl. intros H.
  repeat (destruct H as [<-|H];
          [split; [simpl; tauto |
           repeat split; (discriminate || reflexivity)]|]).
  destruct H.
Qed.

(** Outside hyperparameter mode, an integer parameter given as the text of
    one integer comes out of [postprocess_args] as that integer, and as the
    one-element list of it when the parameter is in [keep_as_list]
    ([layer_sizes], [layer_nums]). *)
Theorem single_integer_parameter (parsed_args ns : pydict) (k : string)
  (z : Z) :
  postprocess_args load_json parsed_args = Ok ns ->
  dict_get "hyperparam" parsed_args = Some (VBool false) ->
  In k convert_to_int_list ->
  dict_get k parsed_args = Some (VStr (str_int z)) ->
  dict_get k ns =
  Some (if str_in k keep_as_list then VList [VInt z] else VInt z).
Proof.
  intros H Hh Hk Hv.
  destruct (int_key_facts k Hk) as (Hnum & Hmf & Hsc & Hrc & Hint & Hkeep).
  apply postprocess_normal_inv in H
    as (ns1 & ns2 & ns3 & ns4 & H1 & H2 & _ & H4 & _ & H5 & _ & H7 & _);
    [|exact Hh].
  rewrite (split_response_cols_frame _ _ k H7) by exact Hrc.
  assert (Hv3 : dict_get k ns3 = Some (VStr (str_int z))).
  { rewrite (default_score_type_frame _ _ _ H4) by exact Hsc.
    rewrite (load_model_filter_frame load_json _ _ _ H2) by exact Hmf.
    rewrite (clean_entries_get _ _ H1), Hv.
    rewrite clean_value_fixed; [reflexivity | |].
    - apply str_int_no_char; (reflexivity || discriminate).
    - exact (int_text_not_null [z]). }
  destruct (numeric_items_value _ _ _ k numeric_keys_nodup Hnum H5)
    as (v & Hv' & [[Hn _]|[_ (x & Hx & ->)]]);
    rewrite Hv3 in Hv'; injection Hv' as <-; [discriminate|].
  f_equal. unfold numeric_value in Hx. cbn [py_split bind] in Hx.
  rewrite split_on_no_sep in Hx
    by (apply str_int_no_char; (reflexivity || discriminate)).
  cbn [map_result] in Hx.
  destruct (int_faithful k z Hint) as (Hto & _).
  change (py_str (VInt z)) with (str_int z) in Hto. rewrite Hto in Hx.
  cbn [bind] in Hx.
  destruct (str_in k keep_as_list) eqn:Hkl; cbn [negb] in Hx.
  - rewrite (Hkeep eq_refl) in Hx. cbn [andb] in Hx. now injection Hx as <-.
  - rewrite andb_false_r in Hx. now injection Hx as <-.
Qed.

End PostprocessNumbers.

(* ===================================================================== *)
(** * The duplicate check, and the arguments that override a file *)
(* ===================================================================== *)

Section OverrideFacts.

Import ParameterParser ParameterTools Spec SpecTools.

Context {FT : FloatText}.
Variable load_json : string -> result pyval.
Variable parse_args : cl_args -> result pydict.
Variable eval_single : string -> result pydict.

Lemma count_of_cons x a l :
  count_of x (a :: l) =
  ((if String.eqb a x then 1 else 0) + count_of x l)%nat.
Proof.
  unfold count_of. rewrite filter_cons.
  destruct (decide (a = x)) as [->|Hne].
  - now rewrite String.eqb_refl.
  - apply String.eqb_neq in Hne. now rewrite Hne.
Qed.

Lemma count_of_zero x l : ~ In x l -> count_of x l = 0%nat.
Proof.
  induction l as [|a l IH]; [reflexivity|].
  intros H. rewrite count_of_cons, IH by (intros ?; apply H; now right).
  destruct (String.eqb_spec a x) as [->|]; [|reflexivity].
  exfalso. apply H. now left.
Qed.

Lemma count_of_nodup l x : List.NoDup l -> (count_of x l <= 1)%nat.
Proof.
  induction 1 as [|a l Ha Hl IH]; [unfold count_of; simpl; lia|].
  rewrite count_of_cons.
  destruct (String.eqb_spec a x) as [->|]; [|lia].
  rewrite count_of_zero by exact Ha. lia.
Qed.

Lemma count_of_In x l : In x l -> (1 <= count_of x l)%nat.
Proof.
  induction l as [|a l IH]; [intros []|].
  rewrite count_of_cons. intros [->|H].
  - rewrite String.eqb_refl. lia.
  - specialize (IH H). lia.
Qed.

Lemma nodup_of_counts l :
  (forall x, In x l -> (count_of x l <= 1)%nat) -> List.NoDup l.
Proof.
  induction l as [|a l IH]; intros H; constructor.
  - intros Ha. specialize (H a (or_introl eq_refl)).
    rewrite count_of_cons, String.eqb_refl in H.
    apply count_of_In in Ha. lia.
  - apply IH. intros x Hx. specialize (H x (or_intror Hx)).
    rewrite count_of_cons in H. lia.
Qed.

(** The set of duplicates is empty exactly when no token that contains
    ["--"] occurs twice. *)
Lemma duplicates_empty l :
  (0 <? size (duplicates (just_args l)))%nat = false <-> no_repeated_flag l.
Proof.
  unfold no_repeated_flag. split.
  - intros H. apply nodup_of_counts. intros x Hx.
    destruct (le_lt_dec (count_of x (just_args l)) 1) as [Hle|Hgt];
      [exact Hle|].
    assert (Hd : x ∈ duplicates (just_args l)).
    { unfold duplicates. apply elem_of_list_to_set, list_elem_of_filter.
      split; [lia | now apply list_elem_of_In]. }
    apply size_pos_of_elem in Hd. congruence.
  - intros H. apply Nat.ltb_ge.
    assert (E : duplicates (just_args l) = ∅).
    { unfold duplicates. apply set_eq. intros x. split; [|set_solver].
      intros Hx. apply elem_of_list_to_set, list_elem_of_filter in Hx
        as [Hc _].
      pose proof (count_of_nodup _ x H). lia. }
    rewrite E, size_empty. lia.
Qed.

Lemma parse_command_line_checked (l : list string) :
  (no_repeated_flag l ->
   parse_command_line load_json parse_args (ArgsList l) =
   bind (parse_args (ArgsList l)) (postprocess_args load_json)) /\
  (~ no_repeated_flag l ->
   parse_command_line load_json parse_args (ArgsList l) =
   Raise (duplicate_error (duplicates (just_args l)))).
Proof.
  unfold parse_command_line. split; intros H.
  - apply duplicates_empty in H. now rewrite H.
  - destruct (0 <? size (duplicates (just_args l)))%nat eqn:E;
      [reflexivity|].
    apply duplicates_empty in E. contradiction.
Qed.

(** [parse_command_line] on a list of tokens: when no token that contains
    ["--"] occurs twice, the result is that of [postprocess_args] on what
    the argument parser returns; otherwise it is the [ValueError] of the
    duplicate check, and neither the parser nor [postprocess_args] runs. *)
Theorem parse_command_line_duplicate_check (l : list string) :
  (no_repeated_flag l ->
   parse_command_line load_json parse_args (ArgsList l) =
   bind (parse_args (ArgsList l)) (postprocess_args load_json)) /\
  (~ no_repeated_flag l ->
   parse_command_line load_json parse_args (ArgsList l) =
   Raise (duplicate_error (duplicates (just_args l)))).
Proof. exact (parse_command_line_checked l). Qed.

Lemma just_args_app a b : just_args (a ++ b) = just_args a ++ just_args b.
Proof. unfold just_args. apply filter_app. Qed.

Lemma just_args_cons_flag x l :
  str_contains "--" x = true -> just_args (x :: l) = x :: just_args l.
Proof. intros H. unfold just_args. now rewrite filter_cons_True. Qed.

Lemma just_args_cons_value x l :
  str_contains "--" x = false -> just_args (x :: l) = just_args l.
Proof.
  intros H. unfold just_args. rewrite filter_cons_False; [reflexivity|].
  congruence.
Qed.

Lemma just_args_In x l :
  In x (just_args l) <-> In x l /\ str_contains "--" x = true.
Proof.
  unfold just_args. rewrite <- !list_elem_of_In, list_elem_of_filter. tauto.
Qed.

(** The list around the first occurrence of a token. *)
Lemma index_of_split x l :
  str_in x l = true ->
  l = take (index_of x l) l ++ x :: drop (S (index_of x l)) l.
Proof.
  unfold str_in. induction l as [|y l IH]; [discriminate|].
  simpl. rewrite (String.eqb_sym x y).
  destruct (String.eqb_spec y x) as [->|Hne]; simpl; [reflexivity|].
  intros H. now rewrite <- (IH H).
Qed.

(** One overriding argument: its occurrence in the list of the file is
    removed, and nothing is added. *)
Lemma drop_overridden_spec item l l' :
  str_contains "--" item = true ->
  List.NoDup (just_args l) ->
  drop_overridden item l = Ok l' ->
  List.NoDup (just_args l') /\ ~ In item (just_args l') /\
  (forall x, In x (just_args l') -> In x (just_args l)).
Proof.
  intros Hitem Hnd. unfold drop_overridden.
  destruct (str_in item l) eqn:Hin.
  - pose proof (index_of_split item l Hin) as Hs.
    set (idx := index_of item l) in *.
    destruct (l !! S idx) as [next|] eqn:Hnext; [|discriminate].
    assert (Hd : drop (S idx) l = next :: drop (S (S idx)) l).
    { now apply drop_S. }
    assert (Hja : just_args l =
                  just_args (take idx l) ++ item :: just_args (drop (S idx) l)).
    { rewrite Hs at 1.
      now rewrite just_args_app, just_args_cons_flag. }
    rewrite Hja in Hnd.
    pose proof (NoDup_remove_1 _ _ _ Hnd) as Hnd1.
    pose proof (NoDup_remove_2 _ _ _ Hnd) as Hni.
    replace (idx + 1)%nat with (S idx) by lia.
    replace (idx + 2)%nat with (S (S idx)) by lia.
    destruct (str_contains "--" next) eqn:Hn; intros [= <-];
      rewrite just_args_app.
    + split; [exact Hnd1|]. split; [exact Hni|].
      intros x Hx. rewrite Hja. apply in_app_or in Hx as [Hx|Hx];
        apply in_or_app; [now left | right; now right].
    + rewrite Hd, just_args_cons_value in Hnd1, Hni, Hja by exact Hn.
      split; [exact Hnd1|]. split; [exact Hni|].
      intros x Hx. rewrite Hja. apply in_app_or in Hx as [Hx|Hx];
        apply in_or_app; [now left | right; now right].
  - intros [= <-]. split; [exact Hnd|]. split; [|tauto].
    intros Hx. apply just_args_In in Hx as [Hx _].
    apply str_in_spec in Hx. congruence.
Qed.

Lemma drop_all_overridden_spec items : forall l l',
  (forall x, In x items -> str_contains "--" x = true) ->
  List.NoDup (just_args l) ->
  for_each drop_overridden items l = Ok l' ->
  List.NoDup (just_args l') /\
  (forall x, In x items -> ~ In x (just_args l')) /\
  (forall x, In x (just_args l') -> In x (just_args l)).
Proof.
  induction items as [|item items IH]; intros l l' Hi Hnd H.
  - injection H as <-. split; [exact Hnd|]. split; [intros x []|tauto].
  - cbn [for_each] in H.
    destruct (drop_overridden item l) as [l1|] eqn:H1; [|discriminate].
    destruct (drop_overridden_spec item l l1 (Hi item (or_introl eq_refl))
                Hnd H1) as (Hnd1 & Hni1 & Hsub1).
    destruct (IH l1 l' (fun x Hx => Hi x (or_intror Hx)) Hnd1 H)
      as (Hnd' & Hni' & Hsub').
    split; [exact Hnd'|]. split.
    + intros x [<-|Hx]; [|now apply Hni'].
      intros Hin. apply Hni1. now apply Hsub'.
    + intros x Hx. apply Hsub1. now apply Hsub'.
Qed.

(** The arguments given on the command line after [--config_file FILE]
    override those of the file instead of clashing with them: when no flag
    is repeated within the list made from the file nor within the arguments
    that follow, and the merge goes through, no flag is repeated in the
    merged list, every argument that follows the file is at its end, and
    [wrapper] returns what the argument parser and [postprocess_args] make
    of the merged list, the duplicate check being passed. *)
Theorem override_after_config_file (path : string)
  (list_inp rest merged : list string) :
  parse_config_file load_json parse_args path = Ok list_inp ->
  no_repeated_flag list_inp ->
  no_repeated_flag rest ->
  merge_overrides list_inp rest = Ok merged ->
  no_repeated_flag merged /\
  (exists kept, merged = kept ++ rest /\
     forall x, In x (just_args kept) ->
       In x (just_args list_inp) /\ ~ In x (just_args rest)) /\
  wrapper load_json parse_args eval_single
    [WList ("--config_file" :: path :: rest)] =
  bind (parse_args (ArgsList merged)) (postprocess_args load_json).
Proof.
  intros Hfile Hl Hr Hm.
  assert (Hmerged : no_repeated_flag merged /\
    exists kept, merged = kept ++ rest /\
      forall x, In x (just_args kept) ->
        In x (just_args list_inp) /\ ~ In x (just_args rest)).
  { unfold merge_overrides in Hm. destruct rest as [|r0 rest'].
    - injection Hm as <-. split; [exact Hl|].
      exists list_inp. rewrite app_nil_r. split; [reflexivity|].
      intros x Hx. split; [exact Hx | intros []].
    - apply bind_Ok in Hm as (kept & Hk & Hm). injection Hm as <-.
      destruct (drop_all_overridden_spec (just_args (r0 :: rest'))
                  list_inp kept) as (Hnd & Hni & Hsub);
        [intros x Hx; now apply just_args_In in Hx | exact Hl | exact Hk |].
      split.
      + unfold no_repeated_flag. rewrite just_args_app.
        apply List.NoDup_app; [exact Hnd | exact Hr |].
        intros x Hx Hx'. exact (Hni x Hx' Hx).
      + exists kept. split; [reflexivity|].
        intros x Hx. split; [now apply Hsub|].
        intros Hx'. exact (Hni x Hx' Hx). }
  destruct Hmerged as [Hnd Hkept]. split; [exact Hnd|]. split; [exact Hkept|].
  unfold wrapper. cbn [String.eqb Ascii.eqb Bool.eqb orb].
  rewrite Hfile. cbn [bind]. rewrite Hm. cbn [bind].
  now apply parse_command_line_checked.
Qed.

End OverrideFacts.

(* ===================================================================== *)
(** * prune_defaults *)
(* ===================================================================== *)

Section PruneFacts.

Import ParameterParser ParameterTools Spec SpecTools.

Context {FT : FloatText}.
Variable get_default : string -> pyval.

Lemma nodup_keys_app_l {V} (a b : list (string * V)) :
  List.NoDup (dict_keys (a ++ b)) -> List.NoDup (dict_keys a).
Proof.
  unfold dict_keys. rewrite map_app. apply NoDup_app_remove_r.
Qed.

(** The loop of [prune_defaults] with [new_dict] holding [acc]. *)
Lemma prune_fold keep l : forall acc,
  List.NoDup (dict_keys (acc ++ l)) ->
  fold_left (fun new_dict kv =>
               let '(key, value) := kv in
               if str_in key keep ||
                  negb (py_eq (get_default key) value ||
                        py_eq (get_default key) (VStr (py_str value)))
               then dict_set key value new_dict
               else new_dict) l acc =
  acc ++ List.filter (fun kv => pruned_in get_default keep (fst kv) (snd kv)) l.
Proof.
  induction l as [|[k v] l IH]; intros acc H.
  - now rewrite app_nil_r.
  - cbn [fold_left List.filter fst snd].
    assert (Hk : dict_get k acc = None).
    { apply dict_get_None_keys. intros Hin.
      unfold dict_keys in H. rewrite map_app in H. simpl in H.
      apply NoDup_remove_2 in H. apply H, in_or_app. now left. }
    change (str_in k keep ||
            negb (py_eq (get_default k) v ||
                  py_eq (get_default k) (VStr (py_str v))))
      with (pruned_in get_default keep k v).
    destruct (pruned_in get_default keep k v).
    + rewrite dict_set_fresh by exact Hk.
      rewrite IH by (now rewrite <- app_assoc).
      now rewrite <- app_assoc.
    + apply IH. unfold dict_keys in *. rewrite map_app in *. simpl in H.
      exact (NoDup_remove_1 _ _ _ H).
Qed.

Lemma dict_get_filter (f : string * pyval -> bool) (d : pydict) k :
  List.NoDup (dict_keys d) ->
  dict_get k (List.filter f d) =
  match dict_get k d with
  | Some v => if f (k, v) then Some v else None
  | None => None
  end.
Proof.
  induction d as [|[k0 v0] d IH]; intros H; [reflexivity|].
  simpl in H. inversion H as [|? ? Hk0 Hd]; subst.
  cbn [List.filter dict_get].
  destruct (String.eqb_spec k0 k) as [->|Hne].
  - destruct (f (k, v0)); cbn [dict_get];
      [now rewrite String.eqb_refl|].
    rewrite (IH Hd).
    assert (E : dict_get k d = None) by now apply dict_get_None_keys.
    now rewrite E.
  - destruct (f (k0, v0)); cbn [dict_get]; [|now apply IH].
    apply String.eqb_neq in Hne. rewrite Hne. now apply IH.
Qed.

Lemma filter_keys_nodup (f : string * pyval -> bool) (d : pydict) :
  List.NoDup (dict_keys d) -> List.NoDup (dict_keys (List.filter f d)).
Proof.
  induction d as [|[k0 v0] d IH]; intros H; [constructor|].
  simpl in H. inversion H as [|? ? Hk0 Hd]; subst.
  cbn [List.filter]. destruct (f (k0, v0)); [|now apply IH].
  simpl. constructor; [|now apply IH].
  intros Hin. apply Hk0. unfold dict_keys in *.
  apply in_map_iff in Hin as ([k v] & <- & Hin).
  apply filter_In in Hin as [Hin _]. now apply (in_map fst) in Hin.
Qed.

Lemma filter_twice {A} (f : A -> bool) l :
  List.filter f (List.filter f l) = List.filter f l.
Proof.
  induction l as [|x l IH]; [reflexivity|].
  simpl. destruct (f x) eqn:E; [|exact IH].
  simpl. now rewrite E, IH.
Qed.

(** [prune_defaults] returns the entries of [params] whose key is in
    [keep_params] or whose value is neither the parser's default nor has
    the default as its text, in their order and with their values.  So a
    parameter named in [keep_params] is always kept, a parameter left at
    its default and not named there is dropped, nothing is added or
    changed, and pruning what has been pruned changes nothing. *)
Theorem prune_defaults_spec (params : pydict) (keep_params : list string) :
  List.NoDup (dict_keys params) ->
  prune_defaults get_default params keep_params =
    List.filter (fun kv => pruned_in get_default keep_params (fst kv) (snd kv))
                params /\
  (forall k,
     dict_get k (prune_defaults get_default params keep_params) =
     match dict_get k params with
     | Some v =>
         if pruned_in get_default keep_params k v then Some v else None
     | None => None
     end) /\
  (forall k v, dict_get k params = Some v -> str_in k keep_params = true ->
     dict_get k (prune_defaults get_default params keep_params) = Some v) /\
  (forall k v, dict_get k params = Some v -> str_in k keep_params = false ->
     py_eq (get_default k) v = true ->
     dict_get k (prune_defaults get_default params keep_params) = None) /\
  prune_defaults get_default
    (prune_defaults get_default params keep_params) keep_params =
  prune_defaults get_default params keep_params.
Proof.
  intros Hnd.
  assert (E : forall d, List.NoDup (dict_keys d) ->
            prune_defaults get_default d keep_params =
            List.filter
              (fun kv => pruned_in get_default keep_params (fst kv) (snd kv)) d).
  { intros d Hd. unfold prune_defaults. now rewrite prune_fold. }
  assert (G : forall k,
     dict_get k (prune_defaults get_default params keep_params) =
     match dict_get k params with
     | Some v =>
         if pruned_in get_default keep_params k v then Some v else None
     | None => None
     end).
  { intros k. rewrite (E params Hnd). now rewrite dict_get_filter. }
  split; [exact (E params Hnd)|]. split; [exact G|]. split; [|split].
  - intros k v Hv Hk. rewrite G, Hv. unfold pruned_in. now rewrite Hk.
  - intros k v Hv Hk Hd. rewrite G, Hv. unfold pruned_in.
    now rewrite Hk, Hd.
  - rewrite (E params Hnd).
    rewrite E by now apply filter_keys_nodup.
    apply filter_twice.
Qed.

End PruneFacts.

(* ===================================================================== *)
(** * parse_config_file: the list made from a configuration file *)
(* ===================================================================== *)

Section ConfigFacts.

Import ParameterParser ParameterTools Spec SpecTools.

Context {FT : FloatText}.
Variable load_json : string -> result pyval.
Variable parse_args : cl_args -> result pydict.

(** Where the values of a dictionary come from. *)
Lemma store_all_In l : forall st k v,
  In (k, v) (newdict (store_all l st)) ->
  In (k, v) l \/ In (k, v) (newdict st).
Proof.
  induction l as [|[k0 v0] l IH]; intros st k v H; [now right|].
  unfold store_all in H. simpl in H. apply IH in H as [H|H].
  - left. now right.
  - rewrite store_leaf_newdict in H.
    apply dict_set_In in H as [H|H]; [left; now left | now right].
Qed.

Lemma dict_del_In {V} k (d : list (string * V)) kv :
  In kv (dict_del k d) -> In kv d.
Proof.
  induction d as [|[k' v'] r IH]; simpl; [tauto|].
  destruct (String.eqb k' k); simpl; [tauto|]. intros [H|H]; auto.
Qed.

Lemma dict_del_nodup {V} k (d : list (string * V)) :
  List.NoDup (dict_keys d) -> List.NoDup (dict_keys (dict_del k d)).
Proof.
  induction d as [|[k' v'] r IH]; simpl; [tauto|].
  intros H. inversion H as [|? ? Hk Hr]; subst.
  destruct (String.eqb k' k); [exact Hr|].
  simpl. constructor; [|now apply IH].
  intros Hin. apply Hk. eapply dict_del_keys, Hin.
Qed.

Lemma rename_key_value keys o n (d : pydict) k v :
  In (k, v) (rename_key keys (o, n) d) -> exists k', In (k', v) d.
Proof.
  unfold rename_key. destruct (str_in o keys); [|eauto].
  destruct (dict_get o d) as [w|] eqn:Hw; [|eauto].
  intros H. apply dict_set_In in H as [[= -> ->]|H].
  - exists o. now apply dict_get_In.
  - exists k. eapply dict_del_In, H.
Qed.

Lemma rename_key_nodup keys o n (d : pydict) :
  List.NoDup (dict_keys d) ->
  List.NoDup (dict_keys (rename_key keys (o, n) d)).
Proof.
  intros H. unfold rename_key. destruct (str_in o keys); [|exact H].
  destruct (dict_get o d); [|exact H].
  now apply dict_set_nodup, dict_del_nodup.
Qed.

Lemma renamed_value keys (d : pydict) k v :
  In (k, v) (fold_left (fun d0 kv => rename_key keys kv d0)
                       optional_names_dict d) ->
  exists k', In (k', v) d.
Proof.
  unfold optional_names_dict. cbn [fold_left]. intros H.
  repeat (apply rename_key_value in H as [? H]). eauto.
Qed.

Lemma renamed_nodup keys (d : pydict) :
  List.NoDup (dict_keys d) ->
  List.NoDup (dict_keys (fold_left (fun d0 kv => rename_key keys kv d0)
                                   optional_names_dict d)).
Proof.
  intros H. unfold optional_names_dict. cbn [fold_left].
  now repeat apply rename_key_nodup.
Qed.

Lemma keep_accepted_spec keep (flat_dict : pydict) :
  List.NoDup (dict_keys (keep_accepted keep flat_dict)) /\
  forall k v, In (k, v) (keep_accepted keep flat_dict) ->
              In (k, v) flat_dict.
Proof.
  unfold keep_accepted.
  assert (H : forall acc,
    List.NoDup (dict_keys acc) ->
    (forall k v, In (k, v) acc -> In (k, v) flat_dict) ->
    List.NoDup (dict_keys
      (fold_left (fun newdict k =>
                    match dict_get k flat_dict with
                    | Some v => dict_set k v newdict
                    | None => newdict
                    end) keep acc)) /\
    forall k v,
      In (k, v) (fold_left (fun newdict k =>
                    match dict_get k flat_dict with
                    | Some v => dict_set k v newdict
                    | None => newdict
                    end) keep acc) -> In (k, v) flat_dict).
  { induction keep as [|k0 keep IH]; intros acc Hnd Hin; [now split|].
    cbn [fold_left]. apply IH.
    - destruct (dict_get k0 flat_dict); [now apply dict_set_nodup|exact Hnd].
    - destruct (dict_get k0 flat_dict) as [v0|] eqn:E; [|exact Hin].
      intros k v H. apply dict_set_In in H as [[= -> ->]|H];
        [now apply dict_get_In | now apply Hin]. }
  apply H; [constructor | intros k v []].
Qed.

Lemma flag_contains_dashes k : str_contains "--" ("--" +:+ k) = true.
Proof.
  apply prefix_str_contains.
  change ("--" +:+ k) with (String "-" (String "-" k)).
  cbn [String.prefix]. destruct (ascii_dec "-" "-"); [|congruence].
  now destruct k.
Qed.

(** The tokens of one entry that contain ["--"]: its flag, if any. *)
Lemma just_args_entry rs k v :
  str_contains "--" (value_text rs v) = false ->
  just_args (entry_to_list rs (k, v)) = [] \/
  just_args (entry_to_list rs (k, v)) = ["--" +:+ k].
Proof.
  intros Hv. unfold entry_to_list.
  destruct (str_in k default_false);
    [destruct (str_in _ true_options); [right|now left];
     now rewrite just_args_cons_flag by apply flag_contains_dashes|].
  destruct (str_in k default_true);
    [destruct (str_in _ false_options); [right|now left];
     now rewrite just_args_cons_flag by apply flag_contains_dashes|].
  right. rewrite just_args_cons_flag by apply flag_contains_dashes.
  now rewrite just_args_cons_value by exact Hv.
Qed.

(** The flags written for a dictionary without repeated keys and without
    ["--"] in the text of a value are all different. *)
Lemma tokens_no_repeated_flag rs (d : pydict) :
  List.NoDup (dict_keys d) ->
  (forall k v, In (k, v) d -> str_contains "--" (value_text rs v) = false) ->
  List.NoDup (just_args (concat (map (entry_to_list rs) d))) /\
  forall t, In t (just_args (concat (map (entry_to_list rs) d))) ->
            exists k, t = "--" +:+ k /\ In k (dict_keys d).
Proof.
  induction d as [|[k v] d IH]; intros Hnd Hv.
  - split; [constructor | intros t []].
  - simpl in Hnd. inversion Hnd as [|? ? Hk Hd]; subst.
    destruct (IH Hd (fun k0 v0 H => Hv k0 v0 (or_intror H))) as [IH1 IH2].
    cbn [map concat]. rewrite just_args_app.
    destruct (just_args_entry rs k v (Hv k v (or_introl eq_refl)))
      as [E|E]; rewrite E; cbn [app].
    + split; [exact IH1|]. intros t Ht.
      destruct (IH2 t Ht) as (k' & -> & Hk'). exists k'. split; [easy|].
      now right.
    + split.
      * constructor; [|exact IH1]. intros Hin.
        destruct (IH2 _ Hin) as (k' & E' & Hk').
        apply String.app_inj in E'. subst k'. contradiction.
      * intros t [<-|Ht]; [exists k; split; [easy | now left]|].
        destruct (IH2 t Ht) as (k' & -> & Hk'). exists k'. split; [easy|].
        now right.
Qed.

(** In the list that [parse_config_file] makes from a configuration file,
    no token that contains ["--"] occurs twice, provided that neither the
    text of a value of the file nor the path of the file contains ["--"]:
    the list passes the duplicate check of [parse_command_line]. *)
Theorem config_file_list_has_no_repeated_flag (path : string) (d : pydict)
  (l : list string) :
  load_json path = Ok (VDict d) ->
  (forall k v, In (k, v) (leaves d) ->
     str_contains "--" (value_text false v) = false) ->
  str_contains "--" (value_text false (VStr path)) = false ->
  parse_config_file load_json parse_args path = Ok l ->
  no_repeated_flag l.
Proof.
  intros Hload Hleaves Hpath H. unfold parse_config_file in H.
  rewrite Hload in H. cbn [bind] in H.
  apply bind_Ok in H as (hyperparam & _ & H).
  apply bind_Ok in H as (default & _ & H).
  unfold dict_to_list in H. injection H as <-.
  set (flat0 := newdict (flatten_dict d [])) in *.
  set (accepted := keep_accepted (dict_keys default)
                     (replace_json_names flat0)) in *.
  destruct (keep_accepted_spec (dict_keys default) (replace_json_names flat0))
    as [Hnd Hin]. fold accepted in Hnd, Hin.
  assert (Hflat : forall k v, In (k, v) flat0 -> In (k, v) (leaves d)).
  { intros k v Hkv. unfold flat0, flatten_dict in Hkv.
    rewrite flatten_items_store_all in Hkv.
    apply store_all_In in Hkv as [Hkv|[]]. exact Hkv. }
  apply tokens_no_repeated_flag.
  - now apply renamed_nodup, dict_set_nodup.
  - intros k v Hkv. apply renamed_value in Hkv as [k1 Hkv].
    apply dict_set_In in Hkv as [[= -> ->]|Hkv]; [exact Hpath|].
    apply Hin in Hkv. unfold replace_json_names in Hkv.
    apply renamed_value in Hkv as [k2 Hkv].
    exact (Hleaves k2 v (Hflat k2 v Hkv)).
Qed.

End ConfigFacts.

(* ===================================================================== *)
(** * Reading the results of a neural-network training run *)
(* ===================================================================== *)

Section ResultFacts.

Import ModelWrapper ModelResults.

Context {ML : ModelLibrary} {PL : PerfLibrary}.
Variable get_full_dataset_perf_data : wrapper -> result PerfData.

(** A run of [train] in which every fold runs every epoch, with what it
    leaves in the object. *)
Lemma train_outcome (w : wrapper) pipeline wd0 m0 :
  model w = Some m0 ->
  prepared w ->
  train_valid_dsets pipeline <> [] ->
  (0 < Params.max_epochs (params w))%Z ->
  within_time (params w) pipeline ->
  exists w' wd' b tr va te,
    DCNNModelWrapper_train w pipeline wd0 = Ok (w', wd') /\
    cls w' = cls w /\ params w' = params w /\
    best_model_dir w' = best_model_dir w /\
    baseline_model_dir w' = baseline_model_dir w /\
    best_epoch w' = Some (Z.of_nat b) /\
    np_argmax (expected_scores w m0 pipeline) = Ok b /\
    perf w' = PerfEpochs tr va te (expected_scores w m0 pipeline) /\
    length (perf_data tr) = Z.to_nat (Params.max_epochs (params w)) /\
    length (perf_data va) = Z.to_nat (Params.max_epochs (params w)) /\
    length (perf_data te) = Z.to_nat (Params.max_epochs (params w)) /\
    (forall i, (i < Z.to_nat (Params.max_epochs (params w)))%nat ->
       perf_data va !! i =
       Some (valid_perf_from w m0 (train_valid_dsets pipeline) 0 i
               (create_perf_data (Params.prediction_type (params w))
                  pipeline "valid"))) /\
    fit_increments (calls wd') =
      (fit_increments (calls wd0) +
       Z.of_nat (length (train_valid_dsets pipeline)) *
       Params.max_epochs (params w) +
       Z.max (Params.baseline_epoch (params w)) (Z.of_nat b))%Z.
Proof.
  intros Hm Hprep Hd Hpos Hot.
  set (n := Z.to_nat (Params.max_epochs (params w))).
  destruct (train_and_score_ok w pipeline wd0 m0 Hm Hpos Hot)
    as (st & b & Hts & Hsc & Hb & Hp & Hfit).
  (* the state of the loops, once more, for the accumulators *)
  assert (Hdata : run_shape n st /\
    forall i, (i < n)%nat ->
      perf_data (valid_sp st) !! i =
      Some (valid_perf_from w m0 (train_valid_dsets pipeline) 0 i
              (create_perf_data (Params.prediction_type (params w))
                 pipeline "valid"))).
  { unfold train_and_score in Hts.
    replace (Params.max_epochs (params w) <? 0)%Z with false in Hts
      by (symmetry; apply Z.ltb_ge; lia).
    destruct (fold_loop_ok w pipeline m0 n (train_valid_dsets pipeline) 0%nat
                (initial_run w pipeline wd0)
                (initial_run_shape w pipeline wd0)
                eq_refl eq_refl (fun k' ei _ _ => Hot k' ei) (fun _ => Hm))
      as (st1 & E1 & Hsh1 & Hp1 & Hs1 & Hf1 & Hv1).
    rewrite E1 in Hts. cbn [bind] in Hts. rewrite Hp1 in Hts. fold n in Hts.
    destruct (scoring_ok n n 0%nat st1 Hsh1 ltac:(lia))
      as (st2 & E2 & Hsh2 & Hm2 & Hp2 & Hw2 & Hv2 & Hs2).
    rewrite E2 in Hts. cbn [bind] in Hts.
    apply bind_Ok in Hts as (b' & _ & Hts). injection Hts as <- _.
    split; [exact Hsh2|]. intros i Hi. rewrite Hv2.
    apply (Hv1 i _ Hi). unfold initial_run. cbn [valid_sp perf_data].
    now apply lookup_repeat. }
  destruct Hdata as [Hsh Hvalid].
  destruct (refit_dataset_some pipeline Hd) as [dset Hds].
  destruct (refit_result w pipeline (Z.of_nat b) st dset Hprep Hds)
    as (st' & Hr & Hp' & Htr' & Hva' & Hte' & Hsc' & Hcalls & _).
  unfold DCNNModelWrapper_train. rewrite Hts. cbn [bind fst snd].
  rewrite Hr. cbn [bind].
  destruct Hsh as ((Htr & _) & (Hva & _) & (Hte & _) & _).
  eexists; eexists; exists b; eexists; eexists; eexists.
  split; [reflexivity|].
  cbn [cls params best_model_dir baseline_model_dir best_epoch perf].
  split; [reflexivity|]. split; [congruence|].
  split; [reflexivity|]. split; [reflexivity|]. split; [reflexivity|].
  split; [exact Hb|]. split; [now rewrite Hsc', Hsc|].
  rewrite Htr', Hva', Hte'.
  split; [exact Htr|]. split; [exact Hva|]. split; [exact Hte|].
  split; [exact Hvalid|].
  rewrite Hcalls, fit_increments_app, fit_increments_refit_calls, Hfit.
  reflexivity.
Qed.

Lemma py_index_nat {A} (l : list A) (i : nat) x :
  l !! i = Some x -> py_index l (Z.of_nat i) = Ok x.
Proof.
  intros H. unfold py_index.
  pose proof (lookup_lt_Some _ _ _ H) as Hlt.
  replace (Z.of_nat i <? 0)%Z with false by (symmetry; apply Z.ltb_ge; lia).
  replace ((0 <=? Z.of_nat i)%Z && (Z.of_nat i <? Z.of_nat (length l))%Z)
    with true
    by (symmetry; apply andb_true_iff; split;
        [apply Z.leb_le | apply Z.ltb_lt]; lia).
  unfold list_get. now rewrite Nat2Z.id, H.
Qed.

Lemma py_index_in_range {A} (l : list A) (z : Z) :
  (0 <= z < Z.of_nat (length l))%Z ->
  exists x, l !! Z.to_nat z = Some x /\ py_index l z = Ok x.
Proof.
  intros Hz.
  destruct (lookup_lt_is_Some_2 l (Z.to_nat z) ltac:(lia)) as [x Hx].
  exists x. split; [exact Hx|].
  rewrite <- (Z2Nat.id z) by lia. now apply py_index_nat.
Qed.

(** After a run of [train] in which every fold runs every epoch,
    [get_perf_data('valid', 'best')] returns the validation accumulator of
    the epoch [best_epoch], fed by every fold with the predictions of its
    model at that epoch, and no epoch has a higher model-choice score than
    this accumulator has. *)
Theorem best_validation_data_after_train (w : wrapper) (pipeline : Pipeline)
  (wd0 : world) (m0 : Model) :
  cls w = DCNNModelWrapper ->
  model w = Some m0 ->
  prepared w ->
  train_valid_dsets pipeline <> [] ->
  (0 < Params.max_epochs (params w))%Z ->
  within_time (params w) pipeline ->
  exists w' wd' b pd,
    DCNNModelWrapper_train w pipeline wd0 = Ok (w', wd') /\
    best_epoch w' = Some (Z.of_nat b) /\
    get_perf_data get_full_dataset_perf_data w' "valid" (Some "best")
      = Ok pd /\
    pd = valid_perf_from w m0 (train_valid_dsets pipeline) 0 b
           (create_perf_data (Params.prediction_type (params w)) pipeline
              "valid") /\
    (forall j x, expected_scores w m0 pipeline !! j = Some x ->
       (x <= model_choice_score pd
               (Params.model_choice_score_type (params w)))%Q).
Proof.
  intros Hcls Hm Hprep Hd Hpos Hot.
  destruct (train_outcome w pipeline wd0 m0 Hm Hprep Hd Hpos Hot)
    as (w' & wd' & b & tr & va & te & Ht & Hc & Hp & Hbd & _ & Hbe & Hb &
        Hperf & _ & Hlen & _ & Hvalid & _).
  destruct (np_argmax_spec (expected_scores w m0 pipeline))
    as (b' & sb & Hb' & Hsb & Hmax & _).
  { intros E. rewrite E in Hb. discriminate. }
  assert (b' = b) as -> by congruence.
  assert (Hlt : (b < Z.to_nat (Params.max_epochs (params w)))%nat).
  { apply lookup_lt_Some in Hsb. unfold expected_scores in Hsb.
    now rewrite length_map, length_seq in Hsb. }
  exists w', wd', b. eexists. split; [exact Ht|]. split; [exact Hbe|].
  split; [|split; [reflexivity|]].
  - unfold get_perf_data. rewrite Hc, Hcls.
    unfold DCNNModelWrapper_get_perf_data, epoch_of_label, get_best_epoch,
      epoch_perf_data.
    cbn [String.eqb Ascii.eqb Bool.eqb orb].
    rewrite Hbe, Hbd, Hperf. destruct Hprep as (_ & _ & Hbest & _).
    rewrite Hbest. cbn [get_dir bind fst].
    now apply py_index_nat, Hvalid.
  - intros j x Hj. unfold expected_scores in Hsb.
    rewrite lookup_map_seq in Hsb by exact Hlt. injection Hsb as <-.
    exact (Hmax j x Hj).
Qed.

(** After such a run, [get_perf_data(subset, 'baseline')] returns, for
    each of the subsets ['train'], ['valid'] and ['test'], the accumulator
    of the epoch [min(max_epochs, baseline_epoch) - 1] when
    [baseline_epoch >= 1]: the index stays inside the lists also when
    [baseline_epoch] is larger than [max_epochs]. *)
Theorem baseline_data_after_train (w : wrapper) (pipeline : Pipeline)
  (wd0 : world) (m0 : Model) (subset : string) :
  cls w = DCNNModelWrapper ->
  model w = Some m0 ->
  prepared w ->
  train_valid_dsets pipeline <> [] ->
  (0 < Params.max_epochs (params w))%Z ->
  within_time (params w) pipeline ->
  (1 <= Params.baseline_epoch (params w))%Z ->
  In subset ["train"; "valid"; "test"] ->
  exists w' wd' l pd,
    DCNNModelWrapper_train w pipeline wd0 = Ok (w', wd') /\
    epoch_perf_data w' subset = Ok l /\
    l !! Z.to_nat (Z.min (Params.max_epochs (params w))
                         (Params.baseline_epoch (params w)) - 1) = Some pd /\
    get_perf_data get_full_dataset_perf_data w' subset (Some "baseline")
      = Ok pd.
Proof.
  intros Hcls Hm Hprep Hd Hpos Hot Hbase Hsub.
  destruct (train_outcome w pipeline wd0 m0 Hm Hprep Hd Hpos Hot)
    as (w' & wd' & b & tr & va & te & Ht & Hc & Hp & _ & Hbl & _ & _ &
        Hperf & Hltr & Hlva & Hlte & _).
  set (e := (Z.min (Params.max_epochs (params w))
                   (Params.baseline_epoch (params w)) - 1)%Z).
  assert (He : (if (Params.max_epochs (params w) <?
                    Params.baseline_epoch (params w))%Z
                then (Params.max_epochs (params w) - 1)%Z
                else (Params.baseline_epoch (params w) - 1)%Z) = e).
  { unfold e. destruct (Z.ltb_spec (Params.max_epochs (params w))
                          (Params.baseline_epoch (params w))); lia. }
  assert (Hl : exists l, epoch_perf_data w' subset = Ok l /\
                 length l = Z.to_nat (Params.max_epochs (params w))).
  { unfold epoch_perf_data. rewrite Hperf.
    destruct Hsub as [<-|[<-|[<-|[]]]]; cbn [String.eqb Ascii.eqb Bool.eqb];
      eexists; split; try reflexivity; assumption. }
  destruct Hl as (l & Hl & Hlen).
  destruct (py_index_in_range l e) as (pd & Hpd & Hidx).
  { rewrite Hlen. unfold e. lia. }
  exists w', wd', l, pd. split; [exact Ht|]. split; [exact Hl|].
  split; [exact Hpd|].
  unfold get_perf_data. rewrite Hc, Hcls.
  unfold DCNNModelWrapper_get_perf_data, epoch_of_label.
  cbn [String.eqb Ascii.eqb Bool.eqb]. rewrite Hp, He, Hbl.
  destruct Hprep as (_ & _ & _ & Hbaseline). rewrite Hbaseline.
  cbn [get_dir bind fst]. rewrite Hl. cbn [bind].
  destruct Hsub as [<-|[<-|[<-|[]]]]; exact Hidx.
Qed.

End ResultFacts.

(* ===================================================================== *)
(** * More on the training runs *)
(* ===================================================================== *)

Section MoreTrainFacts.

Import ModelWrapper ModelResults.

Context {ML : ModelLibrary} {PL : PerfLibrary}.
Variable get_full_dataset_perf_data : wrapper -> result PerfData.

(** The cost of a run of [train] in which every fold runs every epoch: the
    loops fit one epoch [number of folds * max_epochs] times, and the refit
    adds [max(best_epoch, baseline_epoch)] epochs. *)
Theorem train_fit_increments (w : wrapper) (pipeline : Pipeline)
  (wd0 : world) (m0 : Model) :
  model w = Some m0 ->
  prepared w ->
  train_valid_dsets pipeline <> [] ->
  (0 < Params.max_epochs (params w))%Z ->
  within_time (params w) pipeline ->
  exists w' wd' b,
    DCNNModelWrapper_train w pipeline wd0 = Ok (w', wd') /\
    best_epoch w' = Some (Z.of_nat b) /\
    (Z.of_nat b < Params.max_epochs (params w))%Z /\
    fit_increments (calls wd') =
      (fit_increments (calls wd0) +
       Z.of_nat (length (train_valid_dsets pipeline)) *
       Params.max_epochs (params w) +
       Z.max (Params.baseline_epoch (params w)) (Z.of_nat b))%Z.
Proof.
  intros Hm Hprep Hd Hpos Hot.
  destruct (train_outcome w pipeline wd0 m0 Hm Hprep Hd Hpos Hot)
    as (w' & wd' & b & tr & va & te & Ht & _ & _ & _ & _ & Hbe & Hb &
        _ & _ & _ & _ & _ & Hfit).
  exists w', wd', b. split; [exact Ht|]. split; [exact Hbe|].
  split; [|exact Hfit].
  destruct (np_argmax_spec (expected_scores w m0 pipeline))
    as (b' & sb & Hb' & Hsb & _).
  { intros E. rewrite E in Hb. discriminate. }
  assert (b' = b) as -> by congruence.
  apply lookup_lt_Some in Hsb. unfold expected_scores in Hsb.
  rewrite length_map, length_seq in Hsb. lia.
Qed.

(** With [max_epochs <= 0] there is no epoch to choose from: [train] raises
    [ValueError], from the allocation of the arrays when [max_epochs] is
    negative and from [np.argmax] on an empty array when it is 0. *)
Theorem train_without_epochs_raises (w : wrapper) (pipeline : Pipeline)
  (wd0 : world) (m0 : Model) :
  model w = Some m0 ->
  (Params.max_epochs (params w) <= 0)%Z ->
  exists msg, DCNNModelWrapper_train w pipeline wd0 = Raise (ValueError msg).
Proof.
  intros Hm Hle. unfold DCNNModelWrapper_train, train_and_score.
  destruct (Z.ltb_spec (Params.max_epochs (params w)) 0) as [Hneg|Hz].
  - eexists. reflexivity.
  - assert (Hn : Z.to_nat (Params.max_epochs (params w)) = 0%nat) by lia.
    destruct (fold_loop_ok w pipeline m0 0%nat (train_valid_dsets pipeline)
                0%nat (initial_run w pipeline wd0)) as
      (st1 & E1 & Hsh1 & Hp1 & _).
    + rewrite <- Hn. apply initial_run_shape.
    + reflexivity.
    + exact Hn.
    + intros k' ei _ Hei. lia.
    + intros _. exact Hm.
    + rewrite E1. cbn [bind]. rewrite Hp1, Hn. cbn [seq for_each bind].
      destruct Hsh1 as (_ & _ & _ & Hlen).
      destruct (scores st1); [|discriminate]. cbn [np_argmax bind].
      eexists. reflexivity.
Qed.

(** ** Random forest and xgboost *)

Lemma ensemble_fits_app a b :
  ensemble_fits (a ++ b) = (ensemble_fits a + ensemble_fits b)%nat.
Proof.
  unfold ensemble_fits. now rewrite List.filter_app, length_app.
Qed.

Lemma ensemble_folds_spec pipeline dsets : forall k (st : ensemble_run),
  e_model (ensemble_folds pipeline dsets k st) =
    fitted_on_folds (e_model st) dsets /\
  single_data (e_valid (ensemble_folds pipeline dsets k st)) =
    ensemble_valid_data (e_model st) dsets (single_data (e_valid st)) /\
  ensemble_fits (calls (e_wd (ensemble_folds pipeline dsets k st))) =
    (ensemble_fits (calls (e_wd st)) + length dsets)%nat /\
  checkpoints (e_wd (ensemble_folds pipeline dsets k st)) =
    checkpoints (e_wd st).
Proof.
  induction dsets as [|[train_dset valid_dset] rest IH]; intros k st.
  - cbn. repeat split. lia.
  - cbn [ensemble_folds fitted_on_folds fold_left ensemble_valid_data length
         fst].
    destruct (IH (S k) (ensemble_fold pipeline k (train_dset, valid_dset) st))
      as (H1 & H2 & H3 & H4).
    rewrite H1, H2, H3, H4. unfold ensemble_fold, accumulate_single.
    destruct (accumulate_preds (single_data (e_train st)) _ _) as [ptr vtr].
    destruct (accumulate_preds (single_data (e_valid st)) _ _) as [pva vva].
    destruct (accumulate_preds (single_data (e_test st)) _ _) as [pte vte].
    cbn [e_model e_valid e_wd fst snd single_data do_log do_call calls
         checkpoints].
    cbn [fst]. rewrite ensemble_fits_app. cbn.
    repeat split. lia.
Qed.

(** [train] of a random forest or xgboost wrapper: every fold fits the one
    model object on its training set, and with more than one fold the model
    is fitted once more on the combined data, so [model.fit] is called
    [folds + 1] times then and [folds] times otherwise; the model so
    obtained is the one saved under the model directory; and
    [get_perf_data('valid', ...)] returns, whatever the epoch label, the
    accumulator fed by every fold, whose model-choice score is the one
    [train] stores. *)
Theorem ensemble_train_outcome (w : wrapper) (pipeline : Pipeline)
  (wd0 : world) (m0 : Model) (epoch_label : option string) :
  is_ensemble (cls w) ->
  model w = Some m0 ->
  exists w' wd' final tr va te,
    train w pipeline wd0 = Ok (w', wd') /\
    final =
      (if (1 <? length (train_valid_dsets pipeline))%nat
       then fit_ensemble
              (fitted_on_folds m0 (train_valid_dsets pipeline))
              (combined_training_data pipeline)
       else fitted_on_folds m0 (train_valid_dsets pipeline)) /\
    model w' = Some final /\
    checkpoints wd' !! model_store w = Some final /\
    ensemble_fits (calls wd') =
      (ensemble_fits (calls wd0) + length (train_valid_dsets pipeline) +
       (if (1 <? length (train_valid_dsets pipeline))%nat then 1 else 0))%nat /\
    perf w' =
      PerfSingle tr va te
        (model_choice_score
           (ensemble_valid_data m0 (train_valid_dsets pipeline)
              (create_perf_data (Params.prediction_type (params w)) pipeline
                 "valid"))
           (Params.model_choice_score_type (params w))) /\
    get_perf_data get_full_dataset_perf_data w' "valid" epoch_label =
      Ok (ensemble_valid_data m0 (train_valid_dsets pipeline)
            (create_perf_data (Params.prediction_type (params w)) pipeline
               "valid")).
Proof.
  intros Hc Hm.
  destruct (ensemble_train_dispatch w pipeline wd0 Hc) as [what ->].
  unfold ensemble_train. rewrite Hm.
  set (st0 := mkEnsemble m0 _ _ _ _).
  destruct (ensemble_folds_spec pipeline (train_valid_dsets pipeline) 0%nat
              st0) as (H1 & H2 & H3 & H4).
  set (st := ensemble_folds pipeline (train_valid_dsets pipeline) 0 st0) in *.
  change (calls (e_wd st0)) with (calls wd0) in H3.
  change (checkpoints (e_wd st0)) with (checkpoints wd0) in H4.
  assert (Hva : single_data (with_metrics (e_valid st)) =
                ensemble_valid_data m0 (train_valid_dsets pipeline)
                  (create_perf_data (Params.prediction_type (params w))
                     pipeline "valid")).
  { unfold with_metrics.
    destruct (compute_perf_metrics (single_data (e_valid st))).
    cbn [single_data]. exact H2. }
  assert (Hget : forall w',
    cls w' = cls w ->
    (exists tr te sc, perf w' =
       PerfSingle tr (with_metrics (e_valid st)) te sc) ->
    get_perf_data get_full_dataset_perf_data w' "valid" epoch_label =
      Ok (ensemble_valid_data m0 (train_valid_dsets pipeline)
            (create_perf_data (Params.prediction_type (params w)) pipeline
               "valid"))).
  { intros w' Hcls (tr & te & sc & Hperf).
    unfold get_perf_data. rewrite Hcls.
    assert (E : ensemble_get_perf_data get_full_dataset_perf_data w' "valid"
                  epoch_label = Ok (single_data (with_metrics (e_valid st)))).
    { unfold ensemble_get_perf_data, single_perf_data.
      cbn [String.eqb Ascii.eqb Bool.eqb orb]. now rewrite Hperf. }
    rewrite Hva in E. destruct Hc as [-> | ->]; exact E. }
  destruct (1 <? length (train_valid_dsets pipeline))%nat;
    (eexists; eexists; eexists; eexists; eexists; eexists;
     split; [reflexivity|]);
    (split; [reflexivity|]);
    cbn [model perf save checkpoints calls do_call];
    (split; [now rewrite H1|]);
    (split; [rewrite lookup_insert_eq; now rewrite H1|]);
    (split; [rewrite ?ensemble_fits_app, H3; cbn; lia|]);
    (split; [now rewrite Hva|]);
    (apply Hget; [reflexivity | eauto]).
Qed.

End MoreTrainFacts.

(* ===================================================================== *)
(** * The statements above at concrete inputs *)
(* ===================================================================== *)

Section ParserExamples.

Import ParameterParser ParameterTools Spec SpecTools Examples.


Lemma to_str_splits_into_tokens_witness :
  exists l s,
    dict_to_list (FT := DecimalText.decimal_text) (VDict with_space) true
      = Ok l /\
    to_str (FT := DecimalText.decimal_text) with_space = Ok s /\
    Forall (fun x => has_char " " x = false) l /\
    (l <> [] -> split_on " " s = l) /\
    (l = [] -> s = "").
Proof.
  apply (to_str_splits_into_tokens (FT := DecimalText.decimal_text)
           with_space).
  intros k [<-|[<-|[]]]; reflexivity.
Defined.

Lemma postprocess_args_keeps_other_parameters_witness :
  dict_get "prediction_type" (normalised two_layers) =
  match dict_get "prediction_type" two_layers with
  | Some v => match clean_value v with
              | Ok v' => Some v'
              | Raise _ => None
              end
  | None => None
  end.
Proof.
  apply (postprocess_args_keeps_other_parameters
           (FT := DecimalText.decimal_text) no_files two_layers
           (normalised two_layers) "prediction_type").
  - vm_compute. reflexivity.
  - vm_compute. intuition discriminate.
Defined.

Lemma postprocess_args_restores_spaces_witness :
  dict_get "result_dir" (normalised spaced) =
  Some (if str_in "my results" null_options then VNone
        else VStr "my results").
Proof.
  apply (postprocess_args_restores_spaces
           (FT := DecimalText.decimal_text) no_files spaced
           (normalised spaced) "result_dir" "my results").
  - vm_compute. reflexivity.
  - vm_compute. intuition discriminate.
  - reflexivity.
  - reflexivity.
Defined.

Lemma model_choice_score_type_default_witness :
  dict_get "model_choice_score_type" (normalised two_layers) =
  Some (VStr (if String.eqb "regression" "classification"
              then "roc_auc" else "r2")).
Proof.
  apply (model_choice_score_type_default
           (FT := DecimalText.decimal_text) no_files two_layers
           (normalised two_layers) "regression").
  - vm_compute. reflexivity.
  - reflexivity.
  - reflexivity.
Defined.

Lemma k_fold_test_fraction_rejected_witness :
  raises (postprocess_args (FT := DecimalText.decimal_text) no_files
            k_fold_all_test) /\
  (forall ns1 ns2,
      map_result clean_entry k_fold_all_test = Ok ns1 ->
      load_model_filter no_files ns1 = Ok ns2 ->
      postprocess_args (FT := DecimalText.decimal_text) no_files
        k_fold_all_test =
      Raise (Exception
        "Split fraction for test set leaves no room for training and validation data.")).
Proof.
  apply (k_fold_test_fraction_rejected (FT := DecimalText.decimal_text)
           no_files k_fold_all_test 1).
  - reflexivity.
  - reflexivity.
  - vm_compute. discriminate.
Defined.

Lemma list_rejected_outside_hyperparam_witness :
  raises (postprocess_args (FT := DecimalText.decimal_text) no_files
            two_rates).
Proof.
  apply (list_rejected_outside_hyperparam (FT := DecimalText.decimal_text)
           no_files two_rates "learning_rate" "0.1,0.2").
  - left. reflexivity.
  - reflexivity.
  - reflexivity.
  - reflexivity.
  - reflexivity.
Defined.

Lemma single_integer_parameter_witness :
  dict_get "layer_sizes" (normalised one_layer) =
  Some (if str_in "layer_sizes" keep_as_list then VList [VInt 64]
        else VInt 64).
Proof.
  apply (single_integer_parameter (FT := DecimalText.decimal_text)
           no_files one_layer (normalised one_layer) "layer_sizes" 64).
  - vm_compute. reflexivity.
  - reflexivity.
  - left. reflexivity.
  - reflexivity.
Defined.

Lemma override_after_config_file_witness :
  no_repeated_flag
    ["--model_type"; "NN"; "--config_file"; "cfg.json";
     "--splitter"; "scaffold"] /\
  (exists kept,
     ["--model_type"; "NN"; "--config_file"; "cfg.json";
      "--splitter"; "scaffold"] = kept ++ ["--splitter"; "scaffold"] /\
     forall x, In x (just_args kept) ->
       In x (just_args ["--model_type"; "NN"; "--splitter"; "random";
                        "--config_file"; "cfg.json"]) /\
       ~ In x (just_args ["--splitter"; "scaffold"])) /\
  wrapper (FT := DecimalText.decimal_text) one_file known_parameters no_eval
    [WList ["--config_file"; "cfg.json"; "--splitter"; "scaffold"]] =
  bind (known_parameters
          (ArgsList ["--model_type"; "NN"; "--config_file"; "cfg.json";
                     "--splitter"; "scaffold"]))
       (postprocess_args (FT := DecimalText.decimal_text) one_file).
Proof.
  apply (override_after_config_file (FT := DecimalText.decimal_text)
           one_file known_parameters no_eval "cfg.json"
           ["--model_type"; "NN"; "--splitter"; "random";
            "--config_file"; "cfg.json"]
           ["--splitter"; "scaffold"]).
  - vm_compute. reflexivity.
  - vm_compute. repeat (constructor; [simpl; intuition discriminate|]).
    constructor.
  - vm_compute. repeat (constructor; [simpl; intuition discriminate|]).
    constructor.
  - vm_compute. reflexivity.
Defined.

Lemma prune_defaults_spec_witness :
  prune_defaults (FT := DecimalText.decimal_text) default_of given
    ["splitter"] =
    List.filter
      (fun kv => pruned_in (FT := DecimalText.decimal_text) default_of
                   ["splitter"] (fst kv) (snd kv)) given /\
  (forall k,
     dict_get k (prune_defaults (FT := DecimalText.decimal_text) default_of
                   given ["splitter"]) =
     match dict_get k given with
     | Some v =>
         if pruned_in (FT := DecimalText.decimal_text) default_of
              ["splitter"] k v
         then Some v else None
     | None => None
     end) /\
  (forall k v, dict_get k given = Some v -> str_in k ["splitter"] = true ->
     dict_get k (prune_defaults (FT := DecimalText.decimal_text) default_of
                   given ["splitter"]) = Some v) /\
  (forall k v, dict_get k given = Some v -> str_in k ["splitter"] = false ->
     py_eq (default_of k) v = true ->
     dict_get k (prune_defaults (FT := DecimalText.decimal_text) default_of
                   given ["splitter"]) = None) /\
  prune_defaults (FT := DecimalText.decimal_text) default_of
    (prune_defaults (FT := DecimalText.decimal_text) default_of given
       ["splitter"]) ["splitter"] =
  prune_defaults (FT := DecimalText.decimal_text) default_of given
    ["splitter"].
Proof.
  apply (prune_defaults_spec (FT := DecimalText.decimal_text) default_of
           given ["splitter"]).
  simpl. repeat (constructor; [simpl; intuition discriminate|]). constructor.
Defined.

Lemma config_file_list_has_no_repeated_flag_witness :
  no_repeated_flag
    ["--model_type"; "NN"; "--splitter"; "random";
     "--config_file"; "cfg.json"].
Proof.
  apply (config_file_list_has_no_repeated_flag
           (FT := DecimalText.decimal_text) one_file known_parameters
           "cfg.json" config_json).
  - reflexivity.
  - intros k v [[= <- <-]|[[= <- <-]|[]]]; reflexivity.
  - reflexivity.
  - vm_compute. reflexivity.
Defined.

End ParserExamples.

Section RunExamples.

Import ModelWrapper ModelResults Toy Examples.

Lemma best_validation_data_after_train_witness :
  exists w' wd' b pd,
    DCNNModelWrapper_train (nn_wrapper (params "NN" 3 5 "twintron-blue"))
      three_folds empty_world = Ok (w', wd') /\
    best_epoch w' = Some (Z.of_nat b) /\
    get_perf_data no_full_data w' "valid" (Some "best") = Ok pd /\
    (forall j x,
       expected_scores (nn_wrapper (params "NN" 3 5 "twintron-blue")) 0%nat
         three_folds !! j = Some x ->
       (x <= model_choice_score pd "r2")%Q).
Proof.
  destruct (best_validation_data_after_train (ML := library)
              (PL := accumulator) no_full_data
              (nn_wrapper (params "NN" 3 5 "twintron-blue"))
              three_folds empty_world 0%nat)
    as (w' & wd' & b & pd & H1 & H2 & H3 & _ & H5).
  - reflexivity.
  - reflexivity.
  - repeat split.
  - discriminate.
  - reflexivity.
  - intros k ei. reflexivity.
  - exists w', wd', b, pd. repeat split; assumption.
Defined.

Lemma baseline_data_after_train_witness :
  exists w' wd' pd,
    DCNNModelWrapper_train (nn_wrapper (params "NN" 3 5 "twintron-blue"))
      three_folds empty_world = Ok (w', wd') /\
    get_perf_data no_full_data w' "test" (Some "baseline") = Ok pd.
Proof.
  destruct (baseline_data_after_train (ML := library) (PL := accumulator)
              no_full_data (nn_wrapper (params "NN" 3 5 "twintron-blue"))
              three_folds empty_world 0%nat "test")
    as (w' & wd' & l & pd & H1 & _ & _ & H4).
  - reflexivity.
  - reflexivity.
  - repeat split.
  - discriminate.
  - reflexivity.
  - intros k ei. reflexivity.
  - vm_compute. discriminate.
  - right. right. left. reflexivity.
  - exists w', wd', pd. split; assumption.
Defined.

Lemma train_fit_increments_witness :
  exists w' wd' b,
    DCNNModelWrapper_train (nn_wrapper (params "NN" 3 5 "twintron-blue"))
      three_folds empty_world = Ok (w', wd') /\
    best_epoch w' = Some (Z.of_nat b) /\
    fit_increments (calls wd') = (0 + 3 * 3 + Z.max 5 (Z.of_nat b))%Z.
Proof.
  destruct (train_fit_increments (ML := library) (PL := accumulator)
              (nn_wrapper (params "NN" 3 5 "twintron-blue"))
              three_folds empty_world 0%nat)
    as (w' & wd' & b & H1 & H2 & _ & H4).
  - reflexivity.
  - repeat split.
  - discriminate.
  - reflexivity.
  - intros k ei. reflexivity.
  - exists w', wd', b. repeat split; assumption.
Defined.

Lemma train_without_epochs_raises_witness :
  exists msg,
    DCNNModelWrapper_train (nn_wrapper (params "NN" 0 5 "twintron-blue"))
      three_folds empty_world = Raise (ValueError msg).
Proof.
  apply (train_without_epochs_raises (ML := library) (PL := accumulator)
           (nn_wrapper (params "NN" 0 5 "twintron-blue"))
           three_folds empty_world 0%nat).
  - reflexivity.
  - vm_compute. discriminate.
Defined.

Lemma ensemble_train_outcome_witness :
  exists w' wd' final,
    train (ensemble_init (ML := library) (PL := accumulator) DCRFModelWrapper
             (params "RF" 30 30 "twintron-blue") tt tt)
      three_folds empty_world = Ok (w', wd') /\
    model w' = Some final /\
    checkpoints wd' !! "/out/best_model" = Some final /\
    ensemble_fits (calls wd') = 4%nat.
Proof.
  destruct (ensemble_train_outcome (ML := library) (PL := accumulator)
              no_full_data
              (ensemble_init (ML := library) (PL := accumulator) DCRFModelWrapper
                 (params "RF" 30 30 "twintron-blue") tt tt)
              three_folds empty_world 0%nat None)
    as (w' & wd' & final & tr & va & te & H1 & _ & H3 & H4 & H5 & _).
  - left. reflexivity.
  - reflexivity.
  - exists w', wd', final. repeat split; assumption.
Defined.

End RunExamples.

(* ===================================================================== *)
(** * postprocess_args in hyperparameter mode *)
(* ===================================================================== *)

Section HyperFacts.

Import ParameterParser Spec SpecTools.

Context {FT : FloatText}.
Variable load_json : string -> result pyval.

Lemma has_char_single c d :
  c <> d -> has_char c (String d EmptyString) = false.
Proof.
  intros H. cbn [has_char]. rewrite orb_false_r.
  apply Ascii.eqb_neq. congruence.
Qed.

Lemma group_text_no_char g c :
  is_digit c = false -> c <> "-"%char -> c <> ","%char ->
  has_char c (group_text g) = false.
Proof.
  intros Hd Hm Hc. unfold group_text. apply has_char_join.
  - now apply has_char_single.
  - apply List.Forall_forall. intros x Hx.
    apply in_map_iff in Hx as (z & <- & _). now apply str_int_no_char.
Qed.

Lemma groups_text_no_char gs c :
  is_digit c = false -> c <> "-"%char -> c <> ","%char -> c <> " "%char ->
  has_char c (groups_text gs) = false.
Proof.
  intros Hd Hm Hc Hs. unfold groups_text. apply has_char_join.
  - now apply has_char_single.
  - apply List.Forall_forall. intros x Hx.
    apply in_map_iff in Hx as (g & <- & _). now apply group_text_no_char.
Qed.

Lemma groups_text_clean gs :
  clean_value (VStr (groups_text gs)) = Ok (VStr (groups_text gs)).
Proof.
  apply clean_value_fixed.
  - apply groups_text_no_char; (reflexivity || discriminate).
  - destruct (str_in _ null_options) eqn:E; [|reflexivity].
    apply null_option_letter in E.
    destruct E as [E|E];
      rewrite groups_text_no_char in E;
      (discriminate || reflexivity).
Qed.

(** The integers of one list, read back from its text. *)
Lemma group_text_numbers k g :
  str_in k convert_to_int_list = true -> g <> [] ->
  map_result (to_number k) (split_on "," (group_text g)) = Ok (map VInt g).
Proof.
  intros Hk Hg. unfold group_text.
  rewrite split_on_join.
  - rewrite <- (map_result_faithful k (map VInt g)).
    + now rewrite map_map.
    + apply List.Forall_forall. intros x Hx.
      apply in_map_iff in Hx as (z & <- & _). now apply int_faithful.
  - now destruct g.
  - apply List.Forall_forall. intros x Hx.
    apply in_map_iff in Hx as (z & <- & _).
    apply str_int_no_char; (reflexivity || discriminate).
Qed.

Lemma hyper_numeric_group_step k g acc (a : pydict) :
  str_in k convert_to_int_list = true -> g <> [] ->
  hyper_numeric_group k (group_text g) (acc, a) =
  Ok (acc ++ [int_list g],
      dict_set k (hyper_stored (str_in k keep_as_list) (acc ++ [int_list g]))
               a).
Proof.
  intros Hk Hg. unfold hyper_numeric_group.
  rewrite (group_text_numbers k g Hk Hg). cbn [bind].
  fold (int_list g). unfold hyper_stored.
  destruct (acc ++ [int_list g]) as [|first [|second r]] eqn:E.
  - now destruct acc.
  - assert (first = int_list g) as ->.
    { destruct acc as [|x [|y acc']]; simpl in E; congruence. }
    unfold int_list. destruct g as [|z [|z' g']]; [contradiction| |];
      cbn [map]; [|reflexivity].
    now destruct (str_in k keep_as_list).
  - reflexivity.
Qed.

Lemma hyper_groups_loop k gs : forall acc (a : pydict),
  str_in k convert_to_int_list = true ->
  gs <> [] -> Forall (fun g => g <> []) gs ->
  exists a',
    for_each (hyper_numeric_group k) (map group_text gs) (acc, a) =
      Ok (acc ++ map int_list gs, a') /\
    dict_get k a' =
      Some (hyper_stored (str_in k keep_as_list) (acc ++ map int_list gs)).
Proof.
  induction gs as [|g gs IH]; intros acc a Hk Hne Hall; [contradiction|].
  inversion Hall as [|? ? Hg Hgs]; subst.
  cbn [map for_each]. rewrite (hyper_numeric_group_step k g acc a Hk Hg).
  destruct gs as [|g' gs'].
  - eexists. split; [reflexivity|]. apply dict_get_set_eq.
  - destruct (IH (acc ++ [int_list g])
                 (dict_set k (hyper_stored (str_in k keep_as_list)
                                (acc ++ [int_list g])) a)
                 Hk ltac:(discriminate) Hgs)
      as (a' & E & Hget).
    exists a'. rewrite E, Hget. rewrite <- app_assoc. now split.
Qed.

Lemma hyper_stored_value keep gs :
  Forall (fun g => g <> []) gs ->
  hyper_stored keep (map int_list gs) = hyper_value keep gs.
Proof.
  intros Hall. destruct gs as [|g [|g' gs']]; try reflexivity.
  inversion Hall as [|? ? Hg _]; subst.
  destruct g as [|z [|z' g'']]; [contradiction | reflexivity | reflexivity].
Qed.

Lemma int_key_not_str k :
  In k convert_to_int_list ->
  ~ In k convert_to_str_list /\ In k convert_to_numeric_list /\
  k <> "model_filter" /\ k <> "model_choice_score_type" /\
  str_in k convert_to_int_list = true.
Proof.
  unfold convert_to_int_list. simpl. intros H.
  repeat (destruct H as [<-|H];
          [split; [simpl; intuition discriminate |
           split; [simpl; tauto | repeat split; discriminate]]|]).
  destruct H.
Qed.

(** In hyperparameter mode, an integer parameter given as lists of
    integers, the lists separated by spaces and the integers by commas,
    comes out of [postprocess_args] as the list of these lists; as the list
    itself when there is one list; and as the integer when there is one
    list of one integer and the parameter is not in [keep_as_list]. *)
Theorem hyperparam_integer_lists (parsed_args ns : pydict) (k : string)
  (gs : list (list Z)) :
  postprocess_args load_json parsed_args = Ok ns ->
  dict_get "hyperparam" parsed_args = Some (VBool true) ->
  In k convert_to_int_list ->
  gs <> [] ->
  Forall (fun g => g <> []) gs ->
  dict_get k parsed_args = Some (VStr (groups_text gs)) ->
  dict_get k ns = Some (hyper_value (str_in k keep_as_list) gs).
Proof.
  intros H Hh Hk Hne Hall Hv.
  destruct (int_key_not_str k Hk) as (Hstr & Hnum & Hmf & Hsc & Hint).
  apply postprocess_inv in H as (ns1 & ns2 & ns3 & H1 & H2 & _ & H4 & H5).
  assert (Hget : forall j v v', j <> "model_filter" ->
            j <> "model_choice_score_type" ->
            dict_get j parsed_args = Some v -> clean_value v = Ok v' ->
            dict_get j ns3 = Some v').
  { intros j v v' Hj1 Hj2 Hjv Hcv.
    rewrite (default_score_type_frame _ _ _ H4) by exact Hj2.
    rewrite (load_model_filter_frame load_json _ _ _ H2) by exact Hj1.
    now rewrite (clean_entries_get _ _ H1), Hjv, Hcv. }
  unfold convert_lists, getattr in H5.
  rewrite (Hget "hyperparam" (VBool true) (VBool true)) in H5
    by (discriminate || assumption || reflexivity).
  cbn [bind py_truthy] in H5.
  apply bind_Ok in H5 as (a1 & Hs & H5).
  assert (Hk1 : dict_get k a1 = Some (VStr (groups_text gs))).
  { rewrite (for_each_frame hyper_str_item k
               (fun i x y => hyper_str_item_frame i x y k) _ _ _ Hs Hstr).
    apply (Hget k (VStr (groups_text gs))); try assumption.
    apply groups_text_clean. }
  apply in_split in Hnum as (L1 & L2 & HL).
  pose proof numeric_keys_nodup as Hnd. rewrite HL in Hnd, H5.
  apply NoDup_remove_2 in Hnd.
  assert (Hn1 : ~ In k L1) by (intros ?; apply Hnd, in_or_app; now left).
  assert (Hn2 : ~ In k L2) by (intros ?; apply Hnd, in_or_app; now right).
  rewrite for_each_app in H5. apply bind_Ok in H5 as (a2 & Ha2 & H5).
  cbn [for_each] in H5.
  destruct (hyper_numeric_item k a2) as [a3|] eqn:Ha3; [|discriminate].
  rewrite (for_each_frame hyper_numeric_item k
             (fun i x y => hyper_numeric_item_frame i x y k) _ _ _ H5 Hn2).
  assert (Hk2 : dict_get k a2 = Some (VStr (groups_text gs))).
  { rewrite (for_each_frame hyper_numeric_item k
               (fun i x y => hyper_numeric_item_frame i x y k) _ _ _ Ha2 Hn1).
    exact Hk1. }
  unfold hyper_numeric_item, getitem in Ha3. rewrite Hk2 in Ha3.
  cbn [bind is_None py_split] in Ha3.
  unfold groups_text in Ha3 at 1.
  rewrite split_on_join in Ha3.
  - destruct (hyper_groups_loop k gs [] a2 Hint Hne Hall) as (a' & E & Hg).
    rewrite E in Ha3. cbn [bind snd] in Ha3. injection Ha3 as <-.
    rewrite Hg. cbn [app]. now rewrite hyper_stored_value.
  - now destruct gs.
  - apply List.Forall_forall. intros x Hx.
    apply in_map_iff in Hx as (g & <- & _).
    apply group_text_no_char; (reflexivity || discriminate).
Qed.

End HyperFacts.

Section HyperExample.

Import ParameterParser Spec SpecTools Examples.

Lemma hyperparam_integer_lists_witness :
  dict_get "layer_sizes" (normalised layer_search) =
  Some (VList [VList [VInt 10; VInt 100]; VList [VInt 20; VInt 200];
               VList [VInt 30; VInt 300]]).
Proof.
  apply (hyperparam_integer_lists (FT := DecimalText.decimal_text) no_files
           layer_search (normalised layer_search) "layer_sizes"
           [[10; 100]; [20; 200]; [30; 300]]%Z).
  - vm_compute. reflexivity.
  - reflexivity.
  - left. reflexivity.
  - discriminate.
  - repeat constructor; discriminate.
  - reflexivity.
Defined.

End HyperExample.

(* ===================================================================== *)
(** * The neural-network wrapper as the factory and setup_model_dirs
      leave it *)
(* ===================================================================== *)

Section PreparedFacts.

Import ModelWrapper.

Context {FT : FloatText} {ML : ModelLibrary} {PL : PerfLibrary}.

(** For [model_type] ["NN"], [create_model_wrapper] followed by
    [setup_model_dirs] gives a [DCNNModelWrapper] with the given parameters
    whose model is built on [model_dir], and whose three directories, the
    working directory [model_dir], [best_model_dir] and
    [baseline_model_dir], are three different paths under [output_dir]:
    the object is as [train] expects it, and no checkpoint overwrites
    another. *)
Theorem neural_network_wrapper_directories (xgb : option string)
  (p : Params.t) (featurizer : Featurization) (client : DatastoreClient) :
  Params.model_type p = VStr "NN" ->
  exists w0,
    create_model_wrapper xgb p featurizer client = Ok w0 /\
    cls (setup_model_dirs w0) = DCNNModelWrapper /\
    params (setup_model_dirs w0) = p /\
    output_dir (setup_model_dirs w0) = Params.output_dir p /\
    model (setup_model_dirs w0) =
      Some (build_model DCNNModelWrapper p
              (path_join (Params.output_dir p) "model")) /\
    prepared (setup_model_dirs w0) /\
    best_dir (setup_model_dirs w0) <> baseline_dir (setup_model_dirs w0) /\
    best_dir (setup_model_dirs w0) <> model_dir (setup_model_dirs w0) /\
    baseline_dir (setup_model_dirs w0) <> model_dir (setup_model_dirs w0).
Proof.
  intros Hmt. exists (DCNNModelWrapper_init p featurizer client).
  assert (Hprep : prepared
            (setup_model_dirs (DCNNModelWrapper_init p featurizer client))).
  { repeat split. }
  split.
  - unfold create_model_wrapper. rewrite Hmt. reflexivity.
  - do 4 (split; [reflexivity|]). split; [exact Hprep|].
    split; [apply best_baseline_distinct|].
    split; [now apply best_not_model_dir | now apply baseline_not_model_dir].
Qed.

End PreparedFacts.

Section PreparedExample.

Import ModelWrapper Toy.

Lemma neural_network_wrapper_directories_witness :
  exists w0,
    create_model_wrapper (FT := DecimalText.decimal_text) (ML := library)
      (PL := accumulator) None
      (params "NN" 3 5 "twintron-blue") tt tt = Ok w0 /\
    prepared (setup_model_dirs w0) /\
    best_dir (setup_model_dirs w0) <> model_dir (setup_model_dirs w0).
Proof.
  destruct (neural_network_wrapper_directories
              (FT := DecimalText.decimal_text) (ML := library)
              (PL := accumulator) None (params "NN" 3 5 "twintron-blue")
              tt tt eq_refl)
    as (w0 & H1 & _ & _ & _ & _ & H2 & _ & H3 & _).
  exists w0. repeat split; try assumption; apply H2.
Defined.

End PreparedExample.
